(** * SEO Brief Generator backend: job lifecycle and progress streaming

    A shallow embedding of [backend/main.py], [backend/brief_worker.py] and
    [backend/schemas/models.py].

    - A Python [str] is a sequence of Unicode code points: [list N].
    - The module-level [job_store] dict is a [gmap] from job ids to jobs.
    - Code that mutates the store and may raise runs in a small monad that
      threads the store, returns a normal value or an exception, and logs
      every effect in program order: writes to the store, calls to the
      external collaborators, thread starts. *)

From Stdlib Require Import Strings.String Strings.Ascii NArith.
From stdpp Require Import gmap list.

Local Open Scope N_scope.
Local Open Scope list_scope.

(** ** Python strings *)

Notation pystr := (list N).

(** A source literal made of ASCII characters. *)
Fixpoint lit (s : string) : pystr :=
  match s with
  | EmptyString => []
  | String c s' => N_of_ascii c :: lit s'
  end.

(** Characters that literals cannot spell directly. *)
Definition dquote : N := 34.
Definition newline : N := 10.
Definition em_dash : N := 8212.
Definition middle_dot : N := 183.

(** [str.isspace] on one code point (CPython's [_PyUnicode_IsWhitespace]). *)
Definition isspace (c : N) : bool :=
  ((9 <=? c) && (c <=? 13)) || ((28 <=? c) && (c <=? 32))
  || (c =? 133) || (c =? 160) || (c =? 5760)
  || ((8192 <=? c) && (c <=? 8202))
  || (c =? 8232) || (c =? 8233) || (c =? 8239) || (c =? 8287) || (c =? 12288).

Fixpoint lstrip (s : pystr) : pystr :=
  match s with
  | [] => []
  | c :: s' => if isspace c then lstrip s' else s
  end.

Definition rstrip (s : pystr) : pystr := rev (lstrip (rev s)).

(** [s.strip()] *)
Definition strip (s : pystr) : pystr := rstrip (lstrip s).

(** [s.startswith(p)] *)
Fixpoint startswith (p s : pystr) : bool :=
  match p, s with
  | [], _ => true
  | _ :: _, [] => false
  | a :: p', b :: s' => (a =? b) && startswith p' s'
  end.

(** Truthiness of a string: [if s:] / [if not s:]. *)
Definition truthy (s : pystr) : bool :=
  match s with [] => false | _ :: _ => true end.

(** [str(n)] for a non-negative integer. *)
Fixpoint dec_digits (u : Decimal.uint) : pystr :=
  match u with
  | Decimal.Nil => []
  | Decimal.D0 u => 48 :: dec_digits u
  | Decimal.D1 u => 49 :: dec_digits u
  | Decimal.D2 u => 50 :: dec_digits u
  | Decimal.D3 u => 51 :: dec_digits u
  | Decimal.D4 u => 52 :: dec_digits u
  | Decimal.D5 u => 53 :: dec_digits u
  | Decimal.D6 u => 54 :: dec_digits u
  | Decimal.D7 u => 55 :: dec_digits u
  | Decimal.D8 u => 56 :: dec_digits u
  | Decimal.D9 u => 57 :: dec_digits u
  end.

Definition dec (n : nat) : pystr := dec_digits (Nat.to_uint n).

(** [html.escape(s)] with [quote=True]. The library replaces [&] first and
    then the other four characters, which is this character-wise map. *)
Definition escape_char (c : N) : pystr :=
  if c =? 38 then lit "&amp;"
  else if c =? 60 then lit "&lt;"
  else if c =? 62 then lit "&gt;"
  else if c =? 34 then lit "&quot;"
  else if c =? 39 then lit "&#x27;"
  else [c].

Definition html_escape (s : pystr) : pystr := flat_map escape_char s.

(** [s.replace(c, r)] for a one-character pattern [c]. *)
Definition replace_char (c : N) (r : pystr) (s : pystr) : pystr :=
  flat_map (fun x => if x =? c then r else [x]) s.

(** ** Exceptions

    [exn] stands for the subclasses of [Exception], the ones an
    [except Exception] clause catches. *)

Inductive exn :=
| HTTPException (status_code : N) (detail : pystr)
| KeyError (key : pystr)
| AttributeError (msg : pystr)
| TypeError (msg : pystr)
| ValueError (msg : pystr)
| OtherError (cls : string) (msg : pystr).

(** [str(exc)]. For [KeyError] it is the repr of the key, written here for
    keys that need no escaping. *)
Definition str_exc (e : exn) : pystr :=
  match e with
  | HTTPException c d => dec (N.to_nat c) ++ lit ": " ++ d
  | KeyError k => [39] ++ k ++ [39]
  | AttributeError m | TypeError m | ValueError m | OtherError _ m => m
  end.

Inductive result (A : Type) :=
| Ok (a : A)
| Raise (e : exn).
Arguments Ok {A} a.
Arguments Raise {A} e.

(** ** Data model: the job store *)

Inductive job_status := Queued | Running | Complete | Error.

Definition is_terminal (s : job_status) : bool :=
  match s with Complete | Error => true | Queued | Running => false end.

(** One entry of [job_store]: [{status, progress, report_html, error}]. *)
Record job := mkJob {
  status : job_status;
  progress : list pystr;
  report_html : option pystr;
  error : option pystr
}.

(** The dict both submission endpoints store for a new job. *)
Definition new_job : job :=
  {| status := Queued; progress := []; report_html := None; error := None |}.

Notation store := (gmap (list N) job).

(** A write to one job's dict (or the creation of the entry). *)
Inductive update :=
| Create
| SetStatus (s : job_status)
| Append (msg : pystr)
| SetReport (html : pystr)
| SetError (e : pystr).

Definition update_job (u : update) (j : job) : job :=
  match u with
  | Create => new_job
  | SetStatus s =>
      {| status := s; progress := progress j;
         report_html := report_html j; error := error j |}
  | Append m =>
      {| status := status j; progress := progress j ++ [m];
         report_html := report_html j; error := error j |}
  | SetReport h =>
      {| status := status j; progress := progress j;
         report_html := Some h; error := error j |}
  | SetError e =>
      {| status := status j; progress := progress j;
         report_html := report_html j; error := Some e |}
  end.

Definition apply_update (job_id : pystr) (u : update) (s : store) : store :=
  match u with
  | Create => <[job_id := new_job]> s
  | _ => alter (update_job u) job_id s
  end.

(** Python values that travel as thread arguments or come out of an
    attribute access. [VJobStore] is a reference to the shared dict. *)
Inductive pyval :=
| VNone
| VStr (s : pystr)
| VList (l : list pystr)
| VJobStore.

(** [threading.Thread(target=..., args=..., daemon=True)] *)
Record thread := Thread { target : string; args : list pyval }.

(** Calls to the external collaborators. *)
Inductive call :=
| CallSearch (api_key keyword : pystr)
| CallFetch (rank : nat) (url : pystr)
| CallAnalysis (api_key : option pystr) (prompt : pystr)
| CallMarkdown (text : pystr)
| CallCrewBuild (game_name : pystr)
| CallCrewKickoff.

Inductive effect :=
| Wrote (job_id : pystr) (u : update)
| Called (c : call)
| Started (t : thread).

(** ** The monad: store passing, exceptions, effect log *)

Definition M (A : Type) : Type := store -> result A * store * list effect.

Definition ret {A} (a : A) : M A := fun s => (Ok a, s, []).

Definition raise {A} (e : exn) : M A := fun s => (Raise e, s, []).

Definition bind {A B} (m : M A) (k : A -> M B) : M B :=
  fun s =>
    match m s with
    | (Ok a, s1, l1) =>
        match k a s1 with
        | (r, s2, l2) => (r, s2, l1 ++ l2)
        end
    | (Raise e, s1, l1) => (Raise e, s1, l1)
    end.

(** [try: m except Exception as exc: h exc] *)
Definition try_except {A} (m : M A) (h : exn -> M A) : M A :=
  fun s =>
    match m s with
    | (Ok a, s1, l1) => (Ok a, s1, l1)
    | (Raise e, s1, l1) =>
        match h e s1 with
        | (r, s2, l2) => (r, s2, l1 ++ l2)
        end
    end.

Declare Scope py_scope.
Delimit Scope py_scope with py.
Notation "x <- m ;; k" := (bind m (fun x => k))
  (at level 100, m at next level, right associativity) : py_scope.
Notation "m ;; k" := (bind m (fun _ => k))
  (at level 100, right associativity) : py_scope.
Local Open Scope py_scope.

(** An effect that does not touch the store. *)
Definition emit (e : effect) : M unit := fun s => (Ok tt, s, [e]).

(** A value or exception handed back by a collaborator. *)
Definition lift {A} (r : result A) : M A := fun s => (r, s, []).

(** [job_store[job_id] = {"status": "queued", ...}] *)
Definition store_create (job_id : pystr) : M unit :=
  fun s => (Ok tt, apply_update job_id Create s, [Wrote job_id Create]).

(** [job_store[job_id][field] = value]: [KeyError] when the id is absent. *)
Definition store_set (job_id : pystr) (u : update) : M unit :=
  fun s =>
    match s !! job_id with
    | Some _ => (Ok tt, apply_update job_id u s, [Wrote job_id u])
    | None => (Raise (KeyError job_id), s, [])
    end.

(** [_push_progress] of main.py: a no-op for an unknown id. *)
Definition _push_progress (job_id : pystr) (message : pystr) : M unit :=
  fun s =>
    match s !! job_id with
    | Some _ =>
        (Ok tt, apply_update job_id (Append message) s,
         [Wrote job_id (Append message)])
    | None => (Ok tt, s, [])
    end.

(** [_push] of brief_worker.py, applied to the same shared dict. *)
Definition _push (job_id : pystr) (msg : pystr) : M unit :=
  fun s =>
    match s !! job_id with
    | Some _ =>
        (Ok tt, apply_update job_id (Append msg) s,
         [Wrote job_id (Append msg)])
    | None => (Ok tt, s, [])
    end.

(** The effect of one log entry on the store. *)
Definition apply_effect (e : effect) (s : store) : store :=
  match e with
  | Wrote job_id u => apply_update job_id u s
  | Called _ | Started _ => s
  end.

(** ** Request models (schemas/models.py) *)

Record ResearchRequest := { game_name : pystr }.

Record ContentBriefRequest := { keyword : pystr }.

Record ResearchResponse := { job_id : pystr }.

(** Attribute access on a [ContentBriefRequest]: the model declares the one
    field [keyword]; pydantic ignores undeclared input fields, so any other
    name raises [AttributeError]. *)
Definition ContentBriefRequest_getattr
    (request : ContentBriefRequest) (name : string) : result pyval :=
  if String.eqb name "keyword" then Ok (VStr (keyword request))
  else Raise (AttributeError
                (lit "'ContentBriefRequest' object has no attribute '"
                 ++ lit name ++ lit "'")).

(** [x or None] *)
Definition or_None (v : pyval) : pyval :=
  match v with
  | VNone => VNone
  | VStr [] => VNone
  | VList [] => VNone
  | v => v
  end.

(** ** Submission endpoints (main.py)

    [uuid] is the string [str(uuid.uuid4())] drawn by the call. *)

Definition start_research (request : ResearchRequest) (uuid : pystr)
  : M ResearchResponse :=
  let game := strip (game_name request) in
  if negb (truthy game) then
    raise (HTTPException 422 (lit "game_name cannot be empty"))
  else
    let job_id := uuid in
    store_create job_id ;;
    emit (Started (Thread "_run_crew" [VStr job_id; VStr game])) ;;
    ret {| job_id := job_id |}.

Definition start_content_brief (request : ContentBriefRequest) (uuid : pystr)
  : M ResearchResponse :=
  let keyword := strip (keyword request) in
  if negb (truthy keyword) then
    raise (HTTPException 422 (lit "keyword cannot be empty"))
  else
    let job_id := lit "brief-" ++ uuid in
    store_create job_id ;;
    competitor_urls <- lift (ContentBriefRequest_getattr request "competitor_urls") ;;
    emit (Started (Thread "run_content_brief"
                     [VJobStore; VStr job_id; VStr keyword;
                      or_None competitor_urls])) ;;
    ret {| job_id := job_id |}.

(** ** External collaborators

    The search provider, the page fetch with its content extraction, the
    language model, the markdown renderer, the CrewAI crew, the process
    environment and the clock are outside the program. Each is a function
    that hands back a value or the exception the call raised. *)

(** One entry of the search response's [organic] list; [None] is an
    absent key. *)
Record search_result := {
  link : option pystr;
  result_title : option pystr
}.

(** The decoded search response; [None] is an absent [organic] key. *)
Record search_data := { organic : option (list search_result) }.

(** What the selector chains find in a fetched page: the text of the main
    content element and of the heading element, when there is one. *)
Record page := {
  content_el : option pystr;
  h1 : option pystr
}.

(** One dict of [competitor_data]. *)
Record competitor := {
  position : nat;
  url : pystr;
  title : pystr;
  content : pystr
}.

(** What the step hook receives: an object with a [log], one with a
    [text], or anything else (through [str]). *)
Inductive step_output :=
| StepLog (log : pystr)
| StepText (text : pystr)
| StepOther (str : pystr).

(** The object [crew.kickoff()] returns: its [raw] attribute when it has
    one, and its [str]. *)
Record crew_output := {
  raw : option pystr;
  output_str : pystr
}.

(** A crew: the step outputs it hands to the hook while it runs, then the
    outcome of [kickoff]. *)
Record crew := {
  steps : list step_output;
  kickoff : result crew_output
}.

Record collaborators := {
  getenv : string -> option pystr;
  serper_search : pystr -> pystr -> result search_data;
  fetch_page : nat -> pystr -> result page;
  claude_analysis : option pystr -> pystr -> result pystr;
  markdown : pystr -> result pystr;
  utc_now : pystr;
  build_seo_crew : pystr -> result crew
}.

(** A call to a collaborator: logged, then its outcome. *)
Definition external {A} (c : call) (r : result A) : M A :=
  emit (Called c) ;; lift r.

Fixpoint enumerate {A} (l : list A) (start : nat) : list (nat * A) :=
  match l with
  | [] => []
  | x :: l' => (start, x) :: enumerate l' (S start)
  end.

(** [for x in l: acc = body acc x] *)
Fixpoint for_each {A B} (body : B -> A -> M B) (l : list A) (acc : B) : M B :=
  match l with
  | [] => ret acc
  | x :: l' => acc' <- body acc x ;; for_each body l' acc'
  end.

Definition nl : pystr := [newline].
Definition q : pystr := [dquote].

(** The text of the [TypeError] for a call with too many positional
    arguments. *)
Definition arity_message (name : string) (takes given : nat) : pystr :=
  lit name ++ lit "() takes " ++ dec takes
  ++ lit " positional arguments but " ++ dec given ++ lit " were given".

(** ** The research worker (main.py) *)

Definition wrap_style : pystr :=
  lit "<style>
  body { background: #0f0f1a; color: #e2e8f0; font-family: sans-serif; padding: 2rem; }
  h1 { color: #7c3aed; }
  pre { white-space: pre-wrap; word-break: break-word; }
  footer { margin-top: 2rem; color: #666; font-size: 0.8rem; }
</style>
".

Definition _wrap_in_html (ts content game_name : pystr) : pystr :=
  let escaped := replace_char newline (lit "<br>") (html_escape content) in
  lit "<!DOCTYPE html>" ++ nl
  ++ lit "<html lang=" ++ q ++ lit "en" ++ q ++ lit ">" ++ nl
  ++ lit "<head>" ++ nl
  ++ lit "<meta charset=" ++ q ++ lit "UTF-8" ++ q ++ lit ">" ++ nl
  ++ lit "<title>SEO Report: " ++ html_escape game_name ++ lit "</title>" ++ nl
  ++ wrap_style
  ++ lit "</head>" ++ nl
  ++ lit "<body>" ++ nl
  ++ lit "<h1>SEO Research Report: " ++ html_escape game_name ++ lit "</h1>" ++ nl
  ++ lit "<pre>" ++ escaped ++ lit "</pre>" ++ nl
  ++ lit "<footer>Generated " ++ ts ++ lit "</footer>" ++ nl
  ++ lit "</body>" ++ nl
  ++ lit "</html>".

(** The hook [_make_step_callback] returns. *)
Definition callback (job_id : pystr) (step : step_output) : M unit :=
  try_except
    (let msg :=
       match step with
       | StepLog log => take 200 log
       | StepText text => take 200 text
       | StepOther str => take 200 str
       end in
     _push_progress job_id msg)
    (fun _ => ret tt).

Section Workers.

Variable E : collaborators.

Definition _run_crew (job_id game_name : pystr) : M unit :=
  try_except
    (_push_progress job_id (lit "Starting research for: " ++ game_name) ;;
     store_set job_id (SetStatus Running) ;;
     crew <- external (CallCrewBuild game_name) (build_seo_crew E game_name) ;;
     _push_progress job_id
       (lit "Crew assembled " ++ [em_dash] ++ lit " running SEO Keyword Agent...") ;;
     emit (Called CallCrewKickoff) ;;
     for_each (fun _ step => callback job_id step) (steps crew) tt ;;
     result <- lift (kickoff crew) ;;
     let report_html :=
       match raw result with
       | Some r => r
       | None => output_str result
       end in
     let report_html :=
       if negb (startswith (lit "<!") (strip report_html))
       then _wrap_in_html (utc_now E) report_html game_name
       else report_html in
     store_set job_id (SetReport report_html) ;;
     store_set job_id (SetStatus Complete) ;;
     _push_progress job_id (lit "Research complete!"))
    (fun exc =>
       store_set job_id (SetStatus Error) ;;
       store_set job_id (SetError (str_exc exc)) ;;
       _push_progress job_id (lit "ERROR: " ++ str_exc exc)).

(** ** The content-brief worker (brief_worker.py) *)

(** One row of the rendered table. *)
Definition comp_row (c : competitor) : pystr :=
  lit "<tr><td>" ++ dec (position c) ++ lit "</td>"
  ++ lit "<td><a href=" ++ q ++ html_escape (url c) ++ q
  ++ lit " target=" ++ q ++ lit "_blank" ++ q ++ lit ">"
  ++ html_escape (take 80 (title c)) ++ lit "</a></td></tr>" ++ nl.

Definition comp_rows (competitors : list competitor) : pystr :=
  concat (map comp_row competitors).

Definition report_style : pystr :=
  lit "<style>
  body {
    background: #f8fafc;
    color: #1e293b;
    font-family: 'Segoe UI', Arial, sans-serif;
    padding: 2rem;
    max-width: 860px;
    margin: 0 auto;
    line-height: 1.7;
  }
  h1 { color: #7c3aed; margin-bottom: 0.25rem; font-size: 1.6rem; }
  .meta { color: #64748b; font-size: 0.85rem; margin-bottom: 2rem; }

  .brief-body { background: white; border-radius: 8px; padding: 2rem 2.5rem;
                 box-shadow: 0 1px 4px rgba(0,0,0,0.08); margin-bottom: 1.5rem; }

  h2 {
    color: #7c3aed;
    font-size: 1.1rem;
    font-weight: 700;
    margin: 2rem 0 0.5rem;
    padding-bottom: 0.3rem;
    border-bottom: 2px solid #ede9fe;
    text-transform: uppercase;
    letter-spacing: 0.04em;
  }
  h2:first-child { margin-top: 0; }

  h3 {
    color: #4c1d95;
    font-size: 0.95rem;
    font-weight: 600;
    margin: 1rem 0 0.3rem;
  }

  p { margin: 0.5rem 0; }

  ul, ol {
    padding-left: 1.5rem;
    margin: 0.4rem 0 0.8rem;
  }
  li { margin: 0.3rem 0; }

  strong { color: #0f172a; }

  .competitors {
    background: white;
    border-radius: 8px;
    padding: 1.5rem 2rem;
    box-shadow: 0 1px 4px rgba(0,0,0,0.08);
  }
  .competitors h2 { margin-top: 0; }
  table { width: 100%; border-collapse: collapse; font-size: 0.88rem; }
  th { text-align: left; padding: 0.5rem 0.75rem; background: #f1f5f9; color: #475569; }
  td { padding: 0.5rem 0.75rem; border-top: 1px solid #e2e8f0; }
  a { color: #7c3aed; text-decoration: none; }
  a:hover { text-decoration: underline; }
</style>
".

(** The document up to the table body. *)
Definition report_head (ts keyword brief_html : pystr) (n : nat) : pystr :=
  lit "<!DOCTYPE html>" ++ nl
  ++ lit "<html lang=" ++ q ++ lit "en" ++ q ++ lit ">" ++ nl
  ++ lit "<head>" ++ nl
  ++ lit "<meta charset=" ++ q ++ lit "UTF-8" ++ q ++ lit ">" ++ nl
  ++ lit "<title>Content Brief: " ++ html_escape keyword ++ lit "</title>" ++ nl
  ++ report_style
  ++ lit "</head>" ++ nl
  ++ lit "<body>" ++ nl
  ++ lit "<h1>Content Brief: " ++ html_escape keyword ++ lit "</h1>" ++ nl
  ++ lit "<div class=" ++ q ++ lit "meta" ++ q ++ lit ">" ++ nl
  ++ lit "  Generated " ++ ts ++ lit " &nbsp;" ++ [middle_dot] ++ lit "&nbsp;" ++ nl
  ++ lit "  " ++ dec n ++ lit " competitors analyzed &nbsp;"
  ++ [middle_dot] ++ lit "&nbsp;" ++ nl
  ++ lit "  Powered by Claude Sonnet 4.6" ++ nl
  ++ lit "</div>" ++ nl
  ++ nl
  ++ lit "<div class=" ++ q ++ lit "brief-body" ++ q ++ lit ">" ++ nl
  ++ brief_html ++ nl
  ++ lit "</div>" ++ nl
  ++ nl
  ++ lit "<div class=" ++ q ++ lit "competitors" ++ q ++ lit ">" ++ nl
  ++ lit "  <h2>Analyzed Competitors</h2>" ++ nl
  ++ lit "  <table>" ++ nl
  ++ lit "    <thead><tr><th>#</th><th>Page</th></tr></thead>" ++ nl
  ++ lit "    <tbody>".

(** The document after the table body. *)
Definition report_tail : pystr :=
  lit "</tbody>" ++ nl
  ++ lit "  </table>" ++ nl
  ++ lit "</div>" ++ nl
  ++ lit "</body>" ++ nl
  ++ lit "</html>".

Definition _format_report (keyword brief_text : pystr)
    (competitors : list competitor) : M pystr :=
  let ts := utc_now E in
  brief_html <- external (CallMarkdown brief_text) (markdown E brief_text) ;;
  ret (report_head ts keyword brief_html (length competitors)
       ++ comp_rows competitors ++ report_tail).

(** The body of the loop over the search results. *)
Definition fetch_step (job_id : pystr) (n : nat)
    (competitor_data : list competitor) (ir : nat * search_result)
  : M (list competitor) :=
  let '(i, result) := ir in
  let url := default [] (link result) in
  let fallback_title := default (lit "Page " ++ dec i) (result_title result) in
  _push job_id (lit "[" ++ dec i ++ lit "/" ++ dec n ++ lit "] Fetching "
                ++ take 70 url ++ lit "...") ;;
  try_except
    (pg <- external (CallFetch i url) (fetch_page E i url) ;;
     let content_text :=
       match content_el pg with
       | Some text => take 800 text
       | None => []
       end in
     let page_title :=
       match h1 pg with
       | Some text => take 120 text
       | None => fallback_title
       end in
     let competitor_data :=
       competitor_data ++ [{| position := i; url := url;
                              title := page_title; content := content_text |}] in
     _push job_id (lit "Extracted content from page " ++ dec i ++ lit ": "
                   ++ take 50 page_title) ;;
     ret competitor_data)
    (fun exc =>
       _push job_id (lit "Skipped page " ++ dec i ++ lit " (" ++ str_exc exc
                     ++ lit ")") ;;
       ret (competitor_data ++ [{| position := i; url := url;
                                   title := fallback_title; content := [] |}])).

(** The text the prompt embeds: the pages with extracted content. *)
Definition summary_item (item : competitor) : pystr :=
  if truthy (content item) then
    lit "Page " ++ dec (position item) ++ lit ": " ++ title item ++ nl
    ++ lit "Content preview: " ++ content item ++ lit "..." ++ nl ++ nl
  else [].

Definition comp_summary (competitor_data : list competitor) : pystr :=
  lit "COMPETITOR ANALYSIS:" ++ nl ++ nl
  ++ concat (map summary_item competitor_data).

Definition build_prompt (keyword summary : pystr) : pystr :=
  lit "You are an expert SEO content strategist. Analyze the following competitor "
  ++ lit "content for the keyword " ++ q ++ keyword ++ q
  ++ lit " and create a detailed content brief." ++ nl ++ nl
  ++ summary ++ nl
  ++ lit "Based on this analysis, provide the following sections. "
  ++ lit "Use proper Markdown formatting: ## for section headings, ### for sub-headings, "
  ++ lit "and - for bullet points." ++ nl ++ nl
  ++ lit "## 1. Search Intent" ++ nl
  ++ lit "What are users actually looking for?" ++ nl ++ nl
  ++ lit "## 2. Common Topics" ++ nl
  ++ lit "What do all top-ranking pages cover?" ++ nl ++ nl
  ++ lit "## 3. Content Gaps" ++ nl
  ++ lit "What is missing from most articles?" ++ nl ++ nl
  ++ lit "## 4. Recommended Structure" ++ nl
  ++ lit "List the headings and sections we should include." ++ nl ++ nl
  ++ lit "## 5. Word Count Target" ++ nl
  ++ lit "Recommended word count based on competitor analysis." ++ nl ++ nl
  ++ lit "## 6. Unique Angle" ++ nl
  ++ lit "How can we stand out from competitors?" ++ nl ++ nl
  ++ lit "Be specific and actionable.".

Definition run_content_brief (job_id keyword : pystr) : M unit :=
  try_except
    (store_set job_id (SetStatus Running) ;;
     _push job_id (lit "Starting content brief for: " ++ keyword) ;;
     let serper_key := default [] (getenv E "SERPER_API_KEY") in
     if negb (truthy serper_key) then
       raise (ValueError (lit "SERPER_API_KEY is not set in environment"))
     else
       _push job_id (lit "Searching Google via Serper API...") ;;
       search <- external (CallSearch serper_key keyword)
                   (serper_search E serper_key keyword) ;;
       let organic := take 5 (default [] (organic search)) in
       if bool_decide (organic = []) then
         raise (ValueError (lit "No organic search results returned by Serper"))
       else
         _push job_id (lit "Found " ++ dec (length organic) ++ lit " results "
                       ++ [em_dash] ++ lit " fetching competitor pages...") ;;
         competitor_data <-
           for_each (fetch_step job_id (length organic)) (enumerate organic 1) [] ;;
         _push job_id (lit "Building competitor analysis prompt...") ;;
         let prompt := build_prompt keyword (comp_summary competitor_data) in
         _push job_id (lit "Sending to Claude for content brief analysis...") ;;
         let api_key := getenv E "ANTHROPIC_API_KEY" in
         brief_text <- external (CallAnalysis api_key prompt)
                         (claude_analysis E api_key prompt) ;;
         _push job_id (lit "Claude analysis complete " ++ [em_dash]
                       ++ lit " formatting report...") ;;
         report_html <- _format_report keyword brief_text competitor_data ;;
         store_set job_id (SetReport report_html) ;;
         store_set job_id (SetStatus Complete) ;;
         _push job_id (lit "Content brief ready!"))
    (fun exc =>
       store_set job_id (SetStatus Error) ;;
       store_set job_id (SetError (str_exc exc)) ;;
       _push job_id (lit "ERROR: " ++ str_exc exc)).

(** What a started thread does: it calls its target with its arguments.
    A call whose arguments do not fit the target's parameters raises
    [TypeError] before the target's body starts. *)
Definition run_thread (t : thread) : M unit :=
  if String.eqb (target t) "_run_crew" then
    match args t with
    | [VStr job_id; VStr game_name] => _run_crew job_id game_name
    | _ => raise (TypeError (arity_message "_run_crew" 2 (length (args t))))
    end
  else if String.eqb (target t) "run_content_brief" then
    match args t with
    | [VJobStore; VStr job_id; VStr keyword] => run_content_brief job_id keyword
    | _ => raise (TypeError (arity_message "run_content_brief" 3
                               (length (args t))))
    end
  else raise (TypeError (lit "not callable")).

End Workers.

(** ** Stream endpoints (main.py) *)

(** [json.dumps] of a string (default [ensure_ascii=True]): quote and
    backslash get a backslash, five control characters their letter, every
    other character outside [' '..'~'] a [\uXXXX] escape, with a surrogate
    pair above the basic plane. *)
Definition backslash : N := 92.

Definition hex_digit (n : N) : N := if n <? 10 then 48 + n else 87 + n.

Definition u_escape (c : N) : pystr :=
  [backslash; 117;
   hex_digit (c / 4096 mod 16); hex_digit (c / 256 mod 16);
   hex_digit (c / 16 mod 16); hex_digit (c mod 16)].

Definition json_escape_char (c : N) : pystr :=
  if c =? 92 then [backslash; backslash]
  else if c =? 34 then [backslash; dquote]
  else if c =? 8 then [backslash; 98]
  else if c =? 12 then [backslash; 102]
  else if c =? 10 then [backslash; 110]
  else if c =? 13 then [backslash; 114]
  else if c =? 9 then [backslash; 116]
  else if (32 <=? c) && (c <=? 126) then [c]
  else if c <? 65536 then u_escape c
  else
    let v := c - 65536 in
    u_escape (N.lor 55296 (N.land (N.shiftr v 10) 1023))
    ++ u_escape (N.lor 56320 (N.land v 1023)).

Definition json_string (s : pystr) : pystr :=
  q ++ flat_map json_escape_char s ++ q.

(** [json.dumps({"report_html": v})]; [None] is [null]. *)
Definition json_dumps_report (v : option pystr) : pystr :=
  lit "{" ++ json_string (lit "report_html") ++ lit ": "
  ++ match v with
     | Some s => json_string s
     | None => lit "null"
     end
  ++ lit "}".

(** One server-sent event: [{"event": ..., "data": ...}]. *)
Record sse := { event : string; data : option pystr }.

(** The generator's two local variables. *)
Record gen_state := { last_idx : nat; heartbeat_counter : nat }.

Definition gen_init : gen_state := {| last_idx := 0; heartbeat_counter := 0 |}.

(** A generator runs one pass of its [while True] body per tick, against
    the store as it is at that tick. A pass either returns (the generator
    is exhausted) or reaches [await asyncio.sleep(1)] with new locals. The
    run over a finite sequence of stores gives the events yielded and
    whether the generator returned. *)

Module StreamResearch.

(** [while last_idx < len(progress): yield ...; last_idx += 1] *)
Fixpoint drain (fuel : nat) (progress : list pystr) (last_idx : nat)
  : list sse * nat :=
  match fuel with
  | O => ([], last_idx)
  | S fuel' =>
      match progress !! last_idx with
      | Some msg =>
          let '(evs, idx) := drain fuel' progress (S last_idx) in
          ({| event := "progress"; data := Some msg |} :: evs, idx)
      | None => ([], last_idx)
      end
  end.

Definition pass (job_id : pystr) (st : gen_state) (s : store)
  : list sse * option gen_state :=
  match s !! job_id with
  | None =>
      ([{| event := "error"; data := Some (lit "Job not found") |}], None)
  | Some job =>
      let progress := progress job in
      let '(evs, last_idx) := drain (length progress) progress (last_idx st) in
      match status job with
      | Complete =>
          let payload := json_dumps_report (report_html job) in
          (evs ++ [{| event := "complete"; data := Some payload |}], None)
      | Error =>
          (evs ++ [{| event := "error"; data := error job |}], None)
      | _ =>
          let heartbeat_counter := S (heartbeat_counter st) in
          if (15 <=? heartbeat_counter)%nat then
            (evs ++ [{| event := "heartbeat"; data := Some (lit "ping") |}],
             Some {| last_idx := last_idx; heartbeat_counter := 0 |})
          else
            (evs,
             Some {| last_idx := last_idx;
                     heartbeat_counter := heartbeat_counter |})
      end
  end.

Fixpoint event_generator (job_id : pystr) (st : gen_state)
    (ticks : list store) : list sse * bool :=
  match ticks with
  | [] => ([], false)
  | s :: ticks' =>
      match pass job_id st s with
      | (evs, None) => (evs, true)
      | (evs, Some st') =>
          let '(evs', returned) := event_generator job_id st' ticks' in
          (evs ++ evs', returned)
      end
  end.

(** The endpoint, called when the store is [s]: 404 for an unknown id,
    otherwise the response that runs the generator. *)
Definition stream_research (job_id : pystr) (s : store)
  : result (list store -> list sse * bool) :=
  match s !! job_id with
  | None => Raise (HTTPException 404 (lit "Job not found"))
  | Some _ => Ok (event_generator job_id gen_init)
  end.

End StreamResearch.

Module StreamContentBrief.

Fixpoint drain (fuel : nat) (progress : list pystr) (last_idx : nat)
  : list sse * nat :=
  match fuel with
  | O => ([], last_idx)
  | S fuel' =>
      match progress !! last_idx with
      | Some msg =>
          let '(evs, idx) := drain fuel' progress (S last_idx) in
          ({| event := "progress"; data := Some msg |} :: evs, idx)
      | None => ([], last_idx)
      end
  end.

Definition pass (job_id : pystr) (st : gen_state) (s : store)
  : list sse * option gen_state :=
  match s !! job_id with
  | None =>
      ([{| event := "error"; data := Some (lit "Job not found") |}], None)
  | Some job =>
      let progress := progress job in
      let '(evs, last_idx) := drain (length progress) progress (last_idx st) in
      match status job with
      | Complete =>
          let payload := json_dumps_report (report_html job) in
          (evs ++ [{| event := "complete"; data := Some payload |}], None)
      | Error =>
          (evs ++ [{| event := "error"; data := error job |}], None)
      | _ =>
          let heartbeat_counter := S (heartbeat_counter st) in
          if (15 <=? heartbeat_counter)%nat then
            (evs ++ [{| event := "heartbeat"; data := Some (lit "ping") |}],
             Some {| last_idx := last_idx; heartbeat_counter := 0 |})
          else
            (evs,
             Some {| last_idx := last_idx;
                     heartbeat_counter := heartbeat_counter |})
      end
  end.

Fixpoint event_generator (job_id : pystr) (st : gen_state)
    (ticks : list store) : list sse * bool :=
  match ticks with
  | [] => ([], false)
  | s :: ticks' =>
      match pass job_id st s with
      | (evs, None) => (evs, true)
      | (evs, Some st') =>
          let '(evs', returned) := event_generator job_id st' ticks' in
          (evs ++ evs', returned)
      end
  end.

Definition stream_content_brief (job_id : pystr) (s : store)
  : result (list store -> list sse * bool) :=
  match s !! job_id with
  | None => Raise (HTTPException 404 (lit "Job not found"))
  | Some _ => Ok (event_generator job_id gen_init)
  end.

End StreamContentBrief.

(** ** Vocabulary of the properties *)

(** The store after a whole log. *)
Definition apply_log (l : list effect) (s : store) : store :=
  foldl (fun s e => apply_effect e s) s l.

(** The collaborator calls of a log, in order. *)
Definition calls (l : list effect) : list call :=
  omap (fun e => match e with Called c => Some c | _ => None end) l.

(** The threads a log started, in order. *)
Definition started (l : list effect) : list thread :=
  omap (fun e => match e with Started t => Some t | _ => None end) l.

(** A topic that is empty or made of whitespace only. *)
Definition blank (topic : pystr) : bool := forallb isspace topic.

Definition progress_event (msg : pystr) : sse :=
  {| event := "progress"; data := Some msg |}.

Definition count_events (name : string) (evs : list sse) : nat :=
  length (filter (fun ev => event ev = name) evs).

(** The updates a log makes to one job, in order. *)
Definition updates_to (job_id : pystr) (l : list effect) : list update :=
  omap (fun e => match e with
                 | Wrote i u => if bool_decide (i = job_id) then Some u else None
                 | _ => None
                 end) l.

(** The job after a list of updates. *)
Definition job_after (us : list update) (j : job) : job :=
  foldl (fun j u => update_job u j) j us.

(** The successive values of a job under a list of updates, the first
    value included. *)
Fixpoint job_states (j : job) (us : list update) : list job :=
  match us with
  | [] => [j]
  | u :: us' => j :: job_states (update_job u j) us'
  end.

(** What a reader sees of the job [job_id], one value after the other,
    while a log unfolds from a store where the job is [j]. *)
Definition job_trace (job_id : pystr) (j : job) (l : list effect) : list job :=
  job_states j (updates_to job_id l).

(** A specification triple for code that works on the job [job_id] of a
    store that holds it: the run ends, its log accounts for the whole
    change of the store, and the log satisfies [N] with the value returned
    or [X] with the exception raised. *)
Definition tri {A} (job_id : pystr) (m : M A)
    (N : A -> list effect -> Prop) (X : exn -> list effect -> Prop) : Prop :=
  forall s : store, is_Some (s !! job_id) ->
    exists r l, m s = (r, apply_log l s, l)
                /\ match r with Ok a => N a l | Raise e => X e l end.

(** The writes a worker makes while it is working: progress lines and
    the move to running. *)
Definition body_update (u : update) : bool :=
  match u with
  | Append _ | SetStatus Running => true
  | _ => false
  end.

Definition body_effect (job_id : pystr) (e : effect) : bool :=
  match e with
  | Wrote i u => bool_decide (i = job_id) && body_update u
  | Called _ => true
  | Started _ => false
  end.

Definition body_log (job_id : pystr) (l : list effect) : Prop :=
  forallb (body_effect job_id) l = true.

(** How a worker ends: the three writes of the success path, or the three
    writes of the handler. *)
Definition success_tail (job_id html msg : pystr) : list effect :=
  [Wrote job_id (SetReport html); Wrote job_id (SetStatus Complete);
   Wrote job_id (Append msg)].

Definition failure_tail (job_id err msg : pystr) : list effect :=
  [Wrote job_id (SetStatus Error); Wrote job_id (SetError err);
   Wrote job_id (Append msg)].

Definition protocol (job_id : pystr) (l : list effect) : Prop :=
  exists lb, body_log job_id lb
    /\ ((exists html msg, l = lb ++ success_tail job_id html msg)
        \/ (exists err msg, l = lb ++ failure_tail job_id err msg)).

(** A job no worker has finished yet: not terminal, no result, no error. *)
Definition clean (j : job) : Prop :=
  is_terminal (status j) = false /\ report_html j = None /\ error j = None.

(** The progress log as the readers of a trace see it: a later view
    extends an earlier one; once a view shows a terminal status the status
    stays and at most one more line arrives; and that one line does
    arrive, after the terminal status was written: the worker's closing
    line [closing] on a job that ends complete, the line [ERROR: <text>]
    with the text of the error field on a job that ends in error. *)
Definition progress_discipline (closing : pystr) (trace : list job) : Prop :=
  (forall i k ji jk, (i <= k)%nat ->
     trace !! i = Some ji -> trace !! k = Some jk ->
     progress ji `prefix_of` progress jk)
  /\ (forall i k ji jk, (i <= k)%nat ->
       trace !! i = Some ji -> trace !! k = Some jk ->
       is_terminal (status ji) = true ->
       status jk = status ji
       /\ (length (progress jk) <= S (length (progress ji)))%nat)
  /\ (exists i ji jf,
       trace !! i = Some ji /\ is_terminal (status ji) = true
       /\ last trace = Some jf
       /\ ((status jf = Complete /\ progress jf = progress ji ++ [closing])
           \/ (status jf = Error
               /\ exists text, error jf = Some text
                    /\ progress jf = progress ji ++ [lit "ERROR: " ++ text]))).

(** No line is appended once a view shows a terminal status. *)
Definition frozen_once_terminal (trace : list job) : Prop :=
  forall i ji jn,
    trace !! i = Some ji -> trace !! S i = Some jn ->
    is_terminal (status ji) = true -> progress jn = progress ji.

(** Result and error as the readers of a trace see them: never both; a
    complete job always shows its result; an error shows only under the
    error status; a result shows under the complete status or in the one
    view just before it, where the status is still running. *)
Definition result_error_discipline (trace : list job) : Prop :=
  forall i j, trace !! i = Some j ->
    ~ (is_Some (report_html j) /\ is_Some (error j))
    /\ (status j = Complete -> is_Some (report_html j))
    /\ (is_Some (error j) -> status j = Error)
    /\ (is_Some (report_html j) ->
        status j = Complete
        \/ (status j = Running
            /\ exists jn, trace !! S i = Some jn /\ status jn = Complete
                          /\ report_html jn = report_html j)).

(** The result shows exactly in the views whose status is complete. *)
Definition result_iff_complete (trace : list job) : Prop :=
  forall i j, trace !! i = Some j ->
    (is_Some (report_html j) <-> status j = Complete).

(** *** The workers' logs in closed form

    The effects of a worker run, as a function of what the collaborators
    answer. The properties of the workers are read off these logs. *)

(** The three writes of the [except] clause of either worker. *)
Definition handler_log (job_id : pystr) (exc : exn) : list effect :=
  failure_tail job_id (str_exc exc) (lit "ERROR: " ++ str_exc exc).

Definition fetch_call (ir : nat * search_result) : call :=
  CallFetch (fst ir) (default [] (link (snd ir))).

Definition fetch_failed (E : collaborators) (ir : nat * search_result) : bool :=
  match fetch_page E (fst ir) (default [] (link (snd ir))) with
  | Ok _ => false
  | Raise _ => true
  end.

(** The entry the fetch loop appends to [competitor_data] for one result. *)
Definition fetched (E : collaborators) (ir : nat * search_result) : competitor :=
  let '(i, result) := ir in
  let url := default [] (link result) in
  let fallback_title := default (lit "Page " ++ dec i) (result_title result) in
  match fetch_page E i url with
  | Ok pg =>
      {| position := i; url := url;
         title := match h1 pg with
                  | Some text => take 120 text
                  | None => fallback_title
                  end;
         content := match content_el pg with
                    | Some text => take 800 text
                    | None => []
                    end |}
  | Raise _ =>
      {| position := i; url := url; title := fallback_title; content := [] |}
  end.

(** The progress line that closes one pass of the fetch loop. *)
Definition fetch_note (E : collaborators) (ir : nat * search_result) : pystr :=
  match fetch_page E (fst ir) (default [] (link (snd ir))) with
  | Ok _ =>
      lit "Extracted content from page " ++ dec (fst ir) ++ lit ": "
      ++ take 50 (title (fetched E ir))
  | Raise exc =>
      lit "Skipped page " ++ dec (fst ir) ++ lit " (" ++ str_exc exc ++ lit ")"
  end.

(** The progress line that opens one pass of the fetch loop. *)
Definition fetching_line (n : nat) (ir : nat * search_result) : pystr :=
  lit "[" ++ dec (fst ir) ++ lit "/" ++ dec n ++ lit "] Fetching "
  ++ take 70 (default [] (link (snd ir))) ++ lit "...".

Definition fetch_log (E : collaborators) (job_id : pystr) (n : nat)
    (ir : nat * search_result) : list effect :=
  [Wrote job_id (Append (fetching_line n ir));
   Called (fetch_call ir);
   Wrote job_id (Append (fetch_note E ir))].

(** The progress lines of the whole fetch loop. *)
Definition fetch_lines (E : collaborators) (n : nat)
    (items : list (nat * search_result)) : list pystr :=
  flat_map (fun ir => [fetching_line n ir; fetch_note E ir]) items.

(** From the prompt to the end of the run. *)
Definition analysis_log (E : collaborators) (job_id keyword : pystr)
    (competitor_data : list competitor) : list effect :=
  let prompt := build_prompt keyword (comp_summary competitor_data) in
  let api_key := getenv E "ANTHROPIC_API_KEY" in
  Wrote job_id (Append (lit "Building competitor analysis prompt..."))
  :: Wrote job_id (Append (lit "Sending to Claude for content brief analysis..."))
  :: Called (CallAnalysis api_key prompt)
  :: match claude_analysis E api_key prompt with
     | Raise exc => handler_log job_id exc
     | Ok brief_text =>
         Wrote job_id
           (Append (lit "Claude analysis complete " ++ [em_dash]
                    ++ lit " formatting report..."))
         :: Called (CallMarkdown brief_text)
         :: match markdown E brief_text with
            | Raise exc => handler_log job_id exc
            | Ok brief_html =>
                success_tail job_id
                  (report_head (utc_now E) keyword brief_html
                     (length competitor_data)
                   ++ comp_rows competitor_data ++ report_tail)
                  (lit "Content brief ready!")
            end
     end.

(** From the search response to the end of the run. *)
Definition results_log (E : collaborators) (job_id keyword : pystr)
    (search : search_data) : list effect :=
  let organic := take 5 (default [] (organic search)) in
  if bool_decide (organic = []) then
    handler_log job_id
      (ValueError (lit "No organic search results returned by Serper"))
  else
    let items := enumerate organic 1 in
    Wrote job_id
      (Append (lit "Found " ++ dec (length organic) ++ lit " results "
               ++ [em_dash] ++ lit " fetching competitor pages..."))
    :: (flat_map (fetch_log E job_id (length organic)) items
        ++ analysis_log E job_id keyword (map (fetched E) items)).

Definition brief_log (E : collaborators) (job_id keyword : pystr) : list effect :=
  Wrote job_id (SetStatus Running)
  :: Wrote job_id (Append (lit "Starting content brief for: " ++ keyword))
  :: let serper_key := default [] (getenv E "SERPER_API_KEY") in
     if negb (truthy serper_key) then
       handler_log job_id
         (ValueError (lit "SERPER_API_KEY is not set in environment"))
     else
       Wrote job_id (Append (lit "Searching Google via Serper API..."))
       :: Called (CallSearch serper_key keyword)
       :: match serper_search E serper_key keyword with
          | Raise exc => handler_log job_id exc
          | Ok search => results_log E job_id keyword search
          end.

(** The progress line the step hook pushes for one step output. *)
Definition step_msg (step : step_output) : pystr :=
  match step with
  | StepLog log => take 200 log
  | StepText text => take 200 text
  | StepOther str => take 200 str
  end.

(** The document the research worker stores for a crew output. *)
Definition crew_report (E : collaborators) (game_name : pystr)
    (result : crew_output) : pystr :=
  let report_html :=
    match raw result with
    | Some r => r
    | None => output_str result
    end in
  if negb (startswith (lit "<!") (strip report_html))
  then _wrap_in_html (utc_now E) report_html game_name
  else report_html.

Definition crew_log (E : collaborators) (job_id game_name : pystr) : list effect :=
  Wrote job_id (Append (lit "Starting research for: " ++ game_name))
  :: Wrote job_id (SetStatus Running)
  :: Called (CallCrewBuild game_name)
  :: match build_seo_crew E game_name with
     | Raise exc => handler_log job_id exc
     | Ok crew =>
         Wrote job_id
           (Append (lit "Crew assembled " ++ [em_dash]
                    ++ lit " running SEO Keyword Agent..."))
         :: Called CallCrewKickoff
         :: (map (fun step => Wrote job_id (Append (step_msg step))) (steps crew)
             ++ match kickoff crew with
                | Raise exc => handler_log job_id exc
                | Ok result =>
                    success_tail job_id (crew_report E game_name result)
                      (lit "Research complete!")
                end)
     end.

(** A progress line that notes a skipped page. *)
Definition is_skip_note (msg : pystr) : bool :=
  startswith (lit "Skipped page ") msg.

(** A progress line that speaks of fetching: the count of results found,
    the start of a fetch, an extraction. *)
Definition is_fetch_line (msg : pystr) : bool :=
  startswith (lit "Found ") msg || startswith (lit "[") msg
  || startswith (lit "Extracted content from page ") msg.

Definition is_fetch_call (c : call) : bool :=
  match c with CallFetch _ _ => true | _ => false end.

(** An environment variable that is unset or empty. *)
Definition absent (v : option pystr) : bool := negb (truthy (default [] v)).

(** The claim that both credentials are checked before any work: with
    either one absent the run makes no collaborator call and leaves the
    job in error. *)
Definition credentials_checked_first (E : collaborators)
    (job_id keyword : pystr) (s : store) : Prop :=
  absent (getenv E "SERPER_API_KEY") || absent (getenv E "ANTHROPIC_API_KEY") = true ->
  let '(_, s', l) := run_content_brief E job_id keyword s in
  calls l = []
  /\ exists j, s' !! job_id = Some j /\ status j = Error /\ is_Some (error j).

(** *** Sample inputs *)

Definition sample_uuid : pystr := lit "1b4e28ba-2fa1-4d3b-a3f5-ef19b5a7633b".

Definition sample_id : pystr := lit "brief-" ++ sample_uuid.

Definition sample_store : store := <[sample_id := new_job]> ∅.

Definition sample_getenv (serper anthropic : option pystr) (name : string)
  : option pystr :=
  if String.eqb name "SERPER_API_KEY" then serper
  else if String.eqb name "ANTHROPIC_API_KEY" then anthropic
  else None.

Definition sample_result (k : nat) : search_result :=
  {| link := Some (lit "https://example.com/page-" ++ dec k);
     result_title := Some (lit "Result " ++ dec k) |}.

(** Pages 2 and 4 time out; the others have a heading and some text. *)
Definition sample_fetch (i : nat) (url : pystr) : result page :=
  if (i =? 2)%nat || (i =? 4)%nat
  then Raise (OtherError "ConnectTimeout" (lit "timed out"))
  else Ok {| content_el := Some (lit "Ten things to know about " ++ url);
             h1 := Some (lit "Heading " ++ dec i) |}.

(** The analysis client refuses a missing API key. *)
Definition sample_analysis (api_key : option pystr) (prompt : pystr)
  : result pystr :=
  match api_key with
  | Some _ => Ok (lit "## 1. Search Intent")
  | None => Raise (TypeError (lit "Could not resolve authentication method"))
  end.

Definition sample_env (serper anthropic : option pystr) (results : nat)
  : collaborators :=
  {| getenv := sample_getenv serper anthropic;
     serper_search := fun _ _ =>
       Ok {| organic := Some (map sample_result (seq 1 results)) |};
     fetch_page := sample_fetch;
     claude_analysis := sample_analysis;
     markdown := fun text => Ok (lit "<h2>" ++ text ++ lit "</h2>");
     utc_now := lit "2024-05-01 12:00 UTC";
     build_seo_crew := fun _ =>
       Ok {| steps := [StepLog (lit "thinking")];
             kickoff := Ok {| raw := Some (lit "<!DOCTYPE html>");
                              output_str := lit "<!DOCTYPE html>" |} |} |}.

(** ** Status and health endpoints (main.py) *)

(** [JobStatus] of schemas/models.py. *)
Record JobStatus := {
  js_job_id : pystr;
  js_status : job_status;
  js_progress : list pystr;
  js_report_html : option pystr;
  js_error : option pystr
}.

Definition get_job_status (job_id : pystr) (s : store) : result JobStatus :=
  match s !! job_id with
  | None => Raise (HTTPException 404 (lit "Job not found"))
  | Some job =>
      Ok {| js_job_id := job_id; js_status := status job;
            js_progress := progress job;
            js_report_html := report_html job; js_error := error job |}
  end.

Definition get_content_brief_status (job_id : pystr) (s : store)
  : result JobStatus :=
  match s !! job_id with
  | None => Raise (HTTPException 404 (lit "Job not found"))
  | Some job =>
      Ok {| js_job_id := job_id; js_status := status job;
            js_progress := progress job;
            js_report_html := report_html job; js_error := error job |}
  end.

(** [health]: the constant status and [len(job_store)]. *)
Definition health (s : store) : string * nat := ("ok"%string, size s).

(** ** Vocabulary of the further properties *)

(** A log whose writes all go to one job. *)
Definition writes_only (job_id : pystr) (l : list effect) : Prop :=
  Forall (fun e => match e with Wrote i _ => i = job_id | _ => True end) l.

(** A log with no thread start. *)
Definition writes_only_or_calls (l : list effect) : Prop :=
  Forall (fun e => match e with Started _ => False | _ => True end) l.

(** How a worker run ends, with the handler's writes spelled out: after
    its working phase, either the success path's three writes with the
    worker's closing line, or the handler's three writes for the
    exception caught. *)
Definition ends_with (job_id closing : pystr) (l : list effect) : Prop :=
  exists lb, body_log job_id lb
    /\ ((exists html, l = lb ++ success_tail job_id html closing)
        \/ (exists exc, l = lb ++ handler_log job_id exc)).

(** The same, for a run whose working phase wrote the running status. *)
Definition run_shape (job_id closing : pystr) (l : list effect) : Prop :=
  exists lb, body_log job_id lb
    /\ In (Wrote job_id (SetStatus Running)) lb
    /\ ((exists html, l = lb ++ success_tail job_id html closing)
        \/ (exists exc, l = lb ++ handler_log job_id exc)).

(** A job as a finished worker leaves it: complete, with the document, no
    error and the closing line last; or in error, with no document, the
    error text, and the [ERROR:] line of that text last. *)
Definition finished (closing : pystr) (j : job) : Prop :=
  (status j = Complete /\ is_Some (report_html j) /\ error j = None
   /\ last (progress j) = Some closing)
  \/ (status j = Error /\ report_html j = None
      /\ exists text, error j = Some text
           /\ last (progress j) = Some (lit "ERROR: " ++ text)).

(** The four characters that open or close markup and attribute values. *)
Definition is_markup (c : N) : bool :=
  (c =? 60) || (c =? 62) || (c =? 34) || (c =? 39).

(** A printable ASCII character. *)
Definition is_printable (c : N) : bool := (32 <=? c) && (c <=? 126).

(** An event that ends a stream. *)
Definition is_terminal_event (ev : sse) : bool :=
  String.eqb (event ev) "complete" || String.eqb (event ev) "error".

Definition is_heartbeat (ev : sse) : bool := String.eqb (event ev) "heartbeat".

Definition heartbeat_event : sse :=
  {| event := "heartbeat"; data := Some (lit "ping") |}.

(** A job that a stream finds idle: not terminal, and with no line beyond
    the [idx] already sent. *)
Definition idle_at (job_id : pystr) (idx : nat) (s : store) : Prop :=
  exists job, s !! job_id = Some job
    /\ is_terminal (status job) = false
    /\ (length (progress job) <= idx)%nat.

(** Ticks at which a job is still being worked on and its progress log
    only grows, from the lines [sent] up to the log of [final]. *)
Fixpoint grows (job_id : pystr) (sent : list pystr) (ticks : list store)
    (final : job) : Prop :=
  match ticks with
  | [] => sent `prefix_of` progress final
  | s :: ticks' =>
      exists job, s !! job_id = Some job
        /\ is_terminal (status job) = false
        /\ sent `prefix_of` progress job
        /\ grows job_id (progress job) ticks' final
  end.

(** A string that does not end in whitespace (and is not empty). *)
Definition tight_end (s : pystr) : Prop := rstrip s = s /\ s <> [].

(** *** Reading a payload back

    How a JSON reader reads the object the stream endpoints send: the
    escapes of a string become UTF-16 code units, a high surrogate
    followed by a low one becomes one character. This is the reader's
    side of the wire (the page's [JSON.parse]); the repository has only
    the writer. *)

(** A Unicode scalar value: a code point that is not a surrogate. *)
Definition is_scalar (c : N) : bool :=
  (c <? 55296) || ((57343 <? c) && (c <? 1114112)).

Definition is_high_surrogate (c : N) : bool := (55296 <=? c) && (c <=? 56319).

Definition is_low_surrogate (c : N) : bool := (56320 <=? c) && (c <=? 57343).

Definition unhex (c : N) : option N :=
  if (48 <=? c) && (c <=? 57) then Some (c - 48)
  else if (97 <=? c) && (c <=? 102) then Some (c - 87)
  else if (65 <=? c) && (c <=? 70) then Some (c - 55)
  else None.

Definition hex4 (a b c d : N) : option N :=
  match unhex a, unhex b, unhex c, unhex d with
  | Some x3, Some x2, Some x1, Some x0 =>
      Some (x3 * 4096 + x2 * 256 + x1 * 16 + x0)
  | _, _, _, _ => None
  end.

(** The character a two-character escape stands for. *)
Definition simple_escape (e : N) : option N :=
  if e =? 34 then Some 34
  else if e =? 92 then Some 92
  else if e =? 47 then Some 47
  else if e =? 98 then Some 8
  else if e =? 102 then Some 12
  else if e =? 110 then Some 10
  else if e =? 114 then Some 13
  else if e =? 116 then Some 9
  else None.

Definition push_unit (v : N) (r : option (pystr * pystr))
  : option (pystr * pystr) :=
  match r with
  | Some (units, rest) => Some (v :: units, rest)
  | None => None
  end.

(** The code units of a string body, up to its closing quote, and the
    text after that quote. *)
Fixpoint read_units (s : pystr) : option (pystr * pystr) :=
  match s with
  | [] => None
  | c :: s1 =>
      if c =? 34 then Some ([], s1)
      else if c =? 92 then
        match s1 with
        | [] => None
        | e :: s2 =>
            if e =? 117 then
              match s2 with
              | a :: b :: c3 :: d :: s3 =>
                  match hex4 a b c3 d with
                  | Some v => push_unit v (read_units s3)
                  | None => None
                  end
              | _ => None
              end
            else
              match simple_escape e with
              | Some v => push_unit v (read_units s2)
              | None => None
              end
        end
      else push_unit c (read_units s1)
  end.

Fixpoint combine_surrogates (units : pystr) : pystr :=
  match units with
  | [] => []
  | hi :: rest =>
      match rest with
      | lo :: rest' =>
          if is_high_surrogate hi && is_low_surrogate lo
          then (65536 + (hi - 55296) * 1024 + (lo - 56320))
               :: combine_surrogates rest'
          else hi :: combine_surrogates rest
      | [] => [hi]
      end
  end.

Fixpoint strip_prefix (p s : pystr) : option pystr :=
  match p, s with
  | [], _ => Some s
  | _ :: _, [] => None
  | a :: p', b :: s' => if a =? b then strip_prefix p' s' else None
  end.

(** The value of the [report_html] member of a payload: [Some None] for
    [null], [Some (Some doc)] for a string, [None] for any other text. *)
Definition json_loads_report (payload : pystr) : option (option pystr) :=
  match strip_prefix
          (lit "{" ++ [dquote] ++ lit "report_html" ++ [dquote] ++ lit ": ")
          payload with
  | None => None
  | Some rest =>
      if bool_decide (rest = lit "null}") then Some None
      else
        match rest with
        | c :: body =>
            if c =? 34 then
              match read_units body with
              | Some (units, tail) =>
                  if bool_decide (tail = lit "}")
                  then Some (Some (combine_surrogates units))
                  else None
              | None => None
              end
            else None
        | [] => None
        end
  end.

(** The UTF-16 code units of one character. *)
Definition utf16_units (c : N) : pystr :=
  if c <? 65536 then [c]
  else [N.lor 55296 (N.land (N.shiftr (c - 65536) 10) 1023);
        N.lor 56320 (N.land (c - 65536) 1023)].

(** * Properties *)

(** ** Strings *)

Lemma lstrip_blank (s : pystr) : blank s = true -> lstrip s = [].
Proof.
  induction s as [|c s IH]; simpl; [done|].
  intros [Hc Hs]%andb_prop. rewrite Hc. auto.
Qed.

Lemma strip_blank (s : pystr) : blank s = true -> strip s = [].
Proof.
  intros H. unfold strip, rstrip. rewrite (lstrip_blank s H). reflexivity.
Qed.

(** ** Submission *)

(** C5. A submission whose topic is empty or whitespace-only is answered
    with a 422 client error by both submission endpoints; the store comes
    back as it was and nothing else happened: no job written, no worker
    started. *)
Theorem blank_topic_rejected (s : store) (uuid topic : pystr)
    (Hblank : blank topic = true) :
  start_research {| game_name := topic |} uuid s
    = (Raise (HTTPException 422 (lit "game_name cannot be empty")), s, [])
  /\ start_content_brief {| keyword := topic |} uuid s
    = (Raise (HTTPException 422 (lit "keyword cannot be empty")), s, []).
Proof.
  unfold start_research, start_content_brief; simpl.
  rewrite (strip_blank topic Hblank). split; reflexivity.
Qed.

Lemma blank_topic_rejected_witness :
  let s : store := <[lit "brief-7" := new_job]> ∅ in
  let topic := [32; 9; 10; 160; 12288] in
  blank topic = true
  /\ size s = 1%nat
  /\ start_research {| game_name := topic |} (lit "u1") s
       = (Raise (HTTPException 422 (lit "game_name cannot be empty")), s, [])
  /\ start_content_brief {| keyword := topic |} (lit "u1") s
       = (Raise (HTTPException 422 (lit "keyword cannot be empty")), s, []).
Proof.
  split; [reflexivity|]. split; [reflexivity|].
  apply (blank_topic_rejected _ (lit "u1") [32; 9; 10; 160; 12288]).
  reflexivity.
Defined.

(** What [start_content_brief] does on a keyword that survives trimming:
    the job entry is written, then reading [request.competitor_urls]
    raises, before any thread is built. *)
Lemma start_content_brief_raises (s : store) (request : ContentBriefRequest)
    (uuid : pystr) :
  truthy (strip (keyword request)) = true ->
  start_content_brief request uuid s
  = (Raise (AttributeError
              (lit "'ContentBriefRequest' object has no attribute 'competitor_urls'")),
     <[lit "brief-" ++ uuid := new_job]> s,
     [Wrote (lit "brief-" ++ uuid) Create]).
Proof.
  intros H. unfold start_content_brief. rewrite H. reflexivity.
Qed.

(** What [start_research] does on a name that survives trimming. *)
Lemma start_research_ok (s : store) (request : ResearchRequest) (uuid : pystr) :
  truthy (strip (game_name request)) = true ->
  start_research request uuid s
  = (Ok {| job_id := uuid |},
     <[uuid := new_job]> s,
     [Wrote uuid Create;
      Started (Thread "_run_crew" [VStr uuid; VStr (strip (game_name request))])]).
Proof.
  intros H. unfold start_research. rewrite H. reflexivity.
Qed.

(** C1. On the keyword ["seo tools"] the content-brief endpoint writes the
    job entry and then fails with an [AttributeError]: it returns no job
    identifier and starts no worker. *)
Theorem content_brief_submission_fails :
  let '(r, s', l) :=
    start_content_brief {| keyword := lit "seo tools" |} sample_uuid ∅ in
  r = Raise (AttributeError
               (lit "'ContentBriefRequest' object has no attribute 'competitor_urls'"))
  /\ s' !! (lit "brief-" ++ sample_uuid) = Some new_job
  /\ started l = [].
Proof.
  rewrite start_content_brief_raises by reflexivity.
  split; [reflexivity|]. split; [|reflexivity].
  apply lookup_insert_eq.
Qed.

(** ** Stores and logs *)

Lemma apply_log_app (l1 l2 : list effect) (s : store) :
  apply_log (l1 ++ l2) s = apply_log l2 (apply_log l1 s).
Proof. unfold apply_log. apply foldl_app. Qed.

Lemma apply_effect_lookup (job_id : pystr) (e : effect) (s : store) (j : job) :
  s !! job_id = Some j ->
  apply_effect e s !! job_id = Some (job_after (updates_to job_id [e]) j).
Proof.
  intros Hj. destruct e as [i u| |]; simpl; try done.
  unfold updates_to; simpl. case_bool_decide as Hi; simpl.
  - subst i. destruct u; simpl;
      rewrite ?lookup_insert_eq, ?lookup_alter_eq, ?Hj; reflexivity.
  - destruct u; simpl;
      rewrite ?lookup_insert_ne, ?lookup_alter_ne by done; done.
Qed.

Lemma updates_to_app (job_id : pystr) (l1 l2 : list effect) :
  updates_to job_id (l1 ++ l2) = updates_to job_id l1 ++ updates_to job_id l2.
Proof. unfold updates_to. apply omap_app. Qed.

Lemma job_after_app (us1 us2 : list update) (j : job) :
  job_after (us1 ++ us2) j = job_after us2 (job_after us1 j).
Proof. unfold job_after. apply foldl_app. Qed.

Lemma apply_log_lookup (job_id : pystr) (l : list effect) (s : store) (j : job) :
  s !! job_id = Some j ->
  apply_log l s !! job_id = Some (job_after (updates_to job_id l) j).
Proof.
  revert s j. induction l as [|e l IH]; intros s j Hj; [done|].
  change (e :: l) with ([e] ++ l).
  rewrite apply_log_app, updates_to_app, job_after_app.
  apply IH. unfold apply_log; simpl. by apply apply_effect_lookup.
Qed.

Lemma apply_log_present (job_id : pystr) (l : list effect) (s : store) :
  is_Some (s !! job_id) -> is_Some (apply_log l s !! job_id).
Proof. intros [j Hj]. rewrite (apply_log_lookup _ _ _ j Hj). eauto. Qed.

(** ** Rules of the triples *)

Section Rules.

Context (job_id : pystr).

Lemma tri_ret {A} (a : A) N X : N a [] -> tri job_id (ret a) N X.
Proof. intros H s _. exists (Ok a), []. auto. Qed.

Lemma tri_raise {A} (e : exn) (N : A -> _) X :
  X e [] -> tri job_id (raise e) N X.
Proof. intros H s _. exists (Raise e), []. auto. Qed.

Lemma tri_lift {A} (r : result A) N X :
  match r with Ok a => N a [] | Raise e => X e [] end ->
  tri job_id (lift r) N X.
Proof. intros H s _. exists r, []. auto. Qed.

Lemma tri_weaken {A} (m : M A) (N N' : A -> _) (X X' : exn -> _) :
  tri job_id m N X ->
  (forall a l, N a l -> N' a l) -> (forall e l, X e l -> X' e l) ->
  tri job_id m N' X'.
Proof.
  intros Hm HN HX s Hs. destruct (Hm s Hs) as (r & l & Heq & Hpost).
  exists r, l. split; [done|]. destruct r; auto.
Qed.

Lemma tri_bind {A B} (m : M A) (k : A -> M B) N1 X1 N X :
  tri job_id m N1 X1 ->
  (forall a l1, N1 a l1 ->
     tri job_id (k a) (fun b l2 => N b (l1 ++ l2)) (fun e l2 => X e (l1 ++ l2))) ->
  (forall e l, X1 e l -> X e l) ->
  tri job_id (bind m k) N X.
Proof.
  intros Hm Hk HX s Hs. unfold bind.
  destruct (Hm s Hs) as (r & l1 & -> & Hpost). destruct r as [a|e].
  - destruct (Hk a l1 Hpost (apply_log l1 s)) as (r2 & l2 & -> & Hpost2);
      [by apply apply_log_present|].
    exists r2, (l1 ++ l2). by rewrite apply_log_app.
  - exists (Raise e), l1. auto.
Qed.

Lemma tri_try {A} (m : M A) (h : exn -> M A) N1 X1 N X :
  tri job_id m N1 X1 ->
  (forall a l, N1 a l -> N a l) ->
  (forall e l1, X1 e l1 ->
     tri job_id (h e) (fun a l2 => N a (l1 ++ l2)) (fun e' l2 => X e' (l1 ++ l2))) ->
  tri job_id (try_except m h) N X.
Proof.
  intros Hm HN Hh s Hs. unfold try_except.
  destruct (Hm s Hs) as (r & l1 & -> & Hpost). destruct r as [a|e].
  - exists (Ok a), l1. auto.
  - destruct (Hh e l1 Hpost (apply_log l1 s)) as (r2 & l2 & -> & Hpost2);
      [by apply apply_log_present|].
    exists r2, (l1 ++ l2). by rewrite apply_log_app.
Qed.

Lemma tri_emit (e : effect) N X :
  (forall s, apply_effect e s = s) ->
  N tt [e] -> tri job_id (emit e) N X.
Proof.
  intros He H s _. exists (Ok tt), [e]. split; [|done].
  unfold emit, apply_log; simpl. by rewrite He.
Qed.

Lemma tri_store_set (u : update) N X :
  u <> Create ->
  N tt [Wrote job_id u] -> tri job_id (store_set job_id u) N X.
Proof.
  intros Hu H s [j Hj]. unfold store_set. rewrite Hj.
  exists (Ok tt), [Wrote job_id u]. auto.
Qed.

Lemma tri_push (msg : pystr) N X :
  N tt [Wrote job_id (Append msg)] -> tri job_id (_push job_id msg) N X.
Proof.
  intros H s [j Hj]. unfold _push. rewrite Hj.
  exists (Ok tt), [Wrote job_id (Append msg)]. auto.
Qed.

Lemma tri_push_progress (msg : pystr) N X :
  N tt [Wrote job_id (Append msg)] ->
  tri job_id (_push_progress job_id msg) N X.
Proof.
  intros H s [j Hj]. unfold _push_progress. rewrite Hj.
  exists (Ok tt), [Wrote job_id (Append msg)]. auto.
Qed.

(** Sequencing after a step that always succeeds with one log entry. *)
Lemma tri_then {B} (m : M unit) (e : effect) (k : unit -> M B) N X :
  tri job_id m (fun _ l => l = [e]) (fun _ _ => False) ->
  tri job_id (k tt) (fun b l => N b (e :: l)) (fun x l => X x (e :: l)) ->
  tri job_id (bind m k) N X.
Proof.
  intros Hm Hk. eapply tri_bind; [exact Hm| |done].
  intros [] l1 ->. exact Hk.
Qed.

Lemma tri_external {A B} (c : call) (r : result A) (k : A -> M B) N X :
  match r with
  | Ok a => tri job_id (k a) (fun b l => N b (Called c :: l))
              (fun x l => X x (Called c :: l))
  | Raise e => X e [Called c]
  end ->
  tri job_id (bind (external c r) k) N X.
Proof.
  intros H. unfold external.
  eapply (tri_bind _ _ (fun a l => l = [Called c] /\ r = Ok a)
            (fun e l => l = [Called c] /\ r = Raise e)).
  - eapply tri_then; [by apply tri_emit|]. apply tri_lift.
    destruct r; auto.
  - intros a l1 [-> ->]. exact H.
  - intros e l [-> ->]. exact H.
Qed.

End Rules.

(** ** The workers produce their closed-form logs *)

Section WorkerLogs.

Context (E : collaborators) (job_id : pystr).

Lemma tri_push_then {B} (msg : pystr) (k : unit -> M B) N X :
  tri job_id (k tt) (fun b l => N b (Wrote job_id (Append msg) :: l))
    (fun x l => X x (Wrote job_id (Append msg) :: l)) ->
  tri job_id (bind (_push job_id msg) k) N X.
Proof. intros H. eapply tri_then; [by apply tri_push|exact H]. Qed.

Lemma tri_push_progress_then {B} (msg : pystr) (k : unit -> M B) N X :
  tri job_id (k tt) (fun b l => N b (Wrote job_id (Append msg) :: l))
    (fun x l => X x (Wrote job_id (Append msg) :: l)) ->
  tri job_id (bind (_push_progress job_id msg) k) N X.
Proof. intros H. eapply tri_then; [by apply tri_push_progress|exact H]. Qed.

Lemma tri_store_set_then {B} (u : update) (k : unit -> M B) N X :
  u <> Create ->
  tri job_id (k tt) (fun b l => N b (Wrote job_id u :: l))
    (fun x l => X x (Wrote job_id u :: l)) ->
  tri job_id (bind (store_set job_id u) k) N X.
Proof. intros Hu H. eapply tri_then; [by apply tri_store_set|exact H]. Qed.

(** The handler of either worker: three writes, no exception. *)
Lemma tri_handler (exc : exn) (N : unit -> list effect -> Prop) X :
  N tt (handler_log job_id exc) ->
  tri job_id
    (store_set job_id (SetStatus Error) ;;
     store_set job_id (SetError (str_exc exc)) ;;
     _push job_id (lit "ERROR: " ++ str_exc exc)) N X.
Proof.
  intros H. apply tri_store_set_then; [done|].
  apply tri_store_set_then; [done|]. by apply tri_push.
Qed.

Lemma fetch_step_log (n : nat) (acc : list competitor) (ir : nat * search_result) :
  tri job_id (fetch_step E job_id n acc ir)
    (fun data l => data = acc ++ [fetched E ir] /\ l = fetch_log E job_id n ir)
    (fun _ _ => False).
Proof.
  destruct ir as [i result]. unfold fetch_step, fetch_log, fetching_line,
    fetch_note, fetched, fetch_call; simpl.
  apply tri_push_then.
  eapply (tri_try _ _ _
    (fun data l => data = acc ++ [fetched E (i, result)]
                   /\ l = [Called (fetch_call (i, result));
                           Wrote job_id (Append (fetch_note E (i, result)))])
    (fun exc l => l = [Called (fetch_call (i, result))]
                  /\ fetch_page E i (default [] (link result)) = Raise exc)).
  - apply tri_external.
    unfold fetch_note, fetched, fetch_call; simpl.
    destruct (fetch_page E i (default [] (link result))) as [pg|exc]; [|done].
    apply tri_push_then. by apply tri_ret.
  - unfold fetch_note, fetched, fetch_call; simpl.
    intros data l [-> ->]. done.
  - intros exc l1 [-> Hexc]. apply tri_push_then. apply tri_ret.
    simpl. rewrite Hexc. done.
Qed.

Lemma fetch_loop_log (n : nat) (items : list (nat * search_result))
    (acc : list competitor) :
  tri job_id (for_each (fetch_step E job_id n) items acc)
    (fun data l => data = acc ++ map (fetched E) items
                   /\ l = flat_map (fetch_log E job_id n) items)
    (fun _ _ => False).
Proof.
  revert acc. induction items as [|ir items IH]; intros acc; simpl.
  - apply tri_ret. by rewrite app_nil_r.
  - eapply tri_bind; [apply fetch_step_log| |done].
    intros data l1 [-> ->]. eapply tri_weaken; [apply IH| |done].
    intros data l [-> ->]. by rewrite <- app_assoc.
Qed.

Lemma run_content_brief_log (keyword : pystr) :
  tri job_id (run_content_brief E job_id keyword)
    (fun _ l => l = brief_log E job_id keyword) (fun _ _ => False).
Proof.
  unfold run_content_brief.
  eapply (tri_try _ _ _ (fun _ l => l = brief_log E job_id keyword)
            (fun exc l => l ++ handler_log job_id exc = brief_log E job_id keyword));
    [|done|intros exc l1 H; by apply tri_handler].
  unfold brief_log, results_log, analysis_log.
  apply tri_store_set_then; [done|]. apply tri_push_then.
  destruct (negb (truthy (default [] (getenv E "SERPER_API_KEY")))).
  { by apply tri_raise. }
  apply tri_push_then. apply tri_external.
  destruct (serper_search E _ keyword) as [search|exc]; [|done].
  case_bool_decide as Horganic.
  { by apply tri_raise. }
  apply tri_push_then.
  eapply tri_bind; [apply fetch_loop_log| |done].
  intros data l1 [-> ->]. simpl.
  apply tri_push_then. apply tri_push_then. apply tri_external.
  destruct (claude_analysis E _ _) as [brief_text|exc];
    [|simpl; by rewrite <- app_assoc].
  apply tri_push_then. unfold _format_report.
  eapply (tri_bind _ _ _
    (fun html l => l = [Called (CallMarkdown brief_text)]
                   /\ exists brief_html, markdown E brief_text = Ok brief_html
                        /\ html = report_head (utc_now E) keyword brief_html
                                    (length (map (fetched E)
                                       (enumerate (take 5 (default [] (organic search))) 1)))
                                  ++ comp_rows (map (fetched E)
                                       (enumerate (take 5 (default [] (organic search))) 1))
                                  ++ report_tail)
    (fun exc l => l = [Called (CallMarkdown brief_text)]
                  /\ markdown E brief_text = Raise exc)).
  - apply tri_external.
    destruct (markdown E brief_text) as [brief_html|exc]; [|done].
    apply tri_ret. eauto.
  - intros html l2 (-> & brief_html & -> & ->).
    apply tri_store_set_then; [done|]. apply tri_store_set_then; [done|].
    apply tri_push. simpl. by rewrite <- app_assoc.
  - intros exc l2 [-> ->]. simpl. by rewrite <- app_assoc.
Qed.

Lemma callback_loop_log (steps : list step_output) :
  tri job_id (for_each (fun _ step => callback job_id step) steps tt)
    (fun _ l => l = map (fun step => Wrote job_id (Append (step_msg step))) steps)
    (fun _ _ => False).
Proof.
  induction steps as [|step steps IH]; simpl.
  - by apply tri_ret.
  - eapply (tri_bind _ _ _
      (fun _ l => l = [Wrote job_id (Append (step_msg step))]) (fun _ _ => False));
      [| |done].
    + unfold callback.
      eapply (tri_try _ _ _
        (fun _ l => l = [Wrote job_id (Append (step_msg step))])
        (fun _ _ => False)); [|done|done].
      apply tri_push_progress. by destruct step.
    + intros [] l1 ->. eapply tri_weaken; [apply IH| |done].
      by intros [] l ->.
Qed.

Lemma _run_crew_log (game_name : pystr) :
  tri job_id (_run_crew E job_id game_name)
    (fun _ l => l = crew_log E job_id game_name) (fun _ _ => False).
Proof.
  unfold _run_crew.
  eapply (tri_try _ _ _ (fun _ l => l = crew_log E job_id game_name)
            (fun exc l => l ++ handler_log job_id exc = crew_log E job_id game_name));
    [|done|].
  2:{ intros exc l1 H. apply tri_store_set_then; [done|].
      apply tri_store_set_then; [done|]. by apply tri_push_progress. }
  unfold crew_log.
  apply tri_push_progress_then. apply tri_store_set_then; [done|].
  apply tri_external.
  destruct (build_seo_crew E game_name) as [crew|exc]; [|done].
  apply tri_push_progress_then.
  eapply tri_then; [by apply tri_emit|].
  eapply tri_bind; [apply callback_loop_log| |done].
  intros [] l1 ->.
  eapply (tri_bind _ _ _ (fun r l => l = [] /\ kickoff crew = Ok r)
            (fun exc l => l = [] /\ kickoff crew = Raise exc)).
  - apply tri_lift. by destruct (kickoff crew).
  - intros result l2 [-> Hk]. rewrite Hk.
    apply tri_store_set_then; [done|]. apply tri_store_set_then; [done|].
    apply tri_push_progress. simpl. by rewrite ?app_nil_r.
  - intros exc l2 [-> Hk]. rewrite Hk. simpl. by rewrite ?app_nil_r, <- ?app_assoc.
Qed.

End WorkerLogs.

(** ** Running a worker *)

Lemma tri_run {A} (job_id : pystr) (m : M A) (L : list effect) (s : store) :
  tri job_id m (fun _ l => l = L) (fun _ _ => False) ->
  is_Some (s !! job_id) ->
  exists a, m s = (Ok a, apply_log L s, L).
Proof.
  intros Hm Hs. destruct (Hm s Hs) as ([a|e] & l & Heq & Hpost); [|done].
  subst l. eauto.
Qed.

Lemma run_content_brief_run (E : collaborators) (job_id keyword : pystr)
    (s : store) :
  is_Some (s !! job_id) ->
  run_content_brief E job_id keyword s
  = (Ok tt, apply_log (brief_log E job_id keyword) s, brief_log E job_id keyword).
Proof.
  intros Hs.
  destruct (tri_run _ _ _ s (run_content_brief_log E job_id keyword) Hs)
    as [[] H]. exact H.
Qed.

Lemma _run_crew_run (E : collaborators) (job_id game_name : pystr) (s : store) :
  is_Some (s !! job_id) ->
  _run_crew E job_id game_name s
  = (Ok tt, apply_log (crew_log E job_id game_name) s, crew_log E job_id game_name).
Proof.
  intros Hs.
  destruct (tri_run _ _ _ s (_run_crew_log E job_id game_name) Hs) as [[] H].
  exact H.
Qed.

(** ** Traces *)

Lemma job_states_lookup (us : list update) (j : job) (i : nat) (ji : job) :
  job_states j us !! i = Some ji ->
  (i <= length us)%nat /\ ji = job_after (take i us) j.
Proof.
  revert j i. induction us as [|u us IH]; intros j [|i] H; simpl in *.
  - by inversion H.
  - done.
  - inversion H. split; [lia|done].
  - destruct (IH _ _ H) as [Hle ->]. split; [lia|done].
Qed.

Lemma job_states_lookup_le (us : list update) (j : job) (i : nat) :
  (i <= length us)%nat ->
  job_states j us !! i = Some (job_after (take i us) j).
Proof.
  revert j i. induction us as [|u us IH]; intros j [|i] H; simpl in *;
    try done; try lia.
  apply IH. lia.
Qed.

Lemma job_states_last (us : list update) (j : job) :
  last (job_states j us) = Some (job_after us j).
Proof.
  revert j. induction us as [|u us IH]; intros j; [done|].
  simpl job_states. rewrite last_cons, IH. done.
Qed.

Lemma updates_to_same (job_id : pystr) (u : update) (l : list effect) :
  updates_to job_id (Wrote job_id u :: l) = u :: updates_to job_id l.
Proof. unfold updates_to; simpl. by rewrite bool_decide_eq_true_2. Qed.

Lemma updates_to_called (job_id : pystr) (c : call) (l : list effect) :
  updates_to job_id (Called c :: l) = updates_to job_id l.
Proof. reflexivity. Qed.

Lemma body_log_updates (job_id : pystr) (lb : list effect) :
  body_log job_id lb ->
  Forall (fun u => body_update u = true) (updates_to job_id lb).
Proof.
  unfold body_log. induction lb as [|e lb IH]; intros H; [constructor|].
  simpl in H. apply andb_prop in H as [He Hlb].
  destruct e as [i u|c|t]; simpl in He; [|by apply IH|done].
  apply andb_prop in He as [Hi Hu]. apply bool_decide_eq_true_1 in Hi. subst i.
  rewrite updates_to_same. constructor; auto.
Qed.

Lemma body_clean (us : list update) (j : job) :
  Forall (fun u => body_update u = true) us -> clean j -> clean (job_after us j).
Proof.
  intros Hus. revert j. induction Hus as [|u us Hu _ IH]; intros j Hj; [done|].
  apply IH. destruct Hj as (Ht & Hr & He).
  destruct u as [|[]| | |]; simpl in *; try done.
Qed.

Lemma body_progress (us : list update) (j : job) :
  Forall (fun u => body_update u = true) us ->
  progress j `prefix_of` progress (job_after us j).
Proof.
  intros Hus. revert j. induction Hus as [|u us Hu _ IH]; intros j; [done|].
  simpl. etrans; [|apply IH].
  destruct u as [|[]| | |]; simpl in *; try done.
  by apply prefix_app_r.
Qed.

Lemma body_progress_take (us : list update) (j : job) (i k : nat) :
  Forall (fun u => body_update u = true) us -> (i <= k)%nat ->
  progress (job_after (take i us) j) `prefix_of` progress (job_after (take k us) j).
Proof.
  intros Hus Hik.
  replace (take k us) with (take i us ++ drop i (take k us)).
  - rewrite job_after_app. apply body_progress.
    by apply Forall_drop, Forall_take.
  - rewrite <- (take_drop i (take k us)) at 2. f_equal.
    rewrite take_take. f_equal. lia.
Qed.

(** Where a view of a trace with a three-write ending comes from: the
    working phase, or one of the last three writes. *)
Lemma trace_at (ub : list update) (t1 t2 t3 : update) (j0 : job)
    (i : nat) (ji : job) :
  job_states j0 (ub ++ [t1; t2; t3]) !! i = Some ji ->
  ((i <= length ub)%nat /\ ji = job_after (take i ub) j0)
  \/ (i = length ub + 1 /\ ji = update_job t1 (job_after ub j0))%nat
  \/ (i = length ub + 2
      /\ ji = update_job t2 (update_job t1 (job_after ub j0)))%nat
  \/ (i = length ub + 3
      /\ ji = update_job t3 (update_job t2 (update_job t1 (job_after ub j0))))%nat.
Proof.
  intros H. apply job_states_lookup in H as [Hle ->].
  rewrite length_app in Hle; simpl in Hle.
  destruct (decide (i <= length ub)%nat) as [Hi|Hi].
  { left. split; [done|]. by rewrite take_app_le. }
  right. rewrite take_app_ge by lia. rewrite job_after_app.
  destruct (i - length ub)%nat as [|[|[|n]]] eqn:Hd; [lia| | |].
  - left. split; [lia|done].
  - right; left. split; [lia|done].
  - right; right. split; [lia|]. simpl. by rewrite take_nil.
Qed.

Lemma protocol_updates (job_id : pystr) (l : list effect) :
  protocol job_id l ->
  exists ub, Forall (fun u => body_update u = true) ub
    /\ ((exists html msg,
           updates_to job_id l = ub ++ [SetReport html; SetStatus Complete; Append msg])
        \/ (exists err msg,
              updates_to job_id l = ub ++ [SetStatus Error; SetError err; Append msg])).
Proof.
  intros (lb & Hlb & H). exists (updates_to job_id lb).
  split; [by apply body_log_updates|].
  destruct H as [(html & msg & ->)|(err & msg & ->)]; [left|right];
    eexists _, _; rewrite updates_to_app;
    unfold success_tail, failure_tail; by rewrite !updates_to_same.
Qed.

Ltac trace_cases H :=
  apply trace_at in H;
  destruct H as [[? ->]|[[? ->]|[[? ->]|[? ->]]]].

Lemma body_progress_all (ub : list update) (j : job) (i : nat) :
  Forall (fun u => body_update u = true) ub ->
  progress (job_after (take i ub) j) `prefix_of` progress (job_after ub j).
Proof.
  intros Hub. destruct (decide (i <= length ub)%nat).
  - rewrite <- (firstn_all ub) at 2. by apply body_progress_take.
  - by rewrite take_ge by lia.
Qed.

(** ** Both workers follow the protocol *)

Section Protocol.

Context (job_id : pystr).

Lemma protocol_app (lb l : list effect) :
  body_log job_id lb -> protocol job_id l -> protocol job_id (lb ++ l).
Proof.
  intros Hlb (lb' & Hlb' & H). exists (lb ++ lb'). split.
  - unfold body_log in *. rewrite forallb_app, Hlb, Hlb'. done.
  - destruct H as [(html & msg & ->)|(err & msg & ->)]; [left|right];
      eexists _, _; by rewrite app_assoc.
Qed.

Lemma protocol_push (msg : pystr) (l : list effect) :
  protocol job_id l -> protocol job_id (Wrote job_id (Append msg) :: l).
Proof.
  intros H. apply (protocol_app [_]); [|done].
  unfold body_log; simpl. by rewrite bool_decide_eq_true_2.
Qed.

Lemma protocol_running (l : list effect) :
  protocol job_id l -> protocol job_id (Wrote job_id (SetStatus Running) :: l).
Proof.
  intros H. apply (protocol_app [_]); [|done].
  unfold body_log; simpl. by rewrite bool_decide_eq_true_2.
Qed.

Lemma protocol_called (c : call) (l : list effect) :
  protocol job_id l -> protocol job_id (Called c :: l).
Proof. intros H. by apply (protocol_app [_]). Qed.

Lemma protocol_handler (exc : exn) : protocol job_id (handler_log job_id exc).
Proof. exists []. split; [done|]. right. by eexists _, _. Qed.

Lemma protocol_success (html msg : pystr) :
  protocol job_id (success_tail job_id html msg).
Proof. exists []. split; [done|]. left. by eexists _, _. Qed.

Lemma fetch_loop_body (E : collaborators) (n : nat)
    (items : list (nat * search_result)) :
  body_log job_id (flat_map (fetch_log E job_id n) items).
Proof.
  unfold body_log. induction items as [|ir items IH]; [done|].
  simpl. by rewrite bool_decide_eq_true_2.
Qed.

Lemma callback_loop_body (steps : list step_output) :
  body_log job_id
    (map (fun step => Wrote job_id (Append (step_msg step))) steps).
Proof.
  unfold body_log. induction steps as [|step steps IH]; [done|].
  simpl. by rewrite bool_decide_eq_true_2.
Qed.

Lemma brief_log_protocol (E : collaborators) (keyword : pystr) :
  protocol job_id (brief_log E job_id keyword).
Proof.
  unfold brief_log, results_log, analysis_log.
  apply protocol_running, protocol_push.
  destruct (negb _); [apply protocol_handler|].
  apply protocol_push, protocol_called.
  destruct (serper_search E _ _) as [search|exc]; [|apply protocol_handler].
  case_bool_decide; [apply protocol_handler|].
  apply protocol_push, protocol_app; [apply fetch_loop_body|].
  apply protocol_push, protocol_push, protocol_called.
  destruct (claude_analysis E _ _) as [brief_text|exc]; [|apply protocol_handler].
  apply protocol_push, protocol_called.
  destruct (markdown E _) as [brief_html|exc];
    [apply protocol_success|apply protocol_handler].
Qed.

Lemma crew_log_protocol (E : collaborators) (game_name : pystr) :
  protocol job_id (crew_log E job_id game_name).
Proof.
  unfold crew_log. apply protocol_push, protocol_running, protocol_called.
  destruct (build_seo_crew E _) as [crew|exc]; [|apply protocol_handler].
  apply protocol_push, protocol_called, protocol_app;
    [apply callback_loop_body|].
  destruct (kickoff crew) as [result|exc];
    [apply protocol_success|apply protocol_handler].
Qed.

End Protocol.

Lemma new_job_clean : clean new_job.
Proof. done. Qed.

(** A job that followed the protocol ends with a terminal status. *)
Lemma protocol_terminal (job_id : pystr) (l : list effect) (j0 : job) :
  protocol job_id l ->
  is_terminal (status (job_after (updates_to job_id l) j0)) = true.
Proof.
  intros (ub & _ & [(html & msg & ->)|(err & msg & ->)])%protocol_updates;
    by rewrite job_after_app.
Qed.

(** ** Streams *)

Lemma research_drain (progress : list pystr) (fuel idx : nat) :
  (length progress <= idx + fuel)%nat ->
  StreamResearch.drain fuel progress idx
  = (map progress_event (drop idx progress), Nat.max idx (length progress)).
Proof.
  revert idx. induction fuel as [|fuel IH]; intros idx Hlen; simpl.
  - rewrite drop_ge by lia. f_equal. lia.
  - destruct (progress !! idx) as [msg|] eqn:Hmsg.
    + rewrite IH by lia. rewrite (drop_S _ _ _ Hmsg). simpl.
      apply lookup_lt_Some in Hmsg. f_equal. lia.
    + apply lookup_ge_None in Hmsg. rewrite drop_ge by lia. f_equal. lia.
Qed.

Lemma drain_same (progress : list pystr) (fuel idx : nat) :
  StreamResearch.drain fuel progress idx
  = StreamContentBrief.drain fuel progress idx.
Proof.
  revert idx. induction fuel as [|fuel IH]; intros idx; simpl; [done|].
  destruct (progress !! idx); [|done]. by rewrite IH.
Qed.

Lemma pass_same (job_id : pystr) (st : gen_state) (s : store) :
  StreamResearch.pass job_id st s = StreamContentBrief.pass job_id st s.
Proof.
  unfold StreamResearch.pass, StreamContentBrief.pass.
  destruct (s !! job_id) as [job|]; [|done]. by rewrite drain_same.
Qed.

Lemma event_generator_same (job_id : pystr) (st : gen_state) (ticks : list store) :
  StreamResearch.event_generator job_id st ticks
  = StreamContentBrief.event_generator job_id st ticks.
Proof.
  revert st. induction ticks as [|s ticks IH]; intros st; simpl; [done|].
  rewrite pass_same.
  destruct (StreamContentBrief.pass job_id st s) as [evs [st'|]]; [|done].
  by rewrite IH.
Qed.

(** C10. The two stream endpoints behave alike: for any job id and any
    store at the time of the call they answer 404 together or both start a
    generator, and over any sequence of later stores, from any values of
    the two local variables, the two generators yield the same events and
    return at the same tick. *)
Theorem stream_endpoints_equivalent (job_id : pystr) (s : store) :
  match StreamResearch.stream_research job_id s,
        StreamContentBrief.stream_content_brief job_id s with
  | Raise e1, Raise e2 => e1 = e2
  | Ok g1, Ok g2 => forall ticks, g1 ticks = g2 ticks
  | _, _ => False
  end
  /\ forall st ticks,
       StreamResearch.event_generator job_id st ticks
       = StreamContentBrief.event_generator job_id st ticks.
Proof.
  split; [|apply event_generator_same].
  unfold StreamResearch.stream_research, StreamContentBrief.stream_content_brief.
  destruct (s !! job_id); [|done]. intros ticks. apply event_generator_same.
Qed.

Lemma count_events_progress (name : string) (msgs : list pystr) :
  name <> "progress"%string ->
  count_events name (map progress_event msgs) = 0%nat.
Proof.
  intros Hname. unfold count_events.
  induction msgs as [|msg msgs IH]; [done|]. simpl.
  rewrite filter_cons_False; [exact IH|]. simpl. congruence.
Qed.

Lemma count_events_app (name : string) (evs1 evs2 : list sse) :
  count_events name (evs1 ++ evs2)
  = (count_events name evs1 + count_events name evs2)%nat.
Proof. unfold count_events. by rewrite filter_app, length_app. Qed.

(** ** Reading a log: lines, calls, final job *)

Lemma calls_app (l1 l2 : list effect) : calls (l1 ++ l2) = calls l1 ++ calls l2.
Proof. unfold calls. apply omap_app. Qed.

Lemma calls_fetch_loop (E : collaborators) (job_id : pystr) (n : nat)
    (items : list (nat * search_result)) :
  calls (flat_map (fetch_log E job_id n) items) = map fetch_call items.
Proof.
  induction items as [|ir items IH]; [done|].
  simpl. unfold calls in *; simpl. by rewrite IH.
Qed.

Lemma updates_fetch_loop (E : collaborators) (job_id : pystr) (n : nat)
    (items : list (nat * search_result)) :
  updates_to job_id (flat_map (fetch_log E job_id n) items)
  = map Append (fetch_lines E n items).
Proof.
  induction items as [|ir items IH]; [done|].
  cbn [flat_map fetch_log app].
  rewrite updates_to_same, updates_to_called, updates_to_same.
  by rewrite IH.
Qed.

Lemma job_after_cons (u : update) (us : list update) (j : job) :
  job_after (u :: us) j = job_after us (update_job u j).
Proof. reflexivity. Qed.

Lemma job_after_appends (msgs : list pystr) (j : job) :
  job_after (map Append msgs) j
  = {| status := status j; progress := progress j ++ msgs;
       report_html := report_html j; error := error j |}.
Proof.
  revert j. induction msgs as [|msg msgs IH]; intros j; simpl.
  - rewrite app_nil_r. by destruct j.
  - rewrite IH. simpl. by rewrite <- app_assoc.
Qed.

Lemma filter_fetch_calls (items : list (nat * search_result)) :
  List.filter is_fetch_call (map fetch_call items) = map fetch_call items.
Proof. induction items as [|ir items IH]; [done|]. simpl. by rewrite IH. Qed.

Lemma enumerate_length {A} (l : list A) (start : nat) :
  length (enumerate l start) = length l.
Proof.
  revert start. induction l as [|x l IH]; intros start; [done|].
  simpl. by rewrite IH.
Qed.

Lemma enumerate_fst {A} (l : list A) (start : nat) :
  map fst (enumerate l start) = seq start (length l).
Proof.
  revert start. induction l as [|x l IH]; intros start; [done|].
  simpl. by rewrite IH.
Qed.

Lemma fetched_position (E : collaborators) (ir : nat * search_result) :
  position (fetched E ir) = fst ir.
Proof.
  destruct ir as [i result]. unfold fetched.
  by destruct (fetch_page E i _).
Qed.

Lemma fetched_positions (E : collaborators) (organic : list search_result) :
  map position (map (fetched E) (enumerate organic 1)) = seq 1 (length organic).
Proof.
  rewrite map_map. rewrite <- enumerate_fst.
  apply map_ext. intros ir. apply fetched_position.
Qed.

Lemma fetched_placeholder (E : collaborators) (ir : nat * search_result) :
  fetch_failed E ir = true ->
  fetched E ir
  = {| position := fst ir; url := default [] (link (snd ir));
       title := default (lit "Page " ++ dec (fst ir)) (result_title (snd ir));
       content := [] |}.
Proof.
  destruct ir as [i result]. unfold fetch_failed, fetched; simpl.
  by destruct (fetch_page E i _).
Qed.

Lemma filter_cons_false {A} (f : A -> bool) (a : A) (l : list A) :
  f a = false -> List.filter f (a :: l) = List.filter f l.
Proof. intros H. simpl. by rewrite H. Qed.

Lemma skip_note_failed (E : collaborators) (ir : nat * search_result) :
  is_skip_note (fetch_note E ir) = fetch_failed E ir.
Proof.
  unfold is_skip_note, fetch_note, fetch_failed.
  destruct (fetch_page E _ _); reflexivity.
Qed.

Lemma skip_notes_fetch_lines (E : collaborators) (n : nat)
    (items : list (nat * search_result)) :
  List.filter is_skip_note (fetch_lines E n items)
  = map (fetch_note E) (List.filter (fetch_failed E) items).
Proof.
  induction items as [|ir items IH]; [done|].
  unfold fetch_lines in *. simpl.
  replace (is_skip_note (fetching_line n ir)) with false by reflexivity.
  rewrite skip_note_failed. destruct (fetch_failed E ir); simpl; by rewrite IH.
Qed.

(** ** The workers: terminal state, progress, result and error *)

(** Called as its signature asks, on a job that is in the store, the
    content-brief worker returns without raising and leaves the job in a
    terminal status. *)
Lemma run_content_brief_terminal (E : collaborators) (job_id keyword : pystr)
    (s : store) (j : job) :
  s !! job_id = Some j ->
  exists s' l jf,
    run_content_brief E job_id keyword s = (Ok tt, s', l)
    /\ s' !! job_id = Some jf /\ is_terminal (status jf) = true.
Proof.
  intros Hj. rewrite run_content_brief_run by eauto.
  eexists _, _, _. split; [reflexivity|].
  split; [by apply apply_log_lookup|].
  apply protocol_terminal, brief_log_protocol.
Qed.

(** A research submission that passes the check starts one thread, and
    that thread, whenever it runs on a store that still holds the job,
    returns without raising and leaves the job in a terminal status. *)
Lemma research_job_terminal (E : collaborators) (request : ResearchRequest)
    (uuid : pystr) (s : store) :
  truthy (strip (game_name request)) = true ->
  exists t, started (snd (start_research request uuid s)) = [t]
    /\ forall s1 j, s1 !! uuid = Some j ->
         exists s2 l jf, run_thread E t s1 = (Ok tt, s2, l)
           /\ s2 !! uuid = Some jf /\ is_terminal (status jf) = true.
Proof.
  intros H. rewrite start_research_ok by done. eexists. split; [reflexivity|].
  intros s1 j Hj.
  change (run_thread E _ s1)
    with (_run_crew E uuid (strip (game_name request)) s1).
  rewrite _run_crew_run by eauto.
  eexists _, _, _. split; [reflexivity|].
  split; [by apply apply_log_lookup|].
  apply protocol_terminal, crew_log_protocol.
Qed.

(** C2. On the keyword ["seo tools"] the content-brief endpoint leaves a
    job that is queued and starts no thread, so no worker will ever move
    it to a terminal status; and the call the endpoint means to make, the
    worker with four arguments, raises [TypeError] outside the worker's
    own [try], with the job still queued. *)
Theorem content_brief_job_never_terminal :
  let E := sample_env (Some (lit "key")) (Some (lit "sk")) 5 in
  let '(_, s', l) :=
    start_content_brief {| keyword := lit "seo tools" |} sample_uuid ∅ in
  started l = []
  /\ status <$> s' !! sample_id = Some Queued
  /\ let '(r, s2, l2) :=
       run_thread E
         (Thread "run_content_brief"
            [VJobStore; VStr sample_id; VStr (lit "seo tools"); VNone]) s' in
     r = Raise (TypeError
                  (lit "run_content_brief() takes 3 positional arguments but 4 were given"))
     /\ l2 = [] /\ status <$> s2 !! sample_id = Some Queued.
Proof.
  rewrite start_content_brief_raises by reflexivity.
  split; [reflexivity|]. simpl.
  unfold sample_id. rewrite lookup_insert_eq. done.
Qed.

(** C3, as stated, fails: when the search returns no result the worker
    writes the error status and then appends the line [ERROR: ...]. *)
Lemma progress_appended_after_terminal :
  ~ frozen_once_terminal
      (job_trace sample_id new_job
         (snd (run_content_brief (sample_env (Some (lit "key")) (Some (lit "sk")) 0)
                 sample_id (lit "seo tools") sample_store))).
Proof.
  remember (job_trace _ _ _) as trace eqn:Htrace.
  vm_compute in Htrace. subst trace. intros H.
  pose proof (H 5%nat _ _ eq_refl eq_refl eq_refl) as Hc.
  discriminate Hc.
Qed.

(** C4, as stated, fails: on a run that succeeds the worker stores the
    document while the status is still running, and only then writes the
    complete status. *)
Lemma result_set_while_running :
  ~ result_iff_complete
      (job_trace sample_id new_job
         (snd (run_content_brief (sample_env (Some (lit "key")) (Some (lit "sk")) 1)
                 sample_id (lit "seo tools") sample_store))).
Proof.
  remember (job_trace _ _ _) as trace eqn:Htrace.
  vm_compute in Htrace. subst trace. intros H.
  pose proof (H 10%nat _ eq_refl) as [Hc _].
  specialize (Hc (ltac:(eexists; reflexivity))). discriminate Hc.
Qed.

(** ** The content-brief pipeline, path by path *)

Ltac read_updates :=
  change (updates_to ?i []) with (@nil update);
  repeat first [ rewrite updates_to_same
               | rewrite updates_to_called
               | rewrite updates_to_app
               | rewrite updates_fetch_loop ].

Section Paths.

Context (E : collaborators) (job_id keyword : pystr).

Lemma brief_log_nokey :
  absent (getenv E "SERPER_API_KEY") = true ->
  brief_log E job_id keyword
  = Wrote job_id (SetStatus Running)
    :: Wrote job_id (Append (lit "Starting content brief for: " ++ keyword))
    :: handler_log job_id
         (ValueError (lit "SERPER_API_KEY is not set in environment")).
Proof. unfold absent, brief_log. by intros ->. Qed.

Lemma brief_log_searched (key : pystr) (search : search_data) :
  getenv E "SERPER_API_KEY" = Some key -> truthy key = true ->
  serper_search E key keyword = Ok search ->
  brief_log E job_id keyword
  = Wrote job_id (SetStatus Running)
    :: Wrote job_id (Append (lit "Starting content brief for: " ++ keyword))
    :: Wrote job_id (Append (lit "Searching Google via Serper API..."))
    :: Called (CallSearch key keyword)
    :: results_log E job_id keyword search.
Proof.
  intros Hkey Htruthy Hsearch. unfold brief_log.
  rewrite Hkey; simpl. by rewrite Htruthy, Hsearch.
Qed.

Lemma results_log_empty (search : search_data) :
  default [] (organic search) = [] ->
  results_log E job_id keyword search
  = handler_log job_id
      (ValueError (lit "No organic search results returned by Serper")).
Proof. unfold results_log. by intros ->. Qed.

Lemma calls_analysis_log (competitor_data : list competitor) :
  exists rest,
    calls (analysis_log E job_id keyword competitor_data)
    = CallAnalysis (getenv E "ANTHROPIC_API_KEY")
        (build_prompt keyword (comp_summary competitor_data)) :: rest
    /\ List.filter is_fetch_call rest = [].
Proof.
  unfold analysis_log.
  destruct (claude_analysis E _ _) as [brief_text|exc].
  - destruct (markdown E brief_text) as [brief_html|exc];
      by exists [CallMarkdown brief_text].
  - by exists [].
Qed.

Lemma calls_results_log (search : search_data) :
  let organic := take 5 (default [] (organic search)) in
  List.filter is_fetch_call (calls (results_log E job_id keyword search))
  = map fetch_call (enumerate organic 1)
  /\ (organic <> [] ->
      exists rest,
        calls (results_log E job_id keyword search)
        = map fetch_call (enumerate organic 1)
          ++ CallAnalysis (getenv E "ANTHROPIC_API_KEY")
               (build_prompt keyword
                  (comp_summary (map (fetched E) (enumerate organic 1))))
             :: rest).
Proof.
  intros organic. unfold results_log. fold organic.
  case_bool_decide as Horganic.
  { rewrite Horganic. split; [done|]. by intros []. }
  destruct (calls_analysis_log (map (fetched E) (enumerate organic 1)))
    as (rest & Hcalls & Hrest).
  change (calls (Wrote ?i ?u :: ?l)) with (calls l).
  rewrite calls_app, calls_fetch_loop, Hcalls. split.
  - rewrite List.filter_app, filter_fetch_calls. simpl.
    by rewrite Hrest, app_nil_r.
  - intros _. by exists rest.
Qed.

End Paths.

Lemma take_length_le {A} (n : nat) (l : list A) : (length (take n l) <= n)%nat.
Proof. rewrite length_take. lia. Qed.

(** C6. With the search credential configured and a search response in
    hand, the pages the worker fetches are those of the first five
    results, in rank order, so at most five; and when the response holds
    no result the only collaborator call is the search, the job ends in
    error with the no-results message, and its progress log is the two
    opening lines and the error line: no line speaks of fetching. *)
Theorem search_results_capped (E : collaborators) (job_id keyword key : pystr)
    (s : store) (search : search_data)
    (Hjob : s !! job_id = Some new_job)
    (Hkey : getenv E "SERPER_API_KEY" = Some key) (Htruthy : truthy key = true)
    (Hsearch : serper_search E key keyword = Ok search) :
  let '(r, s', l) := run_content_brief E job_id keyword s in
  let results := default [] (organic search) in
  List.filter is_fetch_call (calls l) = map fetch_call (enumerate (take 5 results) 1)
  /\ (length (List.filter is_fetch_call (calls l)) <= 5)%nat
  /\ (results = [] ->
      r = Ok tt
      /\ calls l = [CallSearch key keyword]
      /\ exists jf, s' !! job_id = Some jf
           /\ status jf = Error
           /\ error jf = Some (lit "No organic search results returned by Serper")
           /\ report_html jf = None
           /\ progress jf
              = [lit "Starting content brief for: " ++ keyword;
                 lit "Searching Google via Serper API...";
                 lit "ERROR: No organic search results returned by Serper"]
           /\ forallb (fun msg => negb (is_fetch_line msg)) (progress jf) = true).
Proof.
  rewrite run_content_brief_run by eauto.
  rewrite (brief_log_searched E job_id keyword key search Hkey Htruthy Hsearch).
  destruct (calls_results_log E job_id keyword search) as [Hfetch _].
  split; [|split].
  - exact Hfetch.
  - change (List.filter is_fetch_call (calls ?l))
      with (List.filter is_fetch_call (calls (results_log E job_id keyword search))).
    rewrite Hfetch, length_map, enumerate_length. apply take_length_le.
  - intros Hnone. rewrite (results_log_empty E job_id keyword search Hnone).
    split; [done|]. split; [done|].
    eexists. split; [by apply apply_log_lookup|].
    unfold handler_log, failure_tail. read_updates.
    cbn [job_after foldl update_job status progress report_html error app
         new_job str_exc forallb].
    repeat split; reflexivity.
Qed.

Lemma search_results_capped_witness :
  let E := sample_env (Some (lit "key")) (Some (lit "sk")) 0 in
  let '(r, s', l) := run_content_brief E sample_id (lit "seo tools") sample_store in
  r = Ok tt
  /\ calls l = [CallSearch (lit "key") (lit "seo tools")]
  /\ exists jf, s' !! sample_id = Some jf
       /\ status jf = Error
       /\ error jf = Some (lit "No organic search results returned by Serper")
       /\ report_html jf = None
       /\ progress jf
          = [lit "Starting content brief for: " ++ lit "seo tools";
             lit "Searching Google via Serper API...";
             lit "ERROR: No organic search results returned by Serper"]
       /\ forallb (fun msg => negb (is_fetch_line msg)) (progress jf) = true.
Proof.
  pose proof (search_results_capped
                (sample_env (Some (lit "key")) (Some (lit "sk")) 0)
                sample_id (lit "seo tools") (lit "key") sample_store
                {| organic := Some [] |}
                eq_refl eq_refl eq_refl eq_refl) as H.
  simpl. destruct (run_content_brief _ _ _ _) as [[r s'] l].
  destruct H as (_ & _ & H). apply H. reflexivity.
Defined.

Lemma report_table (ts keyword brief_html : pystr) (n : nat)
    (competitors : list competitor) :
  exists pre post,
    report_head ts keyword brief_html n ++ comp_rows competitors ++ report_tail
    = pre ++ lit "<tbody>"
      ++ flat_map
           (fun c =>
              lit "<tr><td>" ++ dec (position c) ++ lit "</td>"
              ++ lit "<td><a href=" ++ [dquote] ++ html_escape (url c) ++ [dquote]
              ++ lit " target=" ++ [dquote] ++ lit "_blank" ++ [dquote] ++ lit ">"
              ++ html_escape (take 80 (title c)) ++ lit "</a></td></tr>"
              ++ [newline])
           competitors
      ++ lit "</tbody>" ++ post.
Proof.
  assert (Hhead : lit "<tbody>" `suffix_of` report_head ts keyword brief_html n).
  { unfold report_head.
    repeat match goal with
           | |- _ `suffix_of` (_ ++ _) => apply suffix_app_r
           end.
    by exists (lit "    "). }
  destruct Hhead as [pre ->].
  exists pre. eexists. unfold report_tail, comp_rows.
  rewrite <- flat_map_concat_map. rewrite <- !app_assoc. reflexivity.
Qed.

(** C7. With the search credential configured, [n >= 1] results in hand
    (the first five at most), and an analysis and a rendering that
    succeed: whatever the page fetches do, the worker returns and the job
    is complete with no error; the stored document is the report, and
    between its [<tbody>] and [</tbody>] tags it holds exactly one table
    row per rank [1..n], in rank order, each made of the rank, the escaped
    link and the escaped title cut to 80 characters; a rank whose fetch
    failed has the fallback title and empty content, and its skip note is
    in the progress log; the number of skip notes in the log is the number
    of failed fetches. *)
Theorem failed_fetches_are_skipped (E : collaborators)
    (job_id keyword key : pystr) (s : store) (search : search_data)
    (brief_text brief_html : pystr)
    (Hjob : s !! job_id = Some new_job)
    (Hkey : getenv E "SERPER_API_KEY" = Some key) (Htruthy : truthy key = true)
    (Hsearch : serper_search E key keyword = Ok search)
    (Hfound : take 5 (default [] (organic search)) <> [])
    (Hanalysis :
       claude_analysis E (getenv E "ANTHROPIC_API_KEY")
         (build_prompt keyword
            (comp_summary
               (map (fetched E)
                  (enumerate (take 5 (default [] (organic search))) 1))))
       = Ok brief_text)
    (Hmarkdown : markdown E brief_text = Ok brief_html) :
  let organic := take 5 (default [] (organic search)) in
  let items := enumerate organic 1 in
  let competitor_data := map (fetched E) items in
  exists s' l jf,
    run_content_brief E job_id keyword s = (Ok tt, s', l)
    /\ s' !! job_id = Some jf
    /\ status jf = Complete /\ error jf = None
    /\ report_html jf
       = Some (report_head (utc_now E) keyword brief_html (length organic)
               ++ comp_rows competitor_data ++ report_tail)
    /\ map position competitor_data = seq 1 (length organic)
    /\ (forall ir, In ir items -> fetch_failed E ir = true ->
          fetched E ir
          = {| position := fst ir; url := default [] (link (snd ir));
               title := default (lit "Page " ++ dec (fst ir))
                          (result_title (snd ir));
               content := [] |}
          /\ In (fetch_note E ir) (progress jf)
          /\ is_skip_note (fetch_note E ir) = true)
    /\ length (List.filter is_skip_note (progress jf))
       = length (List.filter (fetch_failed E) items)
    /\ exists pre post,
         report_html jf
         = Some (pre ++ lit "<tbody>"
                 ++ flat_map
                      (fun c =>
                         lit "<tr><td>" ++ dec (position c) ++ lit "</td>"
                         ++ lit "<td><a href=" ++ [dquote]
                         ++ html_escape (url c) ++ [dquote]
                         ++ lit " target=" ++ [dquote] ++ lit "_blank"
                         ++ [dquote] ++ lit ">"
                         ++ html_escape (take 80 (title c))
                         ++ lit "</a></td></tr>" ++ [newline])
                      competitor_data
                 ++ lit "</tbody>" ++ post).
Proof.
  intros organic items competitor_data.
  rewrite run_content_brief_run by eauto.
  rewrite (brief_log_searched E job_id keyword key search Hkey Htruthy Hsearch).
  unfold results_log, analysis_log. fold organic items competitor_data.
  rewrite bool_decide_eq_false_2 by exact Hfound.
  fold organic items competitor_data in Hanalysis.
  rewrite Hanalysis, Hmarkdown.
  eexists _, _, _. split; [reflexivity|].
  split; [by apply apply_log_lookup|].
  unfold success_tail. read_updates.
  rewrite !job_after_cons, job_after_app, job_after_appends, !job_after_cons.
  change (updates_to job_id []) with (@nil update).
  cbn [job_after foldl update_job status progress report_html error app new_job].
  split; [done|]. split; [done|]. split.
  { unfold competitor_data, items. by rewrite length_map, enumerate_length. }
  split; [apply fetched_positions|]. split.
  - intros ir Hin Hfail. split; [by apply fetched_placeholder|].
    split; [|by rewrite skip_note_failed].
    do 3 right. rewrite !in_app_iff. do 4 left.
    unfold fetch_lines. apply in_flat_map. exists ir. split; [done|].
    right. by left.
  - split.
    + rewrite !filter_cons_false by reflexivity.
      rewrite !List.filter_app, skip_notes_fetch_lines.
      rewrite !filter_cons_false by reflexivity.
      cbn [List.filter]. by rewrite !app_nil_r, length_map.
    + destruct (report_table (utc_now E) keyword brief_html
                  (length competitor_data) competitor_data)
        as (pre & post & Htable).
      exists pre, post. by rewrite Htable.
Qed.

Lemma failed_fetches_are_skipped_witness :
  let E := sample_env (Some (lit "key")) (Some (lit "sk")) 6 in
  exists s' l jf,
    run_content_brief E sample_id (lit "seo tools") sample_store = (Ok tt, s', l)
    /\ s' !! sample_id = Some jf
    /\ status jf = Complete
    /\ length (List.filter is_skip_note (progress jf)) = 2%nat
    /\ length (List.filter is_fetch_call (calls l)) = 5%nat.
Proof.
  intros E.
  destruct (failed_fetches_are_skipped E sample_id (lit "seo tools") (lit "key")
              sample_store {| organic := Some (map sample_result (seq 1 6)) |}
              (lit "## 1. Search Intent")
              (lit "<h2>" ++ lit "## 1. Search Intent" ++ lit "</h2>")
              eq_refl eq_refl eq_refl eq_refl ltac:(discriminate)
              eq_refl eq_refl)
    as (s' & l & jf & Hrun & Hjf & Hstatus & _ & _ & _ & _ & Hcount & _).
  exists s', l, jf. split; [exact Hrun|]. split; [exact Hjf|].
  split; [exact Hstatus|]. split; [rewrite Hcount; reflexivity|].
  rewrite run_content_brief_run in Hrun by (eexists; reflexivity).
  injection Hrun as _ <-. vm_compute. reflexivity.
Defined.

(** C9, as stated, fails: with the search key set and the analysis key
    unset, the worker searches and fetches before anything fails. *)
Lemma analysis_credential_not_checked :
  ~ credentials_checked_first (sample_env (Some (lit "key")) None 1)
      sample_id (lit "seo tools") sample_store.
Proof.
  unfold credentials_checked_first.
  rewrite run_content_brief_run by (eexists; reflexivity).
  intros H. destruct (H eq_refl) as [Hcalls _].
  vm_compute in Hcalls. discriminate Hcalls.
Qed.

(** C9, as the code has it. The worker checks the search credential
    before any collaborator call: when [SERPER_API_KEY] is unset or empty
    the run makes no call and the job ends in error with the
    configuration message in its error field. The analysis credential is
    not checked: with the search key set and results in hand, the worker
    searches, fetches every page, and then calls the analysis client with
    whatever the environment holds for [ANTHROPIC_API_KEY]. *)
Theorem search_credential_checked_first (E : collaborators)
    (job_id keyword : pystr) (s : store)
    (Hjob : s !! job_id = Some new_job) :
  let '(r, s', l) := run_content_brief E job_id keyword s in
  (absent (getenv E "SERPER_API_KEY") = true ->
   r = Ok tt /\ calls l = []
   /\ exists jf, s' !! job_id = Some jf
        /\ status jf = Error
        /\ error jf = Some (lit "SERPER_API_KEY is not set in environment")
        /\ report_html jf = None)
  /\ (forall key search,
        getenv E "SERPER_API_KEY" = Some key -> truthy key = true ->
        serper_search E key keyword = Ok search ->
        let organic := take 5 (default [] (organic search)) in
        organic <> [] ->
        exists rest,
          calls l
          = CallSearch key keyword
            :: map fetch_call (enumerate organic 1)
            ++ CallAnalysis (getenv E "ANTHROPIC_API_KEY")
                 (build_prompt keyword
                    (comp_summary (map (fetched E) (enumerate organic 1))))
               :: rest).
Proof.
  rewrite run_content_brief_run by eauto. split.
  - intros Habsent. rewrite (brief_log_nokey E job_id keyword Habsent).
    split; [done|]. split; [done|].
    eexists. split; [by apply apply_log_lookup|].
    unfold handler_log, failure_tail. read_updates.
    cbn [job_after foldl update_job status progress report_html error app
         new_job str_exc].
    repeat split; reflexivity.
  - intros key search Hkey Htruthy Hsearch organic Hfound.
    rewrite (brief_log_searched E job_id keyword key search Hkey Htruthy Hsearch).
    destruct (calls_results_log E job_id keyword search) as [_ Hcalls].
    destruct (Hcalls Hfound) as [rest Hrest]. exists rest.
    change (calls (Wrote ?i1 ?u1 :: Wrote ?i2 ?u2 :: Wrote ?i3 ?u3
                   :: Called ?c :: ?l))
      with (c :: calls l).
    by rewrite Hrest.
Qed.

Lemma search_credential_checked_first_witness :
  let E := sample_env None (Some (lit "sk")) 3 in
  let '(r, s', l) := run_content_brief E sample_id (lit "seo tools") sample_store in
  sample_store !! sample_id = Some new_job
  /\ r = Ok tt /\ calls l = []
  /\ exists jf, s' !! sample_id = Some jf
       /\ status jf = Error
       /\ error jf = Some (lit "SERPER_API_KEY is not set in environment")
       /\ report_html jf = None.
Proof.
  pose proof (search_credential_checked_first (sample_env None (Some (lit "sk")) 3)
                sample_id (lit "seo tools") sample_store eq_refl) as H.
  simpl. destruct (run_content_brief _ _ _ _) as [[r s'] l].
  split; [reflexivity|]. destruct H as [H _]. apply H. reflexivity.
Defined.

(** * Further properties *)

(** ** A worker and the rest of the store *)

Lemma body_log_writes_only (job_id : pystr) (lb : list effect) :
  body_log job_id lb -> writes_only job_id lb.
Proof.
  unfold body_log, writes_only. induction lb as [|e lb IH]; intros H;
    [constructor|].
  simpl in H. apply andb_prop in H as [He Hlb]. constructor; [|by apply IH].
  destruct e as [i u| |]; [|done|done]. simpl in He.
  apply andb_prop in He as [Hi _]. by apply bool_decide_eq_true_1 in Hi.
Qed.

Lemma protocol_writes_only (job_id : pystr) (l : list effect) :
  protocol job_id l -> writes_only job_id l.
Proof.
  intros (lb & Hlb%body_log_writes_only & [(h & m & ->)|(e & m & ->)]);
    unfold writes_only in *; apply Forall_app; split; try done;
    repeat constructor.
Qed.

Lemma apply_effect_other (job_id other : pystr) (e : effect) (s : store) :
  match e with Wrote i _ => i = job_id | _ => True end ->
  other <> job_id -> apply_effect e s !! other = s !! other.
Proof.
  intros He Hne. destruct e as [i u| |]; [|done|done]. subst i.
  destruct u; simpl; rewrite ?lookup_insert_ne, ?lookup_alter_ne by done; done.
Qed.

Lemma apply_log_other (job_id other : pystr) (l : list effect) (s : store) :
  writes_only job_id l -> other <> job_id ->
  apply_log l s !! other = s !! other.
Proof.
  intros Hl Hne. revert s. induction Hl as [|e l He _ IH]; intros s; [done|].
  change (e :: l) with ([e] ++ l). rewrite apply_log_app, IH.
  by apply (apply_effect_other job_id).
Qed.

Lemma apply_effect_dom (job_id : pystr) (e : effect) (s : store) :
  match e with Wrote i _ => i = job_id | _ => True end ->
  is_Some (s !! job_id) -> dom (apply_effect e s) = dom s.
Proof.
  intros He Hs. destruct e as [i u| |]; [|done|done]. subst i.
  destruct u; simpl; rewrite ?dom_alter_L; try done.
  rewrite dom_insert_L. apply elem_of_dom in Hs.
  apply set_eq. intros x. rewrite elem_of_union, elem_of_singleton.
  split; [intros [->|Hx]; done|auto].
Qed.

Lemma apply_log_dom (job_id : pystr) (l : list effect) (s : store) :
  writes_only job_id l -> is_Some (s !! job_id) ->
  dom (apply_log l s) = dom s.
Proof.
  intros Hl. revert s. induction Hl as [|e l He _ IH]; intros s Hs; [done|].
  change (e :: l) with ([e] ++ l). rewrite apply_log_app, IH.
  - by apply (apply_effect_dom job_id).
  - by apply (apply_log_present job_id [e]).
Qed.

Lemma run_content_brief_absent (E : collaborators) (job_id keyword : pystr)
    (s : store) :
  s !! job_id = None ->
  run_content_brief E job_id keyword s = (Raise (KeyError job_id), s, []).
Proof.
  intros H. unfold run_content_brief, try_except, bind, store_set.
  rewrite H. cbv beta iota. by rewrite H.
Qed.

Lemma _run_crew_absent (E : collaborators) (job_id game_name : pystr)
    (s : store) :
  s !! job_id = None ->
  _run_crew E job_id game_name s = (Raise (KeyError job_id), s, []).
Proof.
  intros H. unfold _run_crew, try_except, bind, store_set, _push_progress.
  rewrite H. cbv beta iota. rewrite H. cbv beta iota. by rewrite H.
Qed.

(** X1. A worker writes to its own job only. Whatever the collaborators
    answer and whatever the store holds, after a run of either worker
    every other job is as it was and the store has the same ids: no entry
    is created and none is removed. *)
Theorem workers_touch_only_their_job (E : collaborators) (job_id arg : pystr)
    (s : store) :
  let s1 := snd (fst (run_content_brief E job_id arg s)) in
  let s2 := snd (fst (_run_crew E job_id arg s)) in
  (forall other, other <> job_id ->
     s1 !! other = s !! other /\ s2 !! other = s !! other)
  /\ dom s1 = dom s /\ dom s2 = dom s.
Proof.
  destruct (s !! job_id) as [j|] eqn:Hj.
  - rewrite run_content_brief_run, _run_crew_run by eauto.
    cbv zeta. cbn [fst snd].
    pose proof (protocol_writes_only _ _ (brief_log_protocol job_id E arg)) as Hb.
    pose proof (protocol_writes_only _ _ (crew_log_protocol job_id E arg)) as Hc.
    split; [|split].
    + intros other Hne. split; by apply (apply_log_other job_id).
    + apply (apply_log_dom job_id); eauto.
    + apply (apply_log_dom job_id); eauto.
  - rewrite run_content_brief_absent, _run_crew_absent by done.
    cbv zeta. cbn [fst snd]. done.
Qed.

(** X2. A worker started on an id that is not in the store does not end
    in its handler: the handler's own first write raises [KeyError], which
    leaves the worker. Nothing is written and no collaborator is called. *)
Theorem worker_on_unknown_job_raises (E : collaborators) (job_id arg : pystr)
    (s : store) (Habsent : s !! job_id = None) :
  run_content_brief E job_id arg s = (Raise (KeyError job_id), s, [])
  /\ _run_crew E job_id arg s = (Raise (KeyError job_id), s, []).
Proof.
  split; [by apply run_content_brief_absent|by apply _run_crew_absent].
Qed.

Lemma worker_on_unknown_job_raises_witness :
  let E := sample_env (Some (lit "key")) (Some (lit "sk")) 3 in
  let s : store := <[lit "other" := new_job]> ∅ in
  run_content_brief E sample_id (lit "seo tools") s
    = (Raise (KeyError sample_id), s, [])
  /\ _run_crew E sample_id (lit "seo tools") s
    = (Raise (KeyError sample_id), s, []).
Proof.
  apply (worker_on_unknown_job_raises _ sample_id (lit "seo tools")).
  reflexivity.
Defined.

(** ** How a run ends *)

Section Ends.

Context (job_id closing : pystr).

Lemma ends_app (lb l : list effect) :
  body_log job_id lb -> ends_with job_id closing l ->
  ends_with job_id closing (lb ++ l).
Proof.
  intros Hlb (lb' & Hlb' & H). exists (lb ++ lb'). split.
  - unfold body_log in *. rewrite forallb_app, Hlb, Hlb'. done.
  - destruct H as [(html & ->)|(exc & ->)]; [left|right];
      eexists; by rewrite app_assoc.
Qed.

Lemma ends_push (msg : pystr) (l : list effect) :
  ends_with job_id closing l ->
  ends_with job_id closing (Wrote job_id (Append msg) :: l).
Proof.
  intros H. apply (ends_app [_]); [|done].
  unfold body_log; simpl. by rewrite bool_decide_eq_true_2.
Qed.

Lemma ends_running (l : list effect) :
  ends_with job_id closing l ->
  ends_with job_id closing (Wrote job_id (SetStatus Running) :: l).
Proof.
  intros H. apply (ends_app [_]); [|done].
  unfold body_log; simpl. by rewrite bool_decide_eq_true_2.
Qed.

Lemma ends_called (c : call) (l : list effect) :
  ends_with job_id closing l -> ends_with job_id closing (Called c :: l).
Proof. intros H. by apply (ends_app [_]). Qed.

Lemma ends_handler (exc : exn) :
  ends_with job_id closing (handler_log job_id exc).
Proof. exists []. split; [done|]. right. by eexists. Qed.

Lemma ends_success (html : pystr) :
  ends_with job_id closing (success_tail job_id html closing).
Proof. exists []. split; [done|]. left. by eexists. Qed.

(** The job a run that ends this way leaves, from a job not yet worked on. *)
Lemma ends_finished (l : list effect) (j0 : job) :
  clean j0 -> ends_with job_id closing l ->
  finished closing (job_after (updates_to job_id l) j0).
Proof.
  intros Hj0 (lb & Hlb & H).
  pose proof (body_clean _ j0 (body_log_updates _ _ Hlb) Hj0) as (_ & Hr & He).
  destruct H as [(html & ->)|(exc & ->)];
    rewrite updates_to_app, job_after_app;
    unfold success_tail, handler_log, failure_tail;
    rewrite !updates_to_same; change (updates_to job_id []) with (@nil update);
    cbn [job_after foldl update_job status progress report_html error].
  - left. rewrite He. split; [done|]. split; [by eexists|]. split; [done|].
    apply last_snoc.
  - right. rewrite Hr. split; [done|]. split; [done|].
    eexists. split; [done|]. apply last_snoc.
Qed.

End Ends.

Lemma brief_log_ends (E : collaborators) (job_id keyword : pystr) :
  ends_with job_id (lit "Content brief ready!") (brief_log E job_id keyword).
Proof.
  unfold brief_log, results_log, analysis_log.
  apply ends_running, ends_push.
  destruct (negb _); [apply ends_handler|].
  apply ends_push, ends_called.
  destruct (serper_search E _ _) as [search|exc]; [|apply ends_handler].
  case_bool_decide; [apply ends_handler|].
  apply ends_push, ends_app; [apply fetch_loop_body|].
  apply ends_push, ends_push, ends_called.
  destruct (claude_analysis E _ _) as [brief_text|exc]; [|apply ends_handler].
  apply ends_push, ends_called.
  destruct (markdown E _) as [brief_html|exc];
    [apply ends_success|apply ends_handler].
Qed.

Lemma crew_log_ends (E : collaborators) (job_id game_name : pystr) :
  ends_with job_id (lit "Research complete!") (crew_log E job_id game_name).
Proof.
  unfold crew_log. apply ends_push, ends_running, ends_called.
  destruct (build_seo_crew E _) as [crew|exc]; [|apply ends_handler].
  apply ends_push, ends_called, ends_app; [apply callback_loop_body|].
  destruct (kickoff crew) as [result|exc];
    [apply ends_success|apply ends_handler].
Qed.

(** X3. From the job as a submission endpoint created it, either worker
    returns without raising and leaves the job finished: complete, with
    the document stored, no error, and the worker's closing line last in
    the progress log; or in error, with no document, the text of the
    exception in the error field, and the line [ERROR: <that text>] last
    in the progress log. *)
Theorem worker_leaves_job_finished (E : collaborators) (job_id arg : pystr)
    (s : store) (Hjob : s !! job_id = Some new_job) :
  (exists s' l jf, run_content_brief E job_id arg s = (Ok tt, s', l)
     /\ s' !! job_id = Some jf /\ finished (lit "Content brief ready!") jf)
  /\ (exists s' l jf, _run_crew E job_id arg s = (Ok tt, s', l)
        /\ s' !! job_id = Some jf /\ finished (lit "Research complete!") jf).
Proof.
  rewrite run_content_brief_run, _run_crew_run by eauto.
  split; eexists _, _, _; (split; [reflexivity|]);
    (split; [by apply apply_log_lookup|]);
    (apply ends_finished; [apply new_job_clean|]).
  - apply brief_log_ends.
  - apply crew_log_ends.
Qed.

Lemma worker_leaves_job_finished_witness :
  let E := sample_env (Some (lit "key")) None 2 in
  (exists s' l jf,
     run_content_brief E sample_id (lit "seo tools") sample_store = (Ok tt, s', l)
     /\ s' !! sample_id = Some jf /\ finished (lit "Content brief ready!") jf)
  /\ (exists s' l jf,
        _run_crew E sample_id (lit "book of dead") sample_store = (Ok tt, s', l)
        /\ s' !! sample_id = Some jf /\ finished (lit "Research complete!") jf).
Proof.
  intros E. split.
  - apply (worker_leaves_job_finished E sample_id (lit "seo tools") sample_store).
    reflexivity.
  - apply (worker_leaves_job_finished E sample_id (lit "book of dead")
             sample_store).
    reflexivity.
Defined.

Lemma started_free_protocol (job_id : pystr) (l : list effect) :
  protocol job_id l -> writes_only_or_calls l.
Proof.
  intros (lb & Hlb & H). unfold writes_only_or_calls.
  assert (Hb : Forall (fun e => match e with Started _ => False | _ => True end) lb).
  { clear H. unfold body_log in Hlb. induction lb as [|e lb IH]; [constructor|].
    simpl in Hlb. apply andb_prop in Hlb as [He Hlb].
    constructor; [destruct e; simpl in He; done|by apply IH]. }
  destruct H as [(h & m & ->)|(e & m & ->)]; apply Forall_app; split;
    try done; repeat constructor.
Qed.

(** X4. A run of the content-brief worker costs at most eight
    collaborator calls (one search, five fetches, one analysis, one
    rendering), a run of the research worker two; and neither worker ever
    starts a thread. *)
Theorem worker_call_budget (E : collaborators) (job_id arg : pystr) (s : store) :
  let l1 := snd (run_content_brief E job_id arg s) in
  let l2 := snd (_run_crew E job_id arg s) in
  (length (calls l1) <= 8)%nat /\ started l1 = []
  /\ (length (calls l2) <= 2)%nat /\ started l2 = [].
Proof.
  destruct (s !! job_id) as [j|] eqn:Hj.
  2:{ rewrite run_content_brief_absent, _run_crew_absent by done.
      simpl. repeat split; lia. }
  rewrite run_content_brief_run, _run_crew_run by eauto.
  cbv zeta. cbn [snd].
  assert (Hstarted : forall l, writes_only_or_calls l -> started l = []).
  { intros l. induction 1 as [|e l He _ IH]; [done|].
    destruct e; [exact IH|exact IH|done]. }
  split; [|split; [|split]].
  - unfold brief_log, results_log, analysis_log.
    destruct (negb _); [cbn; lia|].
    destruct (serper_search E _ _) as [search|exc]; [|cbn; lia].
    case_bool_decide; [cbn; lia|].
    change (calls (Wrote ?a ?b :: Wrote ?c ?d :: Wrote ?e ?f :: Called ?g
                   :: Wrote ?h ?i :: ?l)) with (g :: calls l).
    rewrite calls_app, calls_fetch_loop.
    cbn [length]. rewrite length_app, length_map, enumerate_length.
    pose proof (take_length_le 5 (default [] (organic search))).
    destruct (claude_analysis E _ _) as [brief_text|exc]; [|cbn; lia].
    destruct (markdown E _); cbn; lia.
  - apply Hstarted, (started_free_protocol job_id), brief_log_protocol.
  - unfold crew_log.
    destruct (build_seo_crew E _) as [crew|exc]; [|cbn; lia].
    change (calls (Wrote ?a ?b :: Wrote ?c ?d :: Called ?g
                   :: Wrote ?h ?i :: Called ?k :: ?l)) with (g :: k :: calls l).
    rewrite calls_app.
    replace (calls (map _ (steps crew))) with (@nil call).
    + destruct (kickoff crew); cbn; lia.
    + induction (steps crew) as [|st sts IH]; [done|]. exact IH.
  - apply Hstarted, (started_free_protocol job_id), crew_log_protocol.
Qed.

(** ** Fatal failures of the content-brief pipeline *)

(** X5. When the search call raises, the job fails at once with the text
    of that exception: the search is the only collaborator call, and the
    job ends in error with that text in its error field, no document, and
    a progress log of the two opening lines and the [ERROR:] line. *)
Theorem search_failure_is_fatal (E : collaborators) (job_id keyword key : pystr)
    (s : store) (exc : exn)
    (Hjob : s !! job_id = Some new_job)
    (Hkey : getenv E "SERPER_API_KEY" = Some key) (Htruthy : truthy key = true)
    (Hsearch : serper_search E key keyword = Raise exc) :
  exists s' l jf,
    run_content_brief E job_id keyword s = (Ok tt, s', l)
    /\ calls l = [CallSearch key keyword]
    /\ s' !! job_id = Some jf
    /\ jf = {| status := Error;
               progress := [lit "Starting content brief for: " ++ keyword;
                            lit "Searching Google via Serper API...";
                            lit "ERROR: " ++ str_exc exc];
               report_html := None;
               error := Some (str_exc exc) |}.
Proof.
  rewrite run_content_brief_run by eauto.
  assert (Hlog : brief_log E job_id keyword
            = Wrote job_id (SetStatus Running)
              :: Wrote job_id (Append (lit "Starting content brief for: " ++ keyword))
              :: Wrote job_id (Append (lit "Searching Google via Serper API..."))
              :: Called (CallSearch key keyword)
              :: handler_log job_id exc).
  { unfold brief_log. rewrite Hkey; simpl. by rewrite Htruthy, Hsearch. }
  rewrite Hlog. eexists _, _, _. split; [reflexivity|]. split; [done|].
  split; [by apply apply_log_lookup|].
  unfold handler_log, failure_tail. read_updates. reflexivity.
Qed.

Lemma search_failure_is_fatal_witness :
  let E :=
    {| getenv := sample_getenv (Some (lit "key")) None;
       serper_search := fun _ _ =>
         Raise (OtherError "HTTPStatusError" (lit "403 Forbidden"));
       fetch_page := sample_fetch;
       claude_analysis := sample_analysis;
       markdown := fun text => Ok text;
       utc_now := lit "2024-05-01 12:00 UTC";
       build_seo_crew := fun _ => Raise (OtherError "ImportError" (lit "crew")) |} in
  exists s' l jf,
    run_content_brief E sample_id (lit "seo tools") sample_store = (Ok tt, s', l)
    /\ calls l = [CallSearch (lit "key") (lit "seo tools")]
    /\ s' !! sample_id = Some jf
    /\ jf = {| status := Error;
               progress := [lit "Starting content brief for: " ++ lit "seo tools";
                            lit "Searching Google via Serper API...";
                            lit "ERROR: " ++ lit "403 Forbidden"];
               report_html := None;
               error := Some (lit "403 Forbidden") |}.
Proof.
  intros E.
  apply (search_failure_is_fatal E sample_id (lit "seo tools") (lit "key")
           sample_store (OtherError "HTTPStatusError" (lit "403 Forbidden")));
    reflexivity.
Defined.

(** X6. When the analysis call raises, after a search that found [n >= 1]
    results, the job fails with the text of that exception: every page was
    fetched first, nothing is rendered, and the job ends in error with
    that text in its error field, no document, and a progress log that
    holds the lines of all the fetches and ends with the [ERROR:] line. *)
Theorem analysis_failure_is_fatal (E : collaborators)
    (job_id keyword key : pystr) (s : store) (search : search_data) (exc : exn)
    (Hjob : s !! job_id = Some new_job)
    (Hkey : getenv E "SERPER_API_KEY" = Some key) (Htruthy : truthy key = true)
    (Hsearch : serper_search E key keyword = Ok search)
    (Hfound : take 5 (default [] (organic search)) <> [])
    (Hanalysis :
       claude_analysis E (getenv E "ANTHROPIC_API_KEY")
         (build_prompt keyword
            (comp_summary
               (map (fetched E)
                  (enumerate (take 5 (default [] (organic search))) 1))))
       = Raise exc) :
  let organic := take 5 (default [] (organic search)) in
  let items := enumerate organic 1 in
  exists s' l jf,
    run_content_brief E job_id keyword s = (Ok tt, s', l)
    /\ calls l
       = CallSearch key keyword
         :: map fetch_call items
         ++ [CallAnalysis (getenv E "ANTHROPIC_API_KEY")
               (build_prompt keyword (comp_summary (map (fetched E) items)))]
    /\ s' !! job_id = Some jf
    /\ status jf = Error /\ error jf = Some (str_exc exc)
    /\ report_html jf = None
    /\ progress jf
       = [lit "Starting content brief for: " ++ keyword;
          lit "Searching Google via Serper API...";
          lit "Found " ++ dec (length organic) ++ lit " results "
          ++ [em_dash] ++ lit " fetching competitor pages..."]
         ++ fetch_lines E (length organic) items
         ++ [lit "Building competitor analysis prompt...";
             lit "Sending to Claude for content brief analysis...";
             lit "ERROR: " ++ str_exc exc].
Proof.
  intros organic items.
  rewrite run_content_brief_run by eauto.
  rewrite (brief_log_searched E job_id keyword key search Hkey Htruthy Hsearch).
  unfold results_log, analysis_log. fold organic items.
  rewrite bool_decide_eq_false_2 by exact Hfound.
  fold organic items in Hanalysis. rewrite Hanalysis.
  eexists _, _, _. split; [reflexivity|]. split.
  { change (calls (Wrote ?a ?b :: Wrote ?c ?d :: Wrote ?e ?f :: Called ?g
                   :: Wrote ?h ?i :: ?l)) with (g :: calls l).
    by rewrite calls_app, calls_fetch_loop. }
  split; [by apply apply_log_lookup|].
  unfold handler_log, failure_tail. read_updates.
  rewrite !job_after_cons, job_after_app, job_after_appends, !job_after_cons.
  cbn [job_after foldl update_job status progress report_html error app new_job].
  repeat split; try reflexivity.
  by rewrite <- !app_assoc.
Qed.

Lemma analysis_failure_is_fatal_witness :
  let E := sample_env (Some (lit "key")) None 2 in
  exists s' l jf,
    run_content_brief E sample_id (lit "seo tools") sample_store = (Ok tt, s', l)
    /\ length (calls l) = 4%nat
    /\ s' !! sample_id = Some jf
    /\ status jf = Error
    /\ error jf = Some (lit "Could not resolve authentication method")
    /\ report_html jf = None.
Proof.
  intros E.
  destruct (analysis_failure_is_fatal E sample_id (lit "seo tools") (lit "key")
              sample_store {| organic := Some (map sample_result (seq 1 2)) |}
              (TypeError (lit "Could not resolve authentication method"))
              eq_refl eq_refl eq_refl eq_refl ltac:(discriminate) eq_refl)
    as (s' & l & jf & Hrun & Hcalls & Hjf & Hstatus & Herror & Hreport & _).
  exists s', l, jf. split; [exact Hrun|].
  split; [rewrite Hcalls; reflexivity|]. split; [exact Hjf|].
  split; [exact Hstatus|]. split; [exact Herror|exact Hreport].
Defined.

(** ** The research worker's run *)

Lemma updates_callback_loop (job_id : pystr) (steps : list step_output) :
  updates_to job_id
    (map (fun step => Wrote job_id (Append (step_msg step))) steps)
  = map Append (map step_msg steps).
Proof.
  induction steps as [|step steps IH]; [done|].
  cbn [map]. by rewrite updates_to_same, IH.
Qed.

Lemma step_msg_short (step : step_output) : (length (step_msg step) <= 200)%nat.
Proof. destruct step; simpl; rewrite length_take; lia. Qed.

(** X7. A research run whose crew is built and whose kickoff returns: the
    worker makes the two crew calls and leaves the job complete, with no
    error, and with a progress log made of the two opening lines, one line
    per step output in the order the hook received them, each cut to 200
    characters at most, and the closing line. *)
Theorem research_run_progress (E : collaborators) (job_id game_name : pystr)
    (s : store) (c : crew) (result : crew_output)
    (Hjob : s !! job_id = Some new_job)
    (Hbuild : build_seo_crew E game_name = Ok c)
    (Hkick : kickoff c = Ok result) :
  exists s' l jf,
    _run_crew E job_id game_name s = (Ok tt, s', l)
    /\ calls l = [CallCrewBuild game_name; CallCrewKickoff]
    /\ s' !! job_id = Some jf
    /\ status jf = Complete /\ error jf = None
    /\ is_Some (report_html jf)
    /\ progress jf
       = [lit "Starting research for: " ++ game_name;
          lit "Crew assembled " ++ [em_dash] ++ lit " running SEO Keyword Agent..."]
         ++ map step_msg (steps c) ++ [lit "Research complete!"]
    /\ Forall (fun msg => (length msg <= 200)%nat) (map step_msg (steps c)).
Proof.
  rewrite _run_crew_run by eauto. unfold crew_log. rewrite Hbuild, Hkick.
  eexists _, _, _. split; [reflexivity|]. split.
  { change (calls (Wrote ?a ?b :: Wrote ?c ?d :: Called ?g
                   :: Wrote ?h ?i :: Called ?k :: ?l)) with (g :: k :: calls l).
    rewrite calls_app.
    replace (calls (map _ (steps c))) with (@nil call); [done|].
    induction (steps c) as [|st sts IH]; [done|]. exact IH. }
  split; [by apply apply_log_lookup|].
  unfold success_tail. read_updates. rewrite updates_callback_loop.
  rewrite !job_after_cons, job_after_app, job_after_appends, !job_after_cons.
  change (updates_to job_id []) with (@nil update).
  cbn [job_after foldl update_job status progress report_html error app new_job].
  split; [done|]. split; [done|]. split; [by eexists|].
  split; [reflexivity|].
  apply Forall_map, Forall_forall. intros step _. apply step_msg_short.
Qed.

Lemma research_run_progress_witness :
  let E := sample_env None None 0 in
  exists s' l jf,
    _run_crew E sample_id (lit "book of dead") sample_store = (Ok tt, s', l)
    /\ s' !! sample_id = Some jf
    /\ status jf = Complete
    /\ progress jf
       = [lit "Starting research for: " ++ lit "book of dead";
          lit "Crew assembled " ++ [em_dash] ++ lit " running SEO Keyword Agent...";
          lit "thinking"; lit "Research complete!"].
Proof.
  intros E.
  destruct (research_run_progress E sample_id (lit "book of dead") sample_store
              {| steps := [StepLog (lit "thinking")];
                 kickoff := Ok {| raw := Some (lit "<!DOCTYPE html>");
                                  output_str := lit "<!DOCTYPE html>" |} |}
              {| raw := Some (lit "<!DOCTYPE html>");
                 output_str := lit "<!DOCTYPE html>" |}
              eq_refl eq_refl eq_refl)
    as (s' & l & jf & Hrun & _ & Hjf & Hstatus & _ & _ & Hprogress & _).
  exists s', l, jf. split; [exact Hrun|]. split; [exact Hjf|].
  split; [exact Hstatus|exact Hprogress].
Defined.

(** ** Trimming *)

Lemma lstrip_app_nonblank (a b : pystr) :
  lstrip a <> [] -> lstrip (a ++ b) = lstrip a ++ b.
Proof.
  induction a as [|c a IH]; simpl; [done|].
  destruct (isspace c); [exact IH|done].
Qed.

Lemma tight_end_app (x y : pystr) : tight_end y -> tight_end (x ++ y).
Proof.
  intros [Hy Hne]. unfold tight_end, rstrip in *.
  assert (Hrev : lstrip (rev y) = rev y).
  { rewrite <- (rev_involutive (lstrip (rev y))). by rewrite Hy. }
  split; [|by destruct x, y].
  rewrite rev_app_distr, lstrip_app_nonblank.
  - by rewrite Hrev, rev_app_distr, !rev_involutive.
  - rewrite Hrev. destruct y; [done|]. simpl. by destruct (rev y).
Qed.

Lemma wrap_in_html_tight (ts content game_name : pystr) :
  strip (_wrap_in_html ts content game_name) = _wrap_in_html ts content game_name.
Proof.
  unfold strip.
  assert (Hl : lstrip (_wrap_in_html ts content game_name)
               = _wrap_in_html ts content game_name) by reflexivity.
  rewrite Hl.
  assert (Ht : tight_end (_wrap_in_html ts content game_name)); [|apply Ht].
  unfold _wrap_in_html.
  repeat match goal with
         | |- tight_end (_ ++ _) => apply tight_end_app
         end.
  split; [reflexivity|discriminate].
Qed.

Lemma infix_skip (x m w : pystr) :
  (exists pre post, w = pre ++ m ++ post) ->
  exists pre post, x ++ w = pre ++ m ++ post.
Proof.
  intros (pre & post & ->). exists (x ++ pre), post. by rewrite <- app_assoc.
Qed.

Lemma wrap_in_html_shape (ts content game_name : pystr) :
  startswith (lit "<!DOCTYPE html>") (_wrap_in_html ts content game_name) = true
  /\ (exists pre post,
        _wrap_in_html ts content game_name
        = pre ++ (lit "<h1>SEO Research Report: " ++ html_escape game_name
                  ++ lit "</h1>") ++ post)
  /\ (exists pre post,
        _wrap_in_html ts content game_name
        = pre ++ (lit "<pre>"
                  ++ replace_char newline (lit "<br>") (html_escape content)
                  ++ lit "</pre>") ++ post).
Proof.
  split; [reflexivity|]. unfold _wrap_in_html. cbv zeta. split.
  - do 25 apply infix_skip. exists []. eexists.
    rewrite <- !app_assoc. reflexivity.
  - do 29 apply infix_skip. exists []. eexists.
    rewrite <- !app_assoc. reflexivity.
Qed.

(** X8. The document the research worker stores is always marked as HTML.
    On a run whose crew is built and whose kickoff returns, the job's
    stored document starts with [<!] after trimming: a crew output that
    already does is stored as it is; any other output is stored inside
    the fallback page, which starts with [<!DOCTYPE html>], neither starts
    nor ends with whitespace, and holds the escaped name in its heading
    and the escaped output, line breaks turned into [<br>], in its [<pre>]
    element. *)
Theorem research_report_is_html (E : collaborators) (job_id game_name : pystr)
    (s : store) (c : crew) (result : crew_output)
    (Hjob : s !! job_id = Some new_job)
    (Hbuild : build_seo_crew E game_name = Ok c)
    (Hkick : kickoff c = Ok result) :
  let text := match raw result with Some r => r | None => output_str result end in
  exists s' l jf doc,
    _run_crew E job_id game_name s = (Ok tt, s', l)
    /\ s' !! job_id = Some jf /\ report_html jf = Some doc
    /\ startswith (lit "<!") (strip doc) = true
    /\ (startswith (lit "<!") (strip text) = true -> doc = text)
    /\ (startswith (lit "<!") (strip text) = false ->
        startswith (lit "<!DOCTYPE html>") doc = true
        /\ strip doc = doc
        /\ (exists pre post,
              doc = pre ++ (lit "<h1>SEO Research Report: "
                            ++ html_escape game_name ++ lit "</h1>") ++ post)
        /\ (exists pre post,
              doc = pre ++ (lit "<pre>"
                            ++ replace_char newline (lit "<br>") (html_escape text)
                            ++ lit "</pre>") ++ post)).
Proof.
  intros text.
  rewrite _run_crew_run by eauto. unfold crew_log. rewrite Hbuild, Hkick.
  eexists _, _, _, _. split; [reflexivity|].
  split; [by apply apply_log_lookup|].
  unfold success_tail. read_updates. rewrite updates_callback_loop.
  rewrite !job_after_cons, job_after_app, job_after_appends, !job_after_cons.
  change (updates_to job_id []) with (@nil update).
  cbn [job_after foldl update_job status progress report_html error app new_job].
  split; [reflexivity|].
  unfold crew_report. fold text.
  destruct (startswith (lit "<!") (strip text)) eqn:Hs; cbn [negb].
  - split; [exact Hs|]. split; [done|discriminate].
  - rewrite wrap_in_html_tight.
    split; [reflexivity|]. split; [discriminate|]. intros _.
    destruct (wrap_in_html_shape (utc_now E) text game_name) as (H1 & H2 & H3).
    split; [exact H1|]. split; [reflexivity|].
    split; [exact H2|exact H3].
Qed.

(** ** Escaping *)

Lemma escape_char_safe (c : N) :
  forallb (fun x => negb (is_markup x)) (escape_char c) = true.
Proof.
  unfold escape_char.
  destruct (N.eqb_spec c 38); [reflexivity|].
  destruct (N.eqb_spec c 60); [reflexivity|].
  destruct (N.eqb_spec c 62); [reflexivity|].
  destruct (N.eqb_spec c 34); [reflexivity|].
  destruct (N.eqb_spec c 39); [reflexivity|].
  unfold is_markup. simpl.
  by rewrite !(proj2 (N.eqb_neq _ _)) by done.
Qed.

Lemma escape_char_plain (c : N) :
  is_markup c = false -> c <> 38 -> escape_char c = [c].
Proof.
  unfold is_markup, escape_char. intros H Hamp.
  apply orb_false_elim in H as [H H39].
  apply orb_false_elim in H as [H H34].
  apply orb_false_elim in H as [H60 H62].
  rewrite H60, H62, H34, H39. by rewrite (proj2 (N.eqb_neq _ _)) by done.
Qed.

(** Text that went through [html.escape] carries none of the
    characters [<], [>], double quote and single quote, so it cannot open
    or close a tag or an attribute value in the page it is put in; and
    text with none of these and no [&] comes out unchanged. *)
Theorem html_escape_safe (text : pystr) :
  forallb (fun c => negb (is_markup c)) (html_escape text) = true
  /\ (forallb (fun c => negb (is_markup c) && negb (c =? 38)) text = true ->
      html_escape text = text).
Proof.
  unfold html_escape. split.
  - induction text as [|c text IH]; [done|].
    cbn [flat_map]. by rewrite forallb_app, escape_char_safe, IH.
  - induction text as [|c text IH]; [done|].
    cbn [flat_map forallb]. intros [Hc Ht]%andb_prop.
    apply andb_prop in Hc as [Hm Hamp].
    apply negb_true_iff in Hm. apply negb_true_iff, N.eqb_neq in Hamp.
    by rewrite escape_char_plain, IH.
Qed.

Lemma hex_digit_printable (n : N) : n < 16 -> is_printable (hex_digit n) = true.
Proof.
  intros Hn. unfold hex_digit, is_printable.
  destruct (N.ltb_spec n 10); apply andb_true_intro; split;
    apply N.leb_le; lia.
Qed.

Lemma u_escape_printable (c : N) : forallb is_printable (u_escape c) = true.
Proof.
  unfold u_escape. cbn [forallb].
  rewrite !hex_digit_printable by (apply N.mod_lt; done). reflexivity.
Qed.

Lemma json_escape_char_printable (c : N) :
  forallb is_printable (json_escape_char c) = true.
Proof.
  unfold json_escape_char.
  repeat (match goal with
          | |- context [if ?b then _ else _] => destruct b eqn:?
          end; try reflexivity);
    rewrite ?forallb_app, ?u_escape_printable; try reflexivity.
  cbn [forallb]. unfold is_printable.
  match goal with H : (_ && _) = true |- _ => rewrite H end. reflexivity.
Qed.

Lemma json_string_printable (text : pystr) :
  forallb is_printable (json_string text) = true.
Proof.
  unfold json_string. rewrite !forallb_app.
  replace (forallb is_printable q) with true by reflexivity.
  rewrite andb_true_r. simpl.
  induction text as [|c text IH]; [done|].
  cbn [flat_map]. by rewrite forallb_app, json_escape_char_printable, IH.
Qed.

(** X9. The payload of a [complete] event is printable ASCII only,
    whatever the stored document holds: every character of
    [json.dumps({"report_html": ...})] lies between space and tilde, so
    the payload has no line break and fits one [data:] line of the event
    stream. *)
Theorem complete_payload_is_one_ascii_line (v : option pystr) :
  forallb is_printable (json_dumps_report v) = true
  /\ ~ In newline (json_dumps_report v)
  /\ ~ In 13 (json_dumps_report v).
Proof.
  assert (H : forallb is_printable (json_dumps_report v) = true).
  { unfold json_dumps_report. rewrite !forallb_app, json_string_printable.
    destruct v as [text|]; [rewrite json_string_printable|]; reflexivity. }
  split; [exact H|].
  rewrite forallb_forall in H.
  split; intros Hin; apply H in Hin; discriminate Hin.
Qed.

(** ** What the submission endpoints hand to the worker *)

Lemma lstrip_split (s : pystr) :
  exists ws, blank ws = true /\ s = ws ++ lstrip s.
Proof.
  induction s as [|c s (ws & Hws & IH)]; [by exists []|].
  simpl. destruct (isspace c) eqn:Hc.
  - exists (c :: ws). split; [simpl; by rewrite Hc|]. by rewrite IH at 1.
  - by exists [].
Qed.

Lemma lstrip_head (s : pystr) (c : N) :
  head (lstrip s) = Some c -> isspace c = false.
Proof.
  induction s as [|x s IH]; simpl; [done|].
  destruct (isspace x) eqn:Hx; [exact IH|]. simpl. by intros [= <-].
Qed.

Lemma blank_rev (ws : pystr) : blank ws = true -> blank (rev ws) = true.
Proof.
  unfold blank. rewrite !forallb_forall. intros H c Hc.
  apply H. by apply in_rev.
Qed.

Lemma rstrip_split (s : pystr) :
  exists ws, blank ws = true /\ s = rstrip s ++ ws.
Proof.
  unfold rstrip. destruct (lstrip_split (rev s)) as (ws & Hws & Hs).
  exists (rev ws). split; [by apply blank_rev|].
  rewrite <- rev_app_distr, <- Hs. by rewrite rev_involutive.
Qed.

Lemma last_rev_head {A} (l : list A) : last (rev l) = head l.
Proof. destruct l as [|x l]; [done|]. simpl. apply last_snoc. Qed.

Lemma rstrip_last (s : pystr) (c : N) :
  last (rstrip s) = Some c -> isspace c = false.
Proof.
  unfold rstrip. rewrite last_rev_head. apply lstrip_head.
Qed.

Lemma rstrip_head (s : pystr) (c : N) :
  head (rstrip s) = Some c -> head s = Some c.
Proof.
  destruct (rstrip_split s) as (ws & _ & Hs). rewrite Hs at 2.
  destruct (rstrip s); [done|]. done.
Qed.

(** X10. The name a research submission hands to its worker is the
    submitted name without its leading and trailing whitespace: the
    thread's argument is not empty, neither starts nor ends with a
    whitespace character, and the submitted name is that argument between
    two runs of whitespace. *)
Theorem submitted_name_is_trimmed (request : ResearchRequest) (uuid : pystr)
    (s : store) (Hname : truthy (strip (game_name request)) = true) :
  exists name,
    started (snd (start_research request uuid s))
    = [Thread "_run_crew" [VStr uuid; VStr name]]
    /\ name <> []
    /\ (forall c, head name = Some c -> isspace c = false)
    /\ (forall c, last name = Some c -> isspace c = false)
    /\ exists before after,
         blank before = true /\ blank after = true
         /\ game_name request = before ++ name ++ after.
Proof.
  exists (strip (game_name request)).
  rewrite start_research_ok by done.
  split; [reflexivity|]. split; [by destruct (strip _)|].
  unfold strip. split; [|split].
  - intros c Hc. apply rstrip_head in Hc. by apply lstrip_head in Hc.
  - apply rstrip_last.
  - destruct (lstrip_split (game_name request)) as (before & Hb & H1).
    destruct (rstrip_split (lstrip (game_name request))) as (after & Ha & H2).
    exists before, after. split; [done|]. split; [done|].
    by rewrite <- H2.
Qed.

Lemma submitted_name_is_trimmed_witness :
  exists name,
    started (snd (start_research {| game_name := lit "  book of dead " |}
                    sample_uuid ∅))
    = [Thread "_run_crew" [VStr sample_uuid; VStr name]]
    /\ name <> []
    /\ (forall c, head name = Some c -> isspace c = false)
    /\ (forall c, last name = Some c -> isspace c = false)
    /\ exists before after,
         blank before = true /\ blank after = true
         /\ lit "  book of dead " = before ++ name ++ after.
Proof.
  apply (submitted_name_is_trimmed {| game_name := lit "  book of dead " |}
           sample_uuid ∅).
  reflexivity.
Defined.

(** ** Submitting, running, asking *)

Lemma protocol_no_requeue (job_id : pystr) (l : list effect) :
  protocol job_id l ->
  Forall (fun u => u <> Create /\ u <> SetStatus Queued) (updates_to job_id l).
Proof.
  intros (ub & Hub & H)%protocol_updates.
  assert (Hb : Forall (fun u => u <> Create /\ u <> SetStatus Queued) ub).
  { eapply Forall_impl; [exact Hub|]. intros [|[]| | |] Hu; done. }
  destruct H as [(html & msg & ->)|(err & msg & ->)];
    apply Forall_app; (split; [exact Hb|]); repeat constructor; done.
Qed.

Lemma stays_started (us : list update) (j : job) :
  Forall (fun u => u <> Create /\ u <> SetStatus Queued) us ->
  status j <> Queued -> status (job_after us j) <> Queued.
Proof.
  intros Hus. revert j. induction Hus as [|u us [Hc Hq] _ IH]; intros j Hj;
    [done|].
  rewrite job_after_cons. apply IH.
  destruct u as [|st| | |]; simpl; try done. congruence.
Qed.

(** X11. A research submission under an id the store does not hold yet
    returns that id, starts the worker thread on it, and leaves the job
    queued, with an empty progress log, no document and no error, in the
    store as the call itself wrote it. The thread runs from then on, so
    what a later status query sees depends on how far the worker has got.
    With no other request in between, after any initial part of the
    worker's run the query is answered under the submitted id (never not
    found); the answer is queued, with no document and no error, while
    the worker has made at most its first write, and is never queued
    again once the worker has set the status to running; the health count
    is one more than before the submission; and a status query for any
    other id is answered as before the submission. *)
Theorem submit_then_query (E : collaborators) (request : ResearchRequest)
    (uuid : pystr) (s : store)
    (Hname : truthy (strip (game_name request)) = true)
    (Hfresh : s !! uuid = None) :
  let '(r, s', l) := start_research request uuid s in
  r = Ok {| job_id := uuid |}
  /\ started l = [Thread "_run_crew" [VStr uuid; VStr (strip (game_name request))]]
  /\ get_job_status uuid s'
     = Ok {| js_job_id := uuid; js_status := Queued; js_progress := [];
             js_report_html := None; js_error := None |}
  /\ forall done,
       done `prefix_of` crew_log E uuid (strip (game_name request)) ->
       let now := apply_log done s' in
       (exists st, get_job_status uuid now = Ok st
          /\ js_job_id st = uuid
          /\ ((length done <= 1)%nat ->
              js_status st = Queued /\ js_report_html st = None
              /\ js_error st = None)
          /\ ((2 <= length done)%nat -> js_status st <> Queued))
       /\ health now = ("ok"%string, S (snd (health s)))
       /\ forall other, other <> uuid ->
            get_job_status other now = get_job_status other s.
Proof.
  rewrite start_research_ok by done. split; [done|]. split; [done|].
  split; [unfold get_job_status; by rewrite lookup_insert_eq|].
  intros done [rest Hrest] now.
  pose proof (crew_log_protocol uuid E (strip (game_name request))) as Hp.
  pose proof (protocol_writes_only _ _ Hp) as Hw.
  pose proof (protocol_no_requeue _ _ Hp) as Hq.
  rewrite Hrest in Hw, Hq. apply Forall_app in Hw as [Hw _].
  rewrite updates_to_app in Hq. apply Forall_app in Hq as [Hq _].
  assert (Hthere : <[uuid := new_job]> s !! uuid = Some new_job)
    by apply lookup_insert_eq.
  split; [|split].
  - unfold get_job_status, now.
    rewrite (apply_log_lookup uuid done _ new_job Hthere).
    eexists. split; [reflexivity|]. split; [reflexivity|].
    cbn [js_status js_report_html js_error].
    unfold crew_log in Hrest.
    destruct done as [|e1 [|e2 done']]; cbn [app length] in *.
    + split; [done|lia].
    + injection Hrest as <- _. rewrite updates_to_same. split; [done|lia].
    + injection Hrest as <- <- _. split; [lia|]. intros _.
      rewrite !updates_to_same in *. rewrite !job_after_cons.
      apply stays_started; [|done].
      apply Forall_cons_1 in Hq as [_ Hq].
      by apply Forall_cons_1 in Hq as [_ Hq].
  - unfold health, now. cbn [snd]. f_equal.
    rewrite <- size_dom, (apply_log_dom uuid) by eauto.
    rewrite size_dom. by apply map_size_insert_None.
  - intros other Hne. unfold get_job_status, now.
    rewrite (apply_log_other uuid) by done. by rewrite lookup_insert_ne.
Qed.

Lemma submit_then_query_witness :
  let '(r, s', l) :=
    start_research {| game_name := lit "book of dead" |} sample_uuid sample_store in
  r = Ok {| job_id := sample_uuid |}
  /\ started l = [Thread "_run_crew" [VStr sample_uuid; VStr (lit "book of dead")]]
  /\ get_job_status sample_uuid s'
     = Ok {| js_job_id := sample_uuid; js_status := Queued; js_progress := [];
             js_report_html := None; js_error := None |}
  /\ forall done,
       done `prefix_of` crew_log (sample_env None None 0) sample_uuid
                          (lit "book of dead") ->
       let now := apply_log done s' in
       (exists st, get_job_status sample_uuid now = Ok st
          /\ js_job_id st = sample_uuid
          /\ ((length done <= 1)%nat ->
              js_status st = Queued /\ js_report_html st = None
              /\ js_error st = None)
          /\ ((2 <= length done)%nat -> js_status st <> Queued))
       /\ health now = ("ok"%string, 2%nat)
       /\ forall other, other <> sample_uuid ->
            get_job_status other now = get_job_status other sample_store.
Proof.
  apply (submit_then_query (sample_env None None 0)
           {| game_name := lit "book of dead" |} sample_uuid sample_store);
    reflexivity.
Defined.

(** X12. A research job from submission to answer: the submission starts
    one thread; once that thread has run, on the store the submission
    left, it has returned without raising, and both status endpoints give
    the same answer for the job: complete, with a document, no error and
    [Research complete!] as the last progress line; or error, with no
    document, an error text, and [ERROR: <that text>] as the last progress
    line. *)
Theorem research_job_end_to_end (E : collaborators) (request : ResearchRequest)
    (uuid : pystr) (s : store)
    (Hname : truthy (strip (game_name request)) = true) :
  let '(_, s1, l1) := start_research request uuid s in
  exists t, started l1 = [t]
    /\ exists s2 l2 st,
         run_thread E t s1 = (Ok tt, s2, l2)
         /\ get_job_status uuid s2 = Ok st
         /\ get_content_brief_status uuid s2 = Ok st
         /\ js_job_id st = uuid
         /\ ((js_status st = Complete /\ is_Some (js_report_html st)
              /\ js_error st = None
              /\ last (js_progress st) = Some (lit "Research complete!"))
             \/ (js_status st = Error /\ js_report_html st = None
                 /\ exists text, js_error st = Some text
                      /\ last (js_progress st) = Some (lit "ERROR: " ++ text))).
Proof.
  rewrite start_research_ok by done. eexists. split; [reflexivity|].
  change (run_thread E _ ?s1)
    with (_run_crew E uuid (strip (game_name request)) s1).
  rewrite _run_crew_run by (rewrite lookup_insert_eq; eauto).
  eexists _, _, _. split; [reflexivity|].
  unfold get_job_status, get_content_brief_status.
  rewrite (apply_log_lookup uuid _ _ new_job) by apply lookup_insert_eq.
  split; [reflexivity|]. split; [reflexivity|]. split; [reflexivity|].
  cbn [js_status js_report_html js_error js_progress].
  apply ends_finished; [apply new_job_clean|apply crew_log_ends].
Qed.

Lemma research_job_end_to_end_witness :
  let E := sample_env None None 0 in
  let '(_, s1, l1) :=
    start_research {| game_name := lit " book of dead " |} sample_uuid ∅ in
  exists t, started l1 = [t]
    /\ exists s2 l2 st,
         run_thread E t s1 = (Ok tt, s2, l2)
         /\ get_job_status sample_uuid s2 = Ok st
         /\ get_content_brief_status sample_uuid s2 = Ok st
         /\ js_job_id st = sample_uuid
         /\ ((js_status st = Complete /\ is_Some (js_report_html st)
              /\ js_error st = None
              /\ last (js_progress st) = Some (lit "Research complete!"))
             \/ (js_status st = Error /\ js_report_html st = None
                 /\ exists text, js_error st = Some text
                      /\ last (js_progress st) = Some (lit "ERROR: " ++ text))).
Proof.
  apply (research_job_end_to_end (sample_env None None 0)
           {| game_name := lit " book of dead " |} sample_uuid ∅).
  reflexivity.
Defined.

(** ** Streams over any history *)

Lemma progress_events_plain (msgs : list pystr) :
  List.filter is_terminal_event (map progress_event msgs) = []
  /\ List.filter is_heartbeat (map progress_event msgs) = [].
Proof. induction msgs as [|msg msgs [IH1 IH2]]; [done|]. simpl. by rewrite IH1, IH2. Qed.

(** What one pass yields: the new progress lines, then either one
    terminal event and a return, or at most one heartbeat and new locals
    that account for every line of the log. *)
Lemma research_pass_shape (job_id : pystr) (st : gen_state) (s : store) :
  match StreamResearch.pass job_id st s with
  | (evs, None) =>
      exists msgs ev, evs = map progress_event msgs ++ [ev]
        /\ is_terminal_event ev = true
  | (evs, Some st') =>
      exists job, s !! job_id = Some job
        /\ is_terminal (status job) = false
        /\ last_idx st' = Nat.max (last_idx st) (length (progress job))
        /\ ((evs = map progress_event (drop (last_idx st) (progress job))
             /\ heartbeat_counter st' = S (heartbeat_counter st)
             /\ (heartbeat_counter st' < 15)%nat)
            \/ (evs = map progress_event (drop (last_idx st) (progress job))
                      ++ [heartbeat_event]
                /\ heartbeat_counter st' = 0%nat
                /\ (15 <= S (heartbeat_counter st))%nat))
  end.
Proof.
  unfold StreamResearch.pass. destruct (s !! job_id) as [job|] eqn:Hjob.
  2:{ exists [], {| event := "error"; data := Some (lit "Job not found") |}. done. }
  rewrite research_drain by lia.
  destruct (status job) eqn:Hstatus.
  3:{ eexists _, _. split; [reflexivity|done]. }
  3:{ eexists _, _. split; [reflexivity|done]. }
  all: destruct (Nat.leb_spec 15 (S (heartbeat_counter st)));
    exists job; rewrite Hstatus; (split; [done|]); (split; [done|]);
    (split; [done|]); [right|left]; simpl; repeat split; done || lia.
Qed.

(** X13. On any sequence of stores, from any values of its locals, a
    stream generator yields at most one terminal event ([complete] or
    [error]): exactly one if it returned, as its last event, and none
    while it is still running. Both stream endpoints behave so. *)
Theorem stream_ends_once (job_id : pystr) (st : gen_state) (ticks : list store) :
  let '(evs, returned) := StreamResearch.event_generator job_id st ticks in
  StreamContentBrief.event_generator job_id st ticks = (evs, returned)
  /\ length (List.filter is_terminal_event evs) = (if returned then 1 else 0)%nat
  /\ (returned = true ->
      exists ev, last evs = Some ev /\ is_terminal_event ev = true).
Proof.
  pose proof (event_generator_same job_id st ticks) as Hsame.
  destruct (StreamResearch.event_generator job_id st ticks) as [evs returned] eqn:Hrun.
  split; [done|]. clear Hsame. revert st evs returned Hrun.
  induction ticks as [|s ticks IH]; intros st evs returned Hrun; simpl in Hrun.
  { injection Hrun as <- <-. split; [done|]. done. }
  pose proof (research_pass_shape job_id st s) as Hpass.
  destruct (StreamResearch.pass job_id st s) as [evs1 [st'|]].
  - destruct (StreamResearch.event_generator job_id st' ticks)
      as [evs2 ret2] eqn:Hrest.
    injection Hrun as <- <-. destruct (IH _ _ _ Hrest) as [Hcount Hlast].
    destruct Hpass as (job & _ & _ & _ & Hevs).
    assert (Hnone : List.filter is_terminal_event evs1 = []).
    { destruct Hevs as [(-> & _)|(-> & _)];
        rewrite ?List.filter_app, (proj1 (progress_events_plain _)); done. }
    split.
    + by rewrite List.filter_app, Hnone.
    + intros Hret. destruct (Hlast Hret) as (ev & Hev & Hterm).
      exists ev. split; [|done].
      destruct evs2 as [|e evs2] using rev_ind; [done|].
      rewrite app_assoc, last_snoc. by rewrite last_snoc in Hev.
  - injection Hrun as <- <-. destruct Hpass as (msgs & ev & -> & Hterm).
    split.
    + rewrite List.filter_app, (proj1 (progress_events_plain _)).
      simpl. by rewrite Hterm.
    + intros _. exists ev. by rewrite last_snoc.
Qed.

(** X14. Heartbeat cadence. While the job is idle (not terminal, no new
    progress line) the generator yields heartbeats only, one each time its
    counter reaches 15: from a counter [h < 15], [n] idle ticks yield
    [(h + n) / 15] heartbeats, and the generator does not return. *)
Theorem heartbeat_cadence (job_id : pystr) (st : gen_state) (ticks : list store)
    (Hcounter : (heartbeat_counter st < 15)%nat)
    (Hidle : Forall (idle_at job_id (last_idx st)) ticks) :
  StreamResearch.event_generator job_id st ticks
  = (replicate ((heartbeat_counter st + length ticks) / 15) heartbeat_event, false).
Proof.
  revert st Hcounter Hidle.
  induction ticks as [|s ticks IH]; intros st Hcounter Hidle.
  { cbn [StreamResearch.event_generator length].
    rewrite Nat.add_0_r, Nat.div_small by lia. done. }
  apply Forall_cons in Hidle as [(job & Hjob & Hterm & Hlen) Hidle].
  cbn [StreamResearch.event_generator].
  pose proof (research_pass_shape job_id st s) as Hpass.
  destruct (StreamResearch.pass job_id st s) as [evs1 [st'|]] eqn:Hp.
  2:{ exfalso. unfold StreamResearch.pass in Hp. rewrite Hjob in Hp.
      rewrite research_drain in Hp by lia.
      destruct (status job); try done;
        destruct (15 <=? S (heartbeat_counter st))%nat; done. }
  destruct Hpass as (job' & Hjob' & _ & Hidx & Hevs).
  rewrite Hjob in Hjob'. injection Hjob' as <-.
  assert (Hidx' : last_idx st' = last_idx st) by lia.
  rewrite drop_ge in Hevs by lia.
  rewrite <- Hidx' in Hidle.
  destruct Hevs as [(-> & Hh & Hlt)|(-> & Hh & Hge)].
  - rewrite (IH st') by (done || lia). rewrite Hh. cbn [map app length].
    by replace (S (heartbeat_counter st) + length ticks)%nat
      with (heartbeat_counter st + S (length ticks))%nat by lia.
  - rewrite (IH st') by (done || lia). rewrite Hh. cbn [map app length].
    assert (Hc : heartbeat_counter st = 14%nat) by lia. rewrite Hc.
    replace (14 + S (length ticks))%nat with (1 * 15 + length ticks)%nat by lia.
    rewrite Nat.div_add_l by lia. done.
Qed.

Lemma heartbeat_cadence_witness :
  let s : store := <[sample_id := {| status := Running;
                                     progress := [lit "Starting"];
                                     report_html := None; error := None |}]> ∅ in
  StreamResearch.event_generator sample_id
    {| last_idx := 1; heartbeat_counter := 0 |} (replicate 31 s)
  = ([heartbeat_event; heartbeat_event], false).
Proof.
  intros s.
  rewrite (heartbeat_cadence sample_id {| last_idx := 1; heartbeat_counter := 0 |}
             (replicate 31 s)).
  - reflexivity.
  - simpl. lia.
  - apply Forall_replicate. eexists. split; [reflexivity|]. split; [done|].
    simpl. lia.
Defined.

(** ** Streams and the progress log *)

Lemma research_pass_running (job_id : pystr) (st : gen_state) (s : store)
    (job : job) :
  s !! job_id = Some job -> is_terminal (status job) = false ->
  exists beat st',
    StreamResearch.pass job_id st s
    = (map progress_event (drop (last_idx st) (progress job)) ++ beat, Some st')
    /\ last_idx st' = Nat.max (last_idx st) (length (progress job))
    /\ (beat = [] \/ beat = [heartbeat_event]).
Proof.
  intros Hjob Hterm. unfold StreamResearch.pass. rewrite Hjob.
  rewrite research_drain by lia.
  destruct (status job); try done;
    destruct (15 <=? S (heartbeat_counter st))%nat;
    eexists _, _; (split; [reflexivity || (by rewrite app_nil_r)|]);
    (split; [done|]); auto.
Qed.

Lemma grows_prefix (job_id : pystr) (sent : list pystr) (ticks : list store)
    (final : job) :
  grows job_id sent ticks final -> sent `prefix_of` progress final.
Proof.
  revert sent. induction ticks as [|s ticks IH]; intros sent H; [done|].
  destruct H as (job & _ & _ & Hsent & Hrest). etrans; [exact Hsent|].
  by apply IH.
Qed.

Lemma filter_beat_progress (msgs : list pystr) :
  List.filter (fun ev => negb (is_heartbeat ev)) (map progress_event msgs)
  = map progress_event msgs.
Proof. induction msgs as [|msg msgs IH]; [done|]. simpl. by rewrite IH. Qed.

Lemma stream_delivers_from (job_id : pystr) (ticks : list store) (s_fin : store)
    (final : job) (rest : list store) (st : gen_state) (sent : list pystr) :
  last_idx st = length sent ->
  grows job_id sent ticks final ->
  s_fin !! job_id = Some final -> status final = Complete ->
  let '(evs, returned) :=
    StreamResearch.event_generator job_id st (ticks ++ s_fin :: rest) in
  returned = true
  /\ List.filter (fun ev => negb (is_heartbeat ev)) evs
     = map progress_event (drop (length sent) (progress final))
       ++ [{| event := "complete";
              data := Some (json_dumps_report (report_html final)) |}].
Proof.
  intros Hidx Hgrows Hfin Hdone. revert st sent Hidx Hgrows.
  induction ticks as [|s ticks IH]; intros st sent Hidx Hgrows.
  - cbn [app StreamResearch.event_generator]. unfold StreamResearch.pass.
    rewrite Hfin, research_drain by lia. rewrite Hdone. split; [done|].
    rewrite List.filter_app, filter_beat_progress, Hidx. done.
  - destruct Hgrows as (job & Hjob & Hterm & Hsent & Hrest).
    cbn [app StreamResearch.event_generator].
    destruct (research_pass_running job_id st s job Hjob Hterm)
      as (beat & st' & -> & Hidx' & Hbeat).
    assert (Hlen : (length sent <= length (progress job))%nat).
    { destruct Hsent as [k ->]. rewrite length_app. lia. }
    specialize (IH st' (progress job) ltac:(lia) Hrest).
    destruct (StreamResearch.event_generator job_id st' (ticks ++ s_fin :: rest))
      as [evs returned].
    destruct IH as [-> Hevs]. split; [done|].
    rewrite !List.filter_app, filter_beat_progress, Hevs, Hidx.
    replace (List.filter (fun ev => negb (is_heartbeat ev)) beat) with (@nil sse)
      by (by destruct Hbeat as [->| ->]).
    destruct (grows_prefix _ _ _ _ Hrest) as [k Hk]. rewrite Hk.
    rewrite drop_app_length, drop_app_le by done.
    by rewrite map_app, <- !app_assoc.
Qed.

(** X15. What a stream delivers of the progress log. Over ticks at which
    the job is being worked on and its progress log only grows, followed
    by a tick at which the generator finds the job complete, a generator
    started with the connection returns at that tick. Without the
    heartbeats its events are one [progress] event per line the log holds
    at that tick, each once and in the order of the log, and then the
    [complete] event; no other line is sent, whatever the store holds
    afterwards. A line appended after that tick is therefore not
    delivered: the workers push their closing line after they have written
    the complete status, so a tick that falls between the two writes ends
    the stream without the closing line. *)
Theorem progress_delivered_once (job_id : pystr) (ticks : list store)
    (s_fin : store) (final : job) (rest : list store)
    (Hgrows : grows job_id [] ticks final)
    (Hfin : s_fin !! job_id = Some final) (Hdone : status final = Complete) :
  let '(evs, returned) :=
    StreamResearch.event_generator job_id gen_init (ticks ++ s_fin :: rest) in
  returned = true
  /\ List.filter (fun ev => negb (is_heartbeat ev)) evs
     = map progress_event (progress final)
       ++ [{| event := "complete";
              data := Some (json_dumps_report (report_html final)) |}]
  /\ forall msg, In (progress_event msg) evs -> In msg (progress final).
Proof.
  pose proof (stream_delivers_from job_id ticks s_fin final rest gen_init []
                eq_refl Hgrows Hfin Hdone) as H.
  destruct (StreamResearch.event_generator _ _ _) as [evs returned].
  destruct H as [Hret Hevs]. split; [exact Hret|]. split; [exact Hevs|].
  intros msg Hin.
  assert (Hin' : In (progress_event msg)
                   (List.filter (fun ev => negb (is_heartbeat ev)) evs)).
  { apply List.filter_In. split; [exact Hin|reflexivity]. }
  rewrite Hevs in Hin'. apply in_app_or in Hin' as [Hin'|[Heq|[]]].
  - apply in_map_iff in Hin' as (m & Hm & Hin'). injection Hm as ->.
    exact Hin'.
  - discriminate Heq.
Qed.

Lemma progress_delivered_once_witness :
  let j1 := {| status := Running; progress := [lit "a"];
               report_html := None; error := None |} in
  let j2 := {| status := Running; progress := [lit "a"; lit "b"; lit "c"];
               report_html := None; error := None |} in
  let j3 := {| status := Complete; progress := [lit "a"; lit "b"; lit "c"];
               report_html := Some (lit "<!DOCTYPE html>"); error := None |} in
  let j4 := {| status := Complete;
               progress := [lit "a"; lit "b"; lit "c"; lit "Research complete!"];
               report_html := Some (lit "<!DOCTYPE html>"); error := None |} in
  let at_ (j : job) : store := <[sample_id := j]> ∅ in
  StreamResearch.event_generator sample_id gen_init
    [at_ new_job; at_ j1; at_ j1; at_ j2; at_ j3; at_ j4]
  = ([progress_event (lit "a"); progress_event (lit "b");
      progress_event (lit "c");
      {| event := "complete";
         data := Some (json_dumps_report (Some (lit "<!DOCTYPE html>"))) |}],
     true).
Proof.
  intros j1 j2 j3 j4 at_.
  pose proof (progress_delivered_once sample_id
                [at_ new_job; at_ j1; at_ j1; at_ j2] (at_ j3) j3 [at_ j4]) as H.
  cbn [app] in H.
  destruct (StreamResearch.event_generator _ _ _) as [evs returned] eqn:Hrun.
  destruct H as [-> _].
  - eexists. split; [reflexivity|]. split; [done|]. split; [by exists []|].
    eexists. split; [reflexivity|]. split; [done|].
    split; [by exists [lit "a"]|].
    eexists. split; [reflexivity|]. split; [done|]. split; [by exists []|].
    eexists. split; [reflexivity|]. split; [done|].
    split; [by exists [lit "b"; lit "c"]|]. by exists [].
  - reflexivity.
  - reflexivity.
  - rewrite <- Hrun. reflexivity.
Defined.

(** X16. A stream opened on a job that has failed: the first pass replays
    the logged progress lines, yields one [error] event whose data is the
    job's error field, and returns; no heartbeat and no [complete] event
    is sent. Both stream endpoints behave so. *)
Theorem stream_of_failed_job (job_id : pystr) (s : store) (job : job)
    (ticks : list store)
    (Hjob : s !! job_id = Some job) (Hfailed : status job = Error) :
  let evs := map progress_event (progress job)
             ++ [{| event := "error"; data := error job |}] in
  (exists g, StreamResearch.stream_research job_id s = Ok g
     /\ g (s :: ticks) = (evs, true))
  /\ (exists g, StreamContentBrief.stream_content_brief job_id s = Ok g
        /\ g (s :: ticks) = (evs, true))
  /\ count_events "heartbeat" evs = 0%nat
  /\ count_events "complete" evs = 0%nat.
Proof.
  intros evs.
  assert (Hrun : StreamResearch.event_generator job_id gen_init (s :: ticks)
                 = (evs, true)).
  { cbn [StreamResearch.event_generator]. unfold StreamResearch.pass.
    rewrite Hjob, research_drain by (simpl; lia). by rewrite Hfailed. }
  unfold StreamResearch.stream_research, StreamContentBrief.stream_content_brief.
  rewrite Hjob. split; [eauto|]. split.
  - eexists. split; [reflexivity|]. by rewrite <- event_generator_same.
  - unfold evs. rewrite !count_events_app, !count_events_progress by done.
    done.
Qed.

Lemma stream_of_failed_job_witness :
  let job := {| status := Error;
                progress := [lit "Starting content brief for: seo";
                             lit "ERROR: SERPER_API_KEY is not set in environment"];
                report_html := None;
                error := Some (lit "SERPER_API_KEY is not set in environment") |} in
  let s : store := <[sample_id := job]> ∅ in
  exists g, StreamContentBrief.stream_content_brief sample_id s = Ok g
    /\ g [s; s]
       = ([progress_event (lit "Starting content brief for: seo");
           progress_event (lit "ERROR: SERPER_API_KEY is not set in environment");
           {| event := "error";
              data := Some (lit "SERPER_API_KEY is not set in environment") |}],
          true).
Proof.
  intros job s.
  destruct (stream_of_failed_job sample_id s job [s] eq_refl eq_refl)
    as (_ & Hbrief & _).
  exact Hbrief.
Defined.

(** ** The rendered table and the prompt *)

Lemma count_occ_unmarked (c : N) (l : pystr) :
  is_markup c = true ->
  forallb (fun x => negb (is_markup x)) l = true ->
  count_occ N.eq_dec l c = 0%nat.
Proof.
  intros Hc Hl. apply count_occ_not_In. intros Hin.
  rewrite forallb_forall in Hl. apply Hl in Hin. by rewrite Hc in Hin.
Qed.

Lemma dec_digits_unmarked (u : Decimal.uint) :
  forallb (fun x => negb (is_markup x)) (dec_digits u) = true.
Proof. induction u; simpl; done. Qed.

(** X17. A row of the rendered table has the same markup whatever the
    page's url and title hold: it counts exactly four double quotes (the
    delimiters of its two attributes), eight [<] and eight [>], so no url
    or title can close the [href] attribute or open a tag of its own. *)
Theorem table_row_markup_is_fixed (c : competitor) :
  count_occ N.eq_dec (comp_row c) dquote = 4%nat
  /\ count_occ N.eq_dec (comp_row c) 60 = 8%nat
  /\ count_occ N.eq_dec (comp_row c) 62 = 8%nat.
Proof.
  unfold comp_row, dec.
  pose proof (proj1 (html_escape_safe (url c))) as Hurl.
  pose proof (proj1 (html_escape_safe (take 80 (title c)))) as Htitle.
  pose proof (dec_digits_unmarked (Nat.to_uint (position c))) as Hdec.
  repeat split; rewrite !count_occ_app;
    rewrite !(count_occ_unmarked _ (html_escape _)) by done;
    rewrite !(count_occ_unmarked _ (dec_digits _)) by done;
    reflexivity.
Qed.

Lemma summary_item_failed (E : collaborators) (ir : nat * search_result) :
  fetch_failed E ir = true -> summary_item (fetched E ir) = [].
Proof.
  intros H. rewrite fetched_placeholder by done. reflexivity.
Qed.

(** X18. A page whose fetch failed adds nothing to the prompt: the
    competitor section the worker builds is the one built from the pages
    that were fetched; and when every fetch failed it is the bare heading,
    with which the analysis is still called. *)
Theorem failed_pages_leave_the_prompt (E : collaborators)
    (items : list (nat * search_result)) :
  comp_summary (map (fetched E) items)
  = comp_summary
      (map (fetched E) (List.filter (fun ir => negb (fetch_failed E ir)) items))
  /\ (forallb (fetch_failed E) items = true ->
      comp_summary (map (fetched E) items)
      = lit "COMPETITOR ANALYSIS:" ++ nl ++ nl).
Proof.
  unfold comp_summary. split.
  - do 3 f_equal. induction items as [|ir items IH]; [done|].
    cbn [map concat List.filter].
    destruct (fetch_failed E ir) eqn:Hf; cbn [negb map concat].
    + by rewrite summary_item_failed, IH.
    + by rewrite IH.
  - intros Hall.
    assert (Hnone : concat (map summary_item (map (fetched E) items)) = []).
    { induction items as [|ir items IH]; [done|].
      cbn [forallb] in Hall. apply andb_prop in Hall as [Hf Hall].
      cbn [map concat]. by rewrite summary_item_failed, IH. }
    by rewrite Hnone, app_nil_r.
Qed.

(** ** Further sample runs *)

Lemma workers_touch_only_their_job_witness :
  let E := sample_env (Some (lit "key")) (Some (lit "sk")) 2 in
  let s : store := <[lit "other" := new_job]> sample_store in
  let s1 := snd (fst (run_content_brief E sample_id (lit "seo tools") s)) in
  s1 !! lit "other" = Some new_job /\ dom s1 = dom s.
Proof.
  intros E s s1.
  destruct (workers_touch_only_their_job E sample_id (lit "seo tools") s)
    as (Hother & Hdom & _).
  split; [|exact Hdom].
  destruct (Hother (lit "other") ltac:(discriminate)) as [H _]. exact H.
Defined.

Lemma research_report_is_html_witness :
  let E :=
    {| getenv := fun _ => None;
       serper_search := fun _ _ => Ok {| organic := None |};
       fetch_page := sample_fetch;
       claude_analysis := sample_analysis;
       markdown := fun text => Ok text;
       utc_now := lit "2024-05-01 12:00 UTC";
       build_seo_crew := fun _ =>
         Ok {| steps := [];
               kickoff := Ok {| raw := Some (lit "# Report <b>");
                                output_str := lit "ignored" |} |} |} in
  exists s' l jf doc,
    _run_crew E sample_id (lit "book of dead") sample_store = (Ok tt, s', l)
    /\ s' !! sample_id = Some jf /\ report_html jf = Some doc
    /\ startswith (lit "<!DOCTYPE html>") doc = true.
Proof.
  intros E.
  destruct (research_report_is_html E sample_id (lit "book of dead") sample_store
              {| steps := [];
                 kickoff := Ok {| raw := Some (lit "# Report <b>");
                                  output_str := lit "ignored" |} |}
              {| raw := Some (lit "# Report <b>"); output_str := lit "ignored" |}
              eq_refl eq_refl eq_refl)
    as (s' & l & jf & doc & Hrun & Hjf & Hdoc & _ & _ & Hwrap).
  exists s', l, jf, doc. split; [exact Hrun|]. split; [exact Hjf|].
  split; [exact Hdoc|]. apply Hwrap. reflexivity.
Defined.

Lemma html_escape_safe_witness :
  html_escape (lit "Top 10 slots 2024") = lit "Top 10 slots 2024"
  /\ forallb (fun c => negb (is_markup c))
       (html_escape (lit "<script>alert('x')</script>")) = true.
Proof.
  split.
  - apply (html_escape_safe (lit "Top 10 slots 2024")). reflexivity.
  - apply (html_escape_safe (lit "<script>alert('x')</script>")).
Defined.

Lemma complete_payload_is_one_ascii_line_witness :
  ~ In newline (json_dumps_report (Some [60; 10; 233; 128512; 34])).
Proof.
  apply (complete_payload_is_one_ascii_line (Some [60; 10; 233; 128512; 34])).
Defined.

Lemma stream_ends_once_witness :
  let s : store := <[sample_id := {| status := Complete; progress := [lit "a"];
                                     report_html := Some (lit "<!DOCTYPE html>");
                                     error := None |}]> ∅ in
  exists ev,
    last (fst (StreamResearch.event_generator sample_id gen_init
                 [sample_store; s; s])) = Some ev
    /\ is_terminal_event ev = true.
Proof.
  intros s.
  pose proof (stream_ends_once sample_id gen_init [sample_store; s; s]) as H.
  destruct (StreamResearch.event_generator _ _ _) as [evs returned] eqn:Hrun.
  destruct H as (_ & _ & Hlast). apply Hlast.
  vm_compute in Hrun. injection Hrun as _ <-. reflexivity.
Defined.

Lemma failed_pages_leave_the_prompt_witness :
  let E := sample_env (Some (lit "key")) (Some (lit "sk")) 5 in
  let items := [(2%nat, sample_result 2); (4%nat, sample_result 4)] in
  comp_summary (map (fetched E) items) = lit "COMPETITOR ANALYSIS:" ++ nl ++ nl.
Proof.
  intros E items.
  apply (failed_pages_leave_the_prompt E items). reflexivity.
Defined.

(** * The workers' traces, with their closing lines *)

Section RunShape.

Context (job_id closing : pystr).

Lemma run_shape_start (l : list effect) :
  ends_with job_id closing l ->
  run_shape job_id closing (Wrote job_id (SetStatus Running) :: l).
Proof.
  intros (lb & Hlb & H). exists (Wrote job_id (SetStatus Running) :: lb).
  split; [|split].
  - unfold body_log in *. simpl. by rewrite bool_decide_eq_true_2.
  - by left.
  - destruct H as [(html & ->)|(exc & ->)]; [left|right]; by eexists.
Qed.

Lemma run_shape_push (msg : pystr) (l : list effect) :
  run_shape job_id closing l ->
  run_shape job_id closing (Wrote job_id (Append msg) :: l).
Proof.
  intros (lb & Hlb & Hrun & H). exists (Wrote job_id (Append msg) :: lb).
  split; [|split].
  - unfold body_log in *. simpl. by rewrite bool_decide_eq_true_2.
  - by right.
  - destruct H as [(html & ->)|(exc & ->)]; [left|right]; by eexists.
Qed.

Lemma In_updates_to (u : update) (lb : list effect) :
  In (Wrote job_id u) lb -> In u (updates_to job_id lb).
Proof.
  induction lb as [|e lb IH]; [done|]. intros [->|Hin].
  - rewrite updates_to_same. by left.
  - change (e :: lb) with ([e] ++ lb). rewrite updates_to_app.
    apply in_or_app. right. by apply IH.
Qed.

Lemma run_shape_updates (l : list effect) :
  run_shape job_id closing l ->
  exists ub, Forall (fun u => body_update u = true) ub
    /\ In (SetStatus Running) ub
    /\ ((exists html,
           updates_to job_id l
           = ub ++ [SetReport html; SetStatus Complete; Append closing])
        \/ (exists exc,
              updates_to job_id l
              = ub ++ [SetStatus Error; SetError (str_exc exc);
                       Append (lit "ERROR: " ++ str_exc exc)])).
Proof.
  intros (lb & Hlb & Hrun & H). exists (updates_to job_id lb).
  split; [by apply body_log_updates|]. split; [by apply In_updates_to|].
  destruct H as [(html & ->)|(exc & ->)]; [left|right];
    eexists; rewrite updates_to_app;
    unfold success_tail, handler_log, failure_tail;
    by rewrite !updates_to_same.
Qed.

End RunShape.

Lemma body_keeps_running (us : list update) (j : job) :
  Forall (fun u => body_update u = true) us -> status j = Running ->
  status (job_after us j) = Running.
Proof.
  intros Hus. revert j. induction Hus as [|u us Hu _ IH]; intros j Hj; [done|].
  rewrite job_after_cons. apply IH.
  destruct u as [|[]| | |]; simpl in *; done.
Qed.

Lemma body_running (us : list update) (j : job) :
  Forall (fun u => body_update u = true) us -> In (SetStatus Running) us ->
  status (job_after us j) = Running.
Proof.
  intros Hus. revert j. induction Hus as [|u us Hu Hus IH]; intros j Hin;
    [done|].
  rewrite job_after_cons. destruct Hin as [->|Hin].
  - by apply body_keeps_running.
  - by apply IH.
Qed.

Lemma brief_log_run_shape (E : collaborators) (job_id keyword : pystr) :
  run_shape job_id (lit "Content brief ready!") (brief_log E job_id keyword).
Proof.
  pose proof (brief_log_ends E job_id keyword) as H.
  unfold brief_log in *. apply run_shape_start.
  destruct H as (lb & Hlb & H).
  destruct lb as [|e lb].
  { exfalso. destruct H as [(html & H)|(exc & H)]; discriminate H. }
  assert (He : e = Wrote job_id (SetStatus Running)).
  { destruct H as [(html & H)|(exc & H)]; by injection H. }
  subst e. exists lb. split.
  - unfold body_log in *. simpl in Hlb. by apply andb_prop in Hlb as [_ Hlb].
  - destruct H as [(html & H)|(exc & H)]; [left|right]; eexists;
      by injection H.
Qed.

Lemma crew_log_run_shape (E : collaborators) (job_id game_name : pystr) :
  run_shape job_id (lit "Research complete!") (crew_log E job_id game_name).
Proof.
  pose proof (crew_log_ends E job_id game_name) as H.
  unfold crew_log in *. apply run_shape_push, run_shape_start.
  destruct H as (lb & Hlb & H).
  destruct lb as [|e1 [|e2 lb]].
  { exfalso. destruct H as [(html & H)|(exc & H)]; discriminate H. }
  { exfalso. destruct H as [(html & H)|(exc & H)]; discriminate H. }
  assert (He : e1 = Wrote job_id
                      (Append (lit "Starting research for: " ++ game_name))
               /\ e2 = Wrote job_id (SetStatus Running)).
  { destruct H as [(html & H)|(exc & H)]; by injection H. }
  destruct He as [-> ->]. exists lb. split.
  - unfold body_log in *. simpl in Hlb.
    apply andb_prop in Hlb as [_ Hlb]. by apply andb_prop in Hlb as [_ Hlb].
  - destruct H as [(html & H)|(exc & H)]; [left|right]; eexists;
      by injection H.
Qed.

Lemma run_shape_progress (job_id closing : pystr) (l : list effect) (j0 : job) :
  clean j0 -> run_shape job_id closing l ->
  progress_discipline closing (job_trace job_id j0 l).
Proof.
  intros Hj0 (ub & Hub & _ & Htail)%run_shape_updates. unfold job_trace.
  pose proof (body_clean ub j0 Hub Hj0) as (Hbt & Hbr & Hbe).
  assert (Hbody : forall i, clean (job_after (take i ub) j0)).
  { intros i. apply body_clean; [by apply Forall_take|done]. }
  destruct Htail as [(html & ->)|(exc & ->)];
    (split; [|split]).
  - intros i k ji jk Hik Hi Hk. trace_cases Hi; trace_cases Hk; try lia; simpl;
      first [ by apply body_progress_take
            | by apply body_progress_all
            | by (etrans; [by apply body_progress_all|by apply prefix_app_r])
            | done
            | by apply prefix_app_r ].
  - intros i k ji jk Hik Hi Hk Hterm.
    trace_cases Hi; trace_cases Hk; try lia; simpl in *;
      try (destruct (Hbody i) as (Hc & _ & _); congruence);
      try congruence;
      rewrite ?length_app; simpl; split; try done; lia.
  - exists (length ub + 2)%nat. eexists _, _.
    split; [apply job_states_lookup_le; rewrite length_app; simpl; lia|].
    rewrite take_app_ge by lia.
    replace (length ub + 2 - length ub)%nat with 2%nat by lia.
    rewrite job_after_app.
    cbn [take job_after foldl update_job status progress is_terminal].
    split; [done|].
    split; [rewrite job_states_last, job_after_app; reflexivity|].
    left. done.
  - intros i k ji jk Hik Hi Hk. trace_cases Hi; trace_cases Hk; try lia; simpl;
      first [ by apply body_progress_take
            | by apply body_progress_all
            | by (etrans; [by apply body_progress_all|by apply prefix_app_r])
            | done
            | by apply prefix_app_r ].
  - intros i k ji jk Hik Hi Hk Hterm.
    trace_cases Hi; trace_cases Hk; try lia; simpl in *;
      try (destruct (Hbody i) as (Hc & _ & _); congruence);
      try congruence;
      rewrite ?length_app; simpl; split; try done; lia.
  - exists (length ub + 1)%nat. eexists _, _.
    split; [apply job_states_lookup_le; rewrite length_app; simpl; lia|].
    rewrite take_app_ge by lia.
    replace (length ub + 1 - length ub)%nat with 1%nat by lia.
    rewrite job_after_app.
    cbn [take job_after foldl update_job status progress is_terminal].
    split; [done|].
    split; [rewrite job_states_last, job_after_app; reflexivity|].
    right. split; [done|]. eexists. split; reflexivity.
Qed.

Lemma run_shape_result_error (job_id closing : pystr) (l : list effect)
    (j0 : job) :
  clean j0 -> run_shape job_id closing l ->
  result_error_discipline (job_trace job_id j0 l).
Proof.
  intros Hj0 (ub & Hub & Hrun & Htail)%run_shape_updates. unfold job_trace.
  pose proof (body_clean ub j0 Hub Hj0) as (Hbt & Hbr & Hbe).
  pose proof (body_running ub j0 Hub Hrun) as Hbs.
  assert (Hbody : forall i, clean (job_after (take i ub) j0)).
  { intros i. apply body_clean; [by apply Forall_take|done]. }
  destruct Htail as [(html & ->)|(exc & ->)];
    intros i j Hi; pose proof Hi as Hi'; trace_cases Hi.
  1, 5: destruct (Hbody i) as (Hc & Hr & He); rewrite Hr, He;
        repeat split; try (by intros []%is_Some_None);
        try (by intros [[]%is_Some_None _]);
        intros Hs; rewrite Hs in Hc; done.
  - simpl. rewrite Hbe. repeat split; try (by intros []%is_Some_None);
      try (by intros [_ []%is_Some_None]).
    + intros Hs. rewrite Hs in Hbt. done.
    + intros _. right. split; [done|].
      exists (update_job (SetStatus Complete)
                (update_job (SetReport html) (job_after ub j0))).
      split; [|split; reflexivity].
      subst i. rewrite job_states_lookup_le by (rewrite length_app; simpl; lia).
      rewrite take_app_ge by lia.
      replace (S (length ub + 1) - length ub)%nat with 2%nat by lia.
      by rewrite job_after_app.
  - simpl. rewrite Hbe. repeat split; eauto;
      try (by intros []%is_Some_None); try (by intros [_ []%is_Some_None]).
  - simpl. rewrite Hbe. repeat split; eauto;
      try (by intros []%is_Some_None); try (by intros [_ []%is_Some_None]).
  - simpl. rewrite Hbr, Hbe. repeat split; try done;
      try (by intros []%is_Some_None); try (by intros [[]%is_Some_None _]).
  - simpl. rewrite Hbr. repeat split; try done;
      try (by intros []%is_Some_None); try (by intros [[]%is_Some_None _]).
  - simpl. rewrite Hbr. repeat split; try done;
      try (by intros []%is_Some_None); try (by intros [[]%is_Some_None _]).
Qed.

(** C3, as the code has it. From the job as the submission endpoint
    created it, under either worker: every later view of the progress log
    extends every earlier one; once a view shows a terminal status the
    status stays and at most one more line arrives; and that line does
    arrive, after the terminal status was written: it is the worker's
    closing line ([Content brief ready!], [Research complete!]) on a job
    that ends complete, and [ERROR: <text>], with the text of the job's
    error field, on a job that ends in error. *)
Theorem progress_grows_then_closes (E : collaborators) (job_id arg : pystr)
    (s : store) (Hjob : s !! job_id = Some new_job) :
  progress_discipline (lit "Content brief ready!")
    (job_trace job_id new_job (snd (run_content_brief E job_id arg s)))
  /\ progress_discipline (lit "Research complete!")
       (job_trace job_id new_job (snd (_run_crew E job_id arg s))).
Proof.
  rewrite run_content_brief_run, _run_crew_run by eauto. cbn [snd]. split.
  - apply run_shape_progress; [apply new_job_clean|apply brief_log_run_shape].
  - apply run_shape_progress; [apply new_job_clean|apply crew_log_run_shape].
Qed.

Lemma progress_grows_then_closes_witness :
  let E := sample_env (Some (lit "key")) (Some (lit "sk")) 6 in
  sample_store !! sample_id = Some new_job
  /\ progress_discipline (lit "Content brief ready!")
       (job_trace sample_id new_job
          (snd (run_content_brief E sample_id (lit "seo tools") sample_store)))
  /\ progress_discipline (lit "Research complete!")
       (job_trace sample_id new_job
          (snd (_run_crew E sample_id (lit "seo tools") sample_store))).
Proof.
  split; [reflexivity|].
  apply (progress_grows_then_closes _ sample_id (lit "seo tools") sample_store).
  reflexivity.
Defined.

(** C4, as the code has it. From the job as the submission endpoint
    created it, under either worker, in every view: result and error are
    never both set; a complete job shows its result; an error shows only
    under the error status; a result shows under the complete status or in
    the single view before it, where the status is still running. *)
Theorem result_before_complete (E : collaborators) (job_id arg : pystr)
    (s : store) (Hjob : s !! job_id = Some new_job) :
  result_error_discipline
    (job_trace job_id new_job (snd (run_content_brief E job_id arg s)))
  /\ result_error_discipline
       (job_trace job_id new_job (snd (_run_crew E job_id arg s))).
Proof.
  rewrite run_content_brief_run, _run_crew_run by eauto. cbn [snd]. split.
  - apply (run_shape_result_error _ (lit "Content brief ready!"));
      [apply new_job_clean|apply brief_log_run_shape].
  - apply (run_shape_result_error _ (lit "Research complete!"));
      [apply new_job_clean|apply crew_log_run_shape].
Qed.

Lemma result_before_complete_witness :
  let E := sample_env (Some (lit "key")) (Some (lit "sk")) 6 in
  sample_store !! sample_id = Some new_job
  /\ result_error_discipline
       (job_trace sample_id new_job
          (snd (run_content_brief E sample_id (lit "seo tools") sample_store)))
  /\ result_error_discipline
       (job_trace sample_id new_job
          (snd (_run_crew E sample_id (lit "seo tools") sample_store))).
Proof.
  split; [reflexivity|].
  apply (result_before_complete _ sample_id (lit "seo tools") sample_store).
  reflexivity.
Defined.

(** ** Reading the payload back *)

Lemma below_forallb (P : N -> bool) (k : nat) :
  forallb P (map N.of_nat (seq 0 k)) = true ->
  forall n, n < N.of_nat k -> P n = true.
Proof.
  intros H n Hn. rewrite forallb_forall in H. apply H.
  apply in_map_iff. exists (N.to_nat n). split; [lia|].
  apply in_seq. lia.
Qed.

Lemma unhex_hex_digit (n : N) : n < 16 -> unhex (hex_digit n) = Some n.
Proof.
  intros Hn.
  pose proof (below_forallb
                (fun n => match unhex (hex_digit n) with
                          | Some m => m =? n
                          | None => false
                          end) 16 eq_refl n Hn) as H.
  cbv beta in H. destruct (unhex (hex_digit n)) as [m|]; [|done].
  by apply N.eqb_eq in H as ->.
Qed.

Lemma hex4_u_escape (v : N) :
  v < 65536 ->
  hex4 (hex_digit (v / 4096 mod 16)) (hex_digit (v / 256 mod 16))
       (hex_digit (v / 16 mod 16)) (hex_digit (v mod 16)) = Some v.
Proof.
  intros Hv. unfold hex4.
  rewrite !unhex_hex_digit by (apply N.mod_lt; done). f_equal.
  assert (Hb : v / 256 = v / 16 / 16) by (by rewrite N.Div0.div_div).
  assert (Hc : v / 4096 = v / 256 / 16) by (by rewrite N.Div0.div_div).
  pose proof (N.Div0.div_mod v 16) as H0.
  pose proof (N.Div0.div_mod (v / 16) 16) as H1.
  pose proof (N.Div0.div_mod (v / 256) 16) as H2.
  rewrite <- Hb in H1. rewrite <- Hc in H2.
  assert (H3 : v / 4096 < 16) by (by apply N.Div0.div_lt_upper_bound).
  rewrite (N.mod_small (v / 4096) 16) by done.
  set (a := v / 16) in *. set (b := v / 256) in *. set (c := v / 4096) in *.
  set (a0 := v mod 16) in *. set (a1 := a mod 16) in *. set (b1 := b mod 16) in *.
  clearbody a b c a0 a1 b1. lia.
Qed.

Lemma read_units_u_escape (v : N) (s : pystr) :
  v < 65536 -> read_units (u_escape v ++ s) = push_unit v (read_units s).
Proof.
  intros Hv. unfold u_escape. cbn [app].
  change (read_units (backslash :: 117 :: ?a :: ?b :: ?c :: ?d :: s))
    with (match hex4 a b c d with
          | Some v => push_unit v (read_units s)
          | None => None
          end).
  by rewrite hex4_u_escape.
Qed.

Lemma read_units_plain (c : N) (s : pystr) :
  (c =? 34) = false -> (c =? 92) = false ->
  read_units (c :: s) = push_unit c (read_units s).
Proof. intros H34 H92. cbn [read_units]. by rewrite H34, H92. Qed.

Lemma lor_surrogate (x : N) :
  x < 1024 -> N.lor 55296 x = 55296 + x /\ N.lor 56320 x = 56320 + x.
Proof.
  intros Hx.
  pose proof (below_forallb
                (fun x => (N.lor 55296 x =? 55296 + x)
                          && (N.lor 56320 x =? 56320 + x)) 1024
                ltac:(vm_compute; reflexivity) x Hx) as H.
  cbv beta in H. apply andb_prop in H as [H1 H2].
  by apply N.eqb_eq in H1, H2.
Qed.

Lemma surrogate_units (c : N) :
  65536 <= c -> c < 1114112 ->
  exists hi lo,
    utf16_units c = [hi; lo]
    /\ hi < 65536 /\ lo < 65536
    /\ is_high_surrogate hi = true /\ is_low_surrogate lo = true
    /\ 65536 + (hi - 55296) * 1024 + (lo - 56320) = c.
Proof.
  intros Hlo Hhi. unfold utf16_units.
  rewrite (proj2 (N.ltb_ge c 65536)) by done.
  set (v := c - 65536).
  assert (Hcv : c = 65536 + v) by (unfold v; lia). clearbody v.
  assert (Hv : v < 1048576) by lia.
  rewrite N.shiftr_div_pow2. change (2 ^ 10) with 1024.
  change 1023 with (N.ones 10). rewrite !N.land_ones. change (2 ^ 10) with 1024.
  assert (Ha : v / 1024 < 1024) by (by apply N.Div0.div_lt_upper_bound).
  rewrite (N.mod_small (v / 1024)) by done.
  pose proof (N.mod_lt v 1024 ltac:(done)) as Hb.
  destruct (lor_surrogate (v / 1024) Ha) as [-> _].
  destruct (lor_surrogate (v mod 1024) Hb) as [_ ->].
  eexists _, _. split; [reflexivity|].
  pose proof (N.Div0.div_mod v 1024) as Hdm.
  set (a := v / 1024) in *. set (b := v mod 1024) in *. clearbody a b.
  unfold is_high_surrogate, is_low_surrogate.
  repeat split; try lia;
    apply andb_true_intro; split; apply N.leb_le; lia.
Qed.

Lemma read_units_escape_char (c : N) (s : pystr) :
  c < 1114112 ->
  read_units (json_escape_char c ++ s)
  = fold_right push_unit (read_units s) (utf16_units c).
Proof.
  intros Hc. unfold json_escape_char.
  destruct (N.eqb_spec c 92) as [->|H92]; [reflexivity|].
  destruct (N.eqb_spec c 34) as [->|H34]; [reflexivity|].
  destruct (N.eqb_spec c 8) as [->|H8]; [reflexivity|].
  destruct (N.eqb_spec c 12) as [->|H12]; [reflexivity|].
  destruct (N.eqb_spec c 10) as [->|H10]; [reflexivity|].
  destruct (N.eqb_spec c 13) as [->|H13]; [reflexivity|].
  destruct (N.eqb_spec c 9) as [->|H9]; [reflexivity|].
  destruct ((32 <=? c) && (c <=? 126)) eqn:Hprint.
  { apply andb_prop in Hprint as [_ Hle%N.leb_le].
    unfold utf16_units. rewrite (proj2 (N.ltb_lt c 65536)) by lia.
    cbn [app fold_right]. apply read_units_plain; by apply N.eqb_neq. }
  destruct (N.ltb_spec c 65536) as [Hlt|Hge].
  { unfold utf16_units. rewrite (proj2 (N.ltb_lt c 65536)) by done.
    cbn [fold_right]. by apply read_units_u_escape. }
  destruct (surrogate_units c Hge Hc) as (hi & lo & Hunits & Hhi & Hlo & _).
  rewrite Hunits. unfold utf16_units in Hunits.
  rewrite (proj2 (N.ltb_ge c 65536)) in Hunits by done.
  injection Hunits as -> ->.
  rewrite <- app_assoc, !read_units_u_escape by done. reflexivity.
Qed.

Lemma read_units_escaped (doc rest : pystr) :
  forallb is_scalar doc = true ->
  read_units (flat_map json_escape_char doc ++ dquote :: rest)
  = Some (flat_map utf16_units doc, rest).
Proof.
  induction doc as [|c doc IH]; intros Hdoc; [reflexivity|].
  cbn [forallb] in Hdoc. apply andb_prop in Hdoc as [Hc Hdoc].
  cbn [flat_map]. rewrite <- app_assoc, read_units_escape_char.
  - rewrite IH by done. clear IH.
    induction (utf16_units c) as [|u us IHu]; [done|].
    cbn [fold_right app]. by rewrite IHu.
  - unfold is_scalar in Hc. apply orb_prop in Hc as [Hc|Hc].
    + apply N.ltb_lt in Hc. lia.
    + apply andb_prop in Hc as [_ Hc]. by apply N.ltb_lt in Hc.
Qed.

Lemma combine_not_high (c : N) (units : pystr) :
  is_high_surrogate c = false ->
  combine_surrogates (c :: units) = c :: combine_surrogates units.
Proof.
  intros Hc. destruct units as [|lo units]; [done|].
  cbn [combine_surrogates]. by rewrite Hc.
Qed.

Lemma combine_utf16 (doc : pystr) :
  forallb is_scalar doc = true ->
  combine_surrogates (flat_map utf16_units doc) = doc.
Proof.
  induction doc as [|c doc IH]; intros Hdoc; [reflexivity|].
  cbn [forallb] in Hdoc. apply andb_prop in Hdoc as [Hc Hdoc].
  cbn [flat_map]. unfold is_scalar in Hc.
  destruct (N.ltb_spec c 65536) as [Hlt|Hge].
  - unfold utf16_units at 1. rewrite (proj2 (N.ltb_lt c 65536)) by done.
    cbn [app]. rewrite combine_not_high; [by rewrite IH|].
    unfold is_high_surrogate.
    apply orb_prop in Hc as [Hc|Hc].
    + apply N.ltb_lt in Hc. apply andb_false_intro1, N.leb_gt. lia.
    + apply andb_prop in Hc as [Hc _]. apply N.ltb_lt in Hc.
      apply andb_false_intro2, N.leb_gt. lia.
  - assert (Hmax : c < 1114112).
    { apply orb_prop in Hc as [Hc|Hc].
      - apply N.ltb_lt in Hc. lia.
      - apply andb_prop in Hc as [_ Hc]. by apply N.ltb_lt in Hc. }
    destruct (surrogate_units c Hge Hmax)
      as (hi & lo & -> & _ & _ & Hhi & Hlo & Hc').
    cbn [app combine_surrogates]. by rewrite Hhi, Hlo, Hc', IH.
Qed.

Lemma strip_prefix_app (p s : pystr) : strip_prefix p (p ++ s) = Some s.
Proof.
  induction p as [|c p IH]; [by destruct s|].
  cbn [app strip_prefix]. by rewrite N.eqb_refl.
Qed.

(** The payload read back is the stored value: [null] for no document,
    and for a document of Unicode scalar values the document itself. *)
Lemma json_report_round_trip (v : option pystr) :
  (forall doc, v = Some doc -> forallb is_scalar doc = true) ->
  json_loads_report (json_dumps_report v) = Some v.
Proof.
  intros Hv. unfold json_loads_report, json_dumps_report.
  set (P := lit "{" ++ [dquote] ++ lit "report_html" ++ [dquote] ++ lit ": ").
  change (lit "{" ++ json_string (lit "report_html") ++ lit ": " ++ ?Y)
    with (P ++ Y).
  rewrite strip_prefix_app.
  destruct v as [doc|].
  - change (json_string doc ++ lit "}")
      with (dquote :: (flat_map json_escape_char doc ++ [dquote]) ++ lit "}").
    rewrite bool_decide_eq_false_2 by discriminate.
    rewrite N.eqb_refl. rewrite <- app_assoc. cbn [app].
    rewrite read_units_escaped by auto.
    rewrite bool_decide_eq_true_2 by done.
    by rewrite combine_utf16 by auto.
  - by rewrite bool_decide_eq_true_2.
Qed.

(** C8. A stream opened on a job that is already complete: the endpoint
    accepts the connection; the first pass of the generator replays the
    logged progress lines, yields one [complete] event and returns.
    Whatever the store does afterwards, the connection carries exactly one
    [complete] event, as its last event, and no [heartbeat]. The event
    carries the rendered artifact: its payload is the JSON text of the
    object holding the stored document, and read back as JSON it gives
    that document again (for a document of Unicode scalar values, which a
    JSON text can spell). *)
Theorem stream_of_completed_job (job_id : pystr) (s : store) (job : job)
    (ticks : list store)
    (Hjob : s !! job_id = Some job) (Hdone : status job = Complete) :
  let payload := json_dumps_report (report_html job) in
  let done := {| event := "complete"; data := Some payload |} in
  (exists g, StreamResearch.stream_research job_id s = Ok g
     /\ g (s :: ticks) = (map progress_event (progress job) ++ [done], true)
     /\ count_events "complete" (fst (g (s :: ticks))) = 1%nat
     /\ count_events "heartbeat" (fst (g (s :: ticks))) = 0%nat
     /\ last (fst (g (s :: ticks))) = Some done)
  /\ ((forall doc, report_html job = Some doc -> forallb is_scalar doc = true) ->
      json_loads_report payload = Some (report_html job))
  /\ (forall doc, report_html job = Some doc ->
      payload
      = lit "{" ++ [dquote] ++ lit "report_html" ++ [dquote] ++ lit ": "
        ++ [dquote] ++ flat_map json_escape_char doc ++ [dquote] ++ lit "}").
Proof.
  intros payload done. split; [|split].
  - unfold StreamResearch.stream_research. rewrite Hjob.
    eexists. split; [reflexivity|].
    assert (Hrun : StreamResearch.event_generator job_id gen_init (s :: ticks)
                   = (map progress_event (progress job) ++ [done], true)).
    { cbn [StreamResearch.event_generator]. unfold StreamResearch.pass.
      rewrite Hjob. rewrite research_drain by (simpl; lia).
      by rewrite Hdone. }
    rewrite Hrun. split; [done|]. cbn [fst].
    rewrite !count_events_app, !count_events_progress by done.
    split; [done|]. split; [done|]. by rewrite last_snoc.
  - intros Hscalar. by apply json_report_round_trip.
  - intros doc Hdoc. unfold payload. rewrite Hdoc.
    unfold json_dumps_report, json_string, q. rewrite <- !app_assoc.
    reflexivity.
Qed.

Lemma stream_of_completed_job_witness :
  let doc := lit "<!DOCTYPE html>" ++ [10; 233; 8212; 128512; 34; 92] in
  let job := {| status := Complete;
                progress := [lit "Starting content brief for: seo";
                             lit "Content brief ready!"];
                report_html := Some doc;
                error := None |} in
  let s : store := <[sample_id := job]> ∅ in
  let payload := json_dumps_report (Some doc) in
  let done := {| event := "complete"; data := Some payload |} in
  (exists g, StreamResearch.stream_research sample_id s = Ok g
     /\ g [s; s; s]
        = ([progress_event (lit "Starting content brief for: seo");
            progress_event (lit "Content brief ready!"); done], true))
  /\ json_loads_report payload = Some (Some doc).
Proof.
  intros doc job s payload done.
  destruct (stream_of_completed_job sample_id s job [s; s] eq_refl eq_refl)
    as ((g & Hg & Hrun & _) & Hback & _).
  split.
  - exists g. split; [exact Hg|exact Hrun].
  - apply Hback. intros doc' [= <-]. reflexivity.
Defined.
